(** * Box Integration App: a shallow embedding of [app.js]

    The page script exists in several revisions that share most of their
    methods.  The embedding follows the script method by method:

    - [Params]   : query-parameter display (the first revision);
    - [Metadata] : single-file fetch with the two-shape client-credentials
                   fallback;
    - [AuthCode] : single-file fetch with the authorization-code grant and
                   the fixed-layout metadata card;
    - [Display]  : the parameter panel and the console dump of the first
                   revision;
    - [Listing]  : the files list, its buttons and the fetch action of the
                   revision that lists all files first.

    The revision that lists all files first has [getAccessToken],
    [getFileMetadata], [displayFileMetadata] and [formatFileSize] word for
    word as in [Metadata], and [copyToClipboard] as in [AuthCode].

    Strings are sequences of bytes (the UTF-8 form of the script's strings);
    JSON values are a small inductive type; everything a method touches
    outside its arguments (location, DOM nodes, console, network, clipboard,
    timers) lives in one [World] record that is threaded through a state and
    exception monad. *)

From Stdlib Require Import ZArith Zdiv String Ascii List Lia DecimalString Bool.
From stdpp Require Import gmap strings.
Import ListNotations.
Open Scope Z_scope.
Set Warnings "-register-all".
Set Default Proof Using "Type".

(* ================================================================== *)
(** ** Strings *)
(* ================================================================== *)

Module Str.

(** The double quote, for text that contains one. *)
Definition dq : string := String (ascii_of_nat 34) EmptyString.

(** [q s] is [s] between double quotes, as in an HTML attribute. *)
Definition q (s : string) : string := dq +:+ s +:+ dq.

(** The backslash. *)
Definition bs : string := String (ascii_of_nat 92) EmptyString.

(** The bytes of a text that is easier to give by number. *)
Definition bytes (l : list nat) : string :=
  fold_right (fun n s => String (ascii_of_nat n) s) EmptyString l.

(** The line feed, and a run of [n] spaces: the layout of a template
    literal. *)
Definition nl : string := String (ascii_of_nat 10) EmptyString.

Fixpoint sp (n : nat) : string :=
  match n with
  | O => EmptyString
  | S n' => String " " (sp n')
  end.

(** [s.startsWith(p)] *)
Definition startsWith (s p : string) : bool := String.prefix p s.

(** [s.includes(p)] *)
Fixpoint includes (s p : string) : bool :=
  String.prefix p s ||
  match s with
  | EmptyString => false
  | String _ rest => includes rest p
  end.

(** Drop the first [n] characters. *)
Fixpoint drop (n : nat) (s : string) : string :=
  match n, s with
  | O, _ => s
  | S _, EmptyString => EmptyString
  | S n', String _ rest => drop n' rest
  end.

(** [s.replace(p, r)] with a string pattern: only the first occurrence
    of [p] is replaced. *)
Fixpoint replace (s p r : string) : string :=
  if String.prefix p s then r +:+ drop (String.length p) s
  else match s with
       | EmptyString => EmptyString
       | String c rest => String c (replace rest p r)
       end.

(** [parts.join(sep)] *)
Fixpoint join (sep : string) (parts : list string) : string :=
  match parts with
  | [] => EmptyString
  | [x] => x
  | x :: rest => x +:+ sep +:+ join sep rest
  end.

(** Decimal form of an integer, as [String(n)] prints it. *)
Definition of_Z (z : Z) : string := NilZero.string_of_int (Z.to_int z).

(** Does the character occur in the string? *)
Fixpoint mem (c : ascii) (s : string) : bool :=
  match s with
  | EmptyString => false
  | String d rest => Ascii.eqb c d || mem c rest
  end.

End Str.

(* ================================================================== *)
(** ** JSON values, as [response.json()] produces them *)
(* ================================================================== *)

(** Numbers are the integer-valued ones (identifiers, sizes, counts,
    statuses); an object lists its members in enumeration order, each key
    once. *)
Inductive JValue : Type :=
| JUndefined
| JNull
| JBool (b : bool)
| JNum (n : Z)
| JStr (s : string)
| JArr (items : list JValue)
| JObj (members : list (string * JValue)).

(** A thrown value.  Everything this script throws or receives as a
    rejection is an [Error] instance, so [name] and [message] suffice. *)
Record JsError : Type := mkError { err_name : string; message : string }.

(** [new Error(msg)] *)
Definition Error (msg : string) : JsError := mkError "Error" msg.
Definition TypeError (msg : string) : JsError := mkError "TypeError" msg.

Module Js.

(** Truthiness ([ToBoolean]). *)
Definition truthy (v : JValue) : bool :=
  match v with
  | JUndefined | JNull => false
  | JBool b => b
  | JNum n => negb (n =? 0)
  | JStr s => negb (String.eqb s EmptyString)
  | JArr _ | JObj _ => true
  end.

(** [a || b] *)
Definition or (a b : JValue) : JValue := if truthy a then a else b.

Fixpoint lookup (k : string) (members : list (string * JValue)) : JValue :=
  match members with
  | [] => JUndefined
  | (k', v) :: rest => if String.eqb k k' then v else lookup k rest
  end.

(** [v[k]] for a key that no built-in prototype defines ([message],
    [error], [access_token], ...): a member of an object, [undefined] on
    any other non-nullish value, a [TypeError] on [null] and
    [undefined]. *)
Definition prop (v : JValue) (k : string) : JsError + JValue :=
  match v with
  | JObj members => inr (lookup k members)
  | JNull =>
      inl (TypeError ("Cannot read properties of null (reading '" +:+ k +:+ "')"))
  | JUndefined =>
      inl (TypeError ("Cannot read properties of undefined (reading '" +:+ k +:+ "')"))
  | _ => inr JUndefined
  end.

(** [String(v)], the conversion a template literal and [+] with a string
    apply.  Array elements that are [null] or [undefined] print as the
    empty string. *)
Fixpoint toString (v : JValue) : string :=
  match v with
  | JUndefined => "undefined"
  | JNull => "null"
  | JBool true => "true"
  | JBool false => "false"
  | JNum n => Str.of_Z n
  | JStr s => s
  | JArr items =>
      Str.join ","
        (map (fun x => match x with
                       | JUndefined | JNull => EmptyString
                       | _ => toString x
                       end) items)
  | JObj _ => "[object Object]"
  end.

(** [typeof v] *)
Definition typeof (v : JValue) : string :=
  match v with
  | JUndefined => "undefined"
  | JNull => "object"
  | JBool _ => "boolean"
  | JNum _ => "number"
  | JStr _ => "string"
  | JArr _ | JObj _ => "object"
  end.

End Js.

(* ================================================================== *)
(** ** [URLSearchParams], as the URL Standard defines it *)
(* ================================================================== *)

Module URLSearchParams.

(** The list of name-value pairs, in order. *)
Definition t : Type := list (string * string).

Definition hexval (c : ascii) : option nat :=
  let n := nat_of_ascii c in
  if (48 <=? n)%nat && (n <=? 57)%nat then Some (n - 48)%nat
  else if (65 <=? n)%nat && (n <=? 70)%nat then Some (n - 55)%nat
  else if (97 <=? n)%nat && (n <=? 102)%nat then Some (n - 87)%nat
  else None.

(** Percent-decode a byte sequence: [%XY] with two hex digits becomes
    one byte, every other byte is kept. *)
Fixpoint percent_decode (s : string) : string :=
  match s with
  | EmptyString => EmptyString
  | String c rest =>
      if Ascii.eqb c "%" then
        match rest with
        | String h (String l rest') =>
            match hexval h, hexval l with
            | Some a, Some b =>
                String (ascii_of_nat (16 * a + b)) (percent_decode rest')
            | _, _ => String c (percent_decode rest)
            end
        | _ => String c (percent_decode rest)
        end
      else String c (percent_decode rest)
  end.

(** Replace every [+] by a space. *)
Fixpoint plus_to_space (s : string) : string :=
  match s with
  | EmptyString => EmptyString
  | String c rest =>
      String (if Ascii.eqb c "+" then " "%char else c) (plus_to_space rest)
  end.

(** Split at every occurrence of [sep]; the pieces may be empty. *)
Fixpoint split (sep : ascii) (s : string) : list string :=
  match s with
  | EmptyString => [EmptyString]
  | String c rest =>
      if Ascii.eqb c sep then EmptyString :: split sep rest
      else match split sep rest with
           | [] => [String c EmptyString]
           | p :: ps => String c p :: ps
           end
  end.

(** Cut at the first [=]: the name before it and the value after it;
    without [=] the whole sequence is the name and the value is empty. *)
Fixpoint cut (s : string) : string * string :=
  match s with
  | EmptyString => (EmptyString, EmptyString)
  | String c rest =>
      if Ascii.eqb c "=" then (EmptyString, rest)
      else let (n, v) := cut rest in (String c n, v)
  end.

Definition decode (s : string) : string := percent_decode (plus_to_space s).

(** The [application/x-www-form-urlencoded] parser.  Its last step, UTF-8
    decoding, is the identity on well-formed UTF-8 and is left out. *)
Definition parse (input : string) : t :=
  flat_map (fun bytes =>
              if String.eqb bytes EmptyString then []
              else let (n, v) := cut bytes in [(decode n, decode v)])
           (split "&" input).

(** [new URLSearchParams(init)] for a string: one leading [?] is
    dropped. *)
Definition new (init : string) : t :=
  match init with
  | String c rest => if Ascii.eqb c "?" then parse rest else parse init
  | EmptyString => parse init
  end.

(** [params.get(name)]: the value of the first pair with that name, or
    [null]. *)
Fixpoint get (params : t) (name : string) : option string :=
  match params with
  | [] => None
  | (n, v) :: rest => if String.eqb n name then Some v else get rest name
  end.

(** [params.has(name)] *)
Definition has (params : t) (name : string) : bool :=
  existsb (fun p => String.eqb (fst p) name) params.

(** [params.entries()] *)
Definition entries (params : t) : list (string * string) := params.

Definition hexdigit (n : nat) : ascii :=
  if (n <? 10)%nat then ascii_of_nat (48 + n) else ascii_of_nat (55 + n).

(** Bytes the serializer leaves as they are: ASCII alphanumerics and
    [*-._]. *)
Definition unreserved (c : ascii) : bool :=
  let n := nat_of_ascii c in
  ((48 <=? n) && (n <=? 57) || (65 <=? n) && (n <=? 90) ||
   (97 <=? n) && (n <=? 122) ||
   (n =? 42) || (n =? 45) || (n =? 46) || (n =? 95))%nat.

(** The urlencoded byte serializer. *)
Fixpoint encode (s : string) : string :=
  match s with
  | EmptyString => EmptyString
  | String c rest =>
      if Ascii.eqb c " " then String "+" (encode rest)
      else if unreserved c then String c (encode rest)
      else
        let n := nat_of_ascii c in
        String "%" (String (hexdigit (n / 16)) (String (hexdigit (n mod 16))
                                                  (encode rest)))
  end.

(** One serialized pair. *)
Definition pair_text (n v : string) : string := encode n +:+ "=" +:+ encode v.

(** [params.toString()]: the urlencoded serializer. *)
Fixpoint toString (params : t) : string :=
  match params with
  | [] => EmptyString
  | [(n, v)] => pair_text n v
  | (n, v) :: rest => pair_text n v +:+ "&" +:+ toString rest
  end.

(** [new URLSearchParams(record)]: one pair per own property, in
    order. *)
Definition of_record (fields : list (string * string)) : t := fields.

End URLSearchParams.

(* ================================================================== *)
(** ** The page and its environment *)
(* ================================================================== *)

(** What [response.json()] settles to: the parsed body, or the rejection
    raised for a body that is not JSON. *)
Inductive Body : Type :=
| Json (v : JValue)
| NotJson (e : JsError).

Record Response : Type := { status : Z; body : Body }.

(** [response.ok]: the status is in the range 200-299. *)
Definition ok (r : Response) : bool := (200 <=? status r) && (status r <=? 299).

Record Request : Type := {
  url : string;
  method : string;
  headers : list (string * string);
  form : option URLSearchParams.t   (* the urlencoded body of a POST *)
}.

(** What the promise returned by [fetch] settles to. *)
Inductive Settled : Type :=
| Fulfilled (r : Response)
| Rejected (e : JsError).

Inductive LogArg : Type :=
| LText (s : string)
| LValue (v : JValue)
| LError (e : JsError).

Record LogEntry : Type := { level : string; args : list LogArg }.

(** A button: the fetch control, or the copy button a click came from. *)
Record Element : Type := {
  disabled : bool;
  textContent : string;
  background : string   (* style.background *)
}.

(** A pending [setTimeout] callback.  The only one the modelled methods
    register restores a copy button. *)
Inductive Timer : Type :=
| RestoreButton (originalText originalBackground : string).

Record World : Type := {
  location_search : string;              (* window.location.search *)
  location_href : string;                (* window.location.href *)
  upstream : list Request -> Request -> Settled;
                                         (* the network: what a request
                                            settles to, given the requests
                                            issued before it *)
  requests : list Request;               (* requests issued, oldest first *)
  clipboard_rejects : string -> option JsError;
                                         (* navigator.clipboard.writeText
                                            (the page is served securely, so
                                            the clipboard object exists):
                                            the rejection, if any *)
  clipboard : list string;               (* texts written, oldest first *)
  event_target : option Element;         (* event.target when a promise
                                            callback runs; None when the
                                            global event is undefined *)
  timers : list (Z * Timer);             (* delay in ms, callback *)
  alerts : list string;                  (* alert(message) *)
  console : list LogEntry;
  button : Element;                      (* the fetch control *)
  container : string                     (* innerHTML of the output
                                            container; the page has both
                                            nodes *)
}.

Definition set_requests (x : list Request) (w : World) : World :=
  {| location_search := location_search w; location_href := location_href w;
     upstream := upstream w; requests := x;
     clipboard_rejects := clipboard_rejects w; clipboard := clipboard w;
     event_target := event_target w; timers := timers w; alerts := alerts w;
     console := console w; button := button w; container := container w |}.

Definition set_clipboard (x : list string) (w : World) : World :=
  {| location_search := location_search w; location_href := location_href w;
     upstream := upstream w; requests := requests w;
     clipboard_rejects := clipboard_rejects w; clipboard := x;
     event_target := event_target w; timers := timers w; alerts := alerts w;
     console := console w; button := button w; container := container w |}.

Definition set_event_target (x : option Element) (w : World) : World :=
  {| location_search := location_search w; location_href := location_href w;
     upstream := upstream w; requests := requests w;
     clipboard_rejects := clipboard_rejects w; clipboard := clipboard w;
     event_target := x; timers := timers w; alerts := alerts w;
     console := console w; button := button w; container := container w |}.

Definition set_timers (x : list (Z * Timer)) (w : World) : World :=
  {| location_search := location_search w; location_href := location_href w;
     upstream := upstream w; requests := requests w;
     clipboard_rejects := clipboard_rejects w; clipboard := clipboard w;
     event_target := event_target w; timers := x; alerts := alerts w;
     console := console w; button := button w; container := container w |}.

Definition set_alerts (x : list string) (w : World) : World :=
  {| location_search := location_search w; location_href := location_href w;
     upstream := upstream w; requests := requests w;
     clipboard_rejects := clipboard_rejects w; clipboard := clipboard w;
     event_target := event_target w; timers := timers w; alerts := x;
     console := console w; button := button w; container := container w |}.

Definition set_console (x : list LogEntry) (w : World) : World :=
  {| location_search := location_search w; location_href := location_href w;
     upstream := upstream w; requests := requests w;
     clipboard_rejects := clipboard_rejects w; clipboard := clipboard w;
     event_target := event_target w; timers := timers w; alerts := alerts w;
     console := x; button := button w; container := container w |}.

Definition set_button (x : Element) (w : World) : World :=
  {| location_search := location_search w; location_href := location_href w;
     upstream := upstream w; requests := requests w;
     clipboard_rejects := clipboard_rejects w; clipboard := clipboard w;
     event_target := event_target w; timers := timers w; alerts := alerts w;
     console := console w; button := x; container := container w |}.

Definition set_container (x : string) (w : World) : World :=
  {| location_search := location_search w; location_href := location_href w;
     upstream := upstream w; requests := requests w;
     clipboard_rejects := clipboard_rejects w; clipboard := clipboard w;
     event_target := event_target w; timers := timers w; alerts := alerts w;
     console := console w; button := button w; container := x |}.

Definition set_disabled (b : bool) (e : Element) : Element :=
  {| disabled := b; textContent := textContent e; background := background e |}.

Definition set_textContent (s : string) (e : Element) : Element :=
  {| disabled := disabled e; textContent := s; background := background e |}.

Definition set_background (s : string) (e : Element) : Element :=
  {| disabled := disabled e; textContent := textContent e; background := s |}.

(* ================================================================== *)
(** ** Statements: state passing with exceptions *)
(* ================================================================== *)

(** How a statement completes. *)
Inductive Completion (A : Type) : Type :=
| Normal (a : A)
| Throw (e : JsError).
Arguments Normal {A} a.
Arguments Throw {A} e.

(** A method body: it runs in a world and leaves a world.  An [await] is
    a step of the same run: the promise has settled when the run goes
    on. *)
Definition Run (A : Type) : Type := World -> Completion A * World.

#[global] Instance Run_ret : MRet Run := fun A a w => (Normal a, w).

#[global] Instance Run_bind : MBind Run := fun A B f m w =>
  match m w with
  | (Normal a, w') => f a w'
  | (Throw e, w') => (Throw e, w')
  end.

(** [throw e] *)
Definition throw {A : Type} (e : JsError) : Run A := fun w => (Throw e, w).

(** Read and change the world. *)
Definition gets {A : Type} (f : World -> A) : Run A := fun w => (Normal (f w), w).
Definition modify (f : World -> World) : Run unit := fun w => (Normal tt, f w).

(** Lift the outcome of a property access. *)
Definition lift {A : Type} (r : JsError + A) : Run A :=
  match r with
  | inl e => throw e
  | inr a => mret a
  end.

(** [try { body } catch (error) { handler }] *)
Definition try_catch {A : Type} (body : Run A) (handler : JsError -> Run A) : Run A :=
  fun w =>
    match body w with
    | (Normal a, w') => (Normal a, w')
    | (Throw e, w') => handler e w'
    end.

(** [try { body } finally { cleanup }]: the cleanup runs however the body
    completes; the body's completion stands unless the cleanup throws. *)
Definition try_finally {A : Type} (body : Run A) (cleanup : Run unit) : Run A :=
  fun w =>
    match body w with
    | (c, w') =>
        match cleanup w' with
        | (Normal _, w'') => (c, w'')
        | (Throw e, w'') => (Throw e, w'')
        end
    end.

(** [console.log(...)] and [console.error(...)] *)
Definition console_log (xs : list LogArg) : Run unit :=
  modify (fun w => set_console (console w ++ [{| level := "log"; args := xs |}]) w).
Definition console_error (xs : list LogArg) : Run unit :=
  modify (fun w => set_console (console w ++ [{| level := "error"; args := xs |}]) w).

(** [await fetch(url, init)]: the request is recorded and settles as the
    upstream decides; a rejection is thrown at the [await]. *)
Definition fetch (r : Request) : Run Response :=
  fun w =>
    let w' := set_requests (requests w ++ [r]) w in
    match upstream w (requests w) r with
    | Fulfilled resp => (Normal resp, w')
    | Rejected e => (Throw e, w')
    end.

(** [await response.json()] *)
Definition json (r : Response) : Run JValue :=
  match body r with
  | Json v => mret v
  | NotJson e => throw e
  end.

(** [alert(message)] *)
Definition alert (msg : string) : Run unit :=
  modify (fun w => set_alerts (alerts w ++ [msg]) w).

(** [setTimeout(callback, delay)] *)
Definition setTimeout (t : Timer) (delay : Z) : Run unit :=
  modify (fun w => set_timers (timers w ++ [(delay, t)]) w).

(* ================================================================== *)
(** ** Methods every revision of the script has *)
(* ================================================================== *)

Module Params.

(** The text-node serialization behind [div.innerHTML]: [&], [<], [>]
    and the no-break space (bytes C2 A0) become entities; quotes are
    kept. *)
Fixpoint escape (s : string) : string :=
  match s with
  | EmptyString => EmptyString
  | String c rest =>
      if Ascii.eqb c "&" then "&amp;" +:+ escape rest
      else if Ascii.eqb c "<" then "&lt;" +:+ escape rest
      else if Ascii.eqb c ">" then "&gt;" +:+ escape rest
      else if Ascii.eqb c (ascii_of_nat 194) then
        match rest with
        | String d rest' =>
            if Ascii.eqb d (ascii_of_nat 160) then "&nbsp;" +:+ escape rest'
            else String c (escape rest)
        | EmptyString => String c (escape rest)
        end
      else String c (escape rest)
  end.

(** [escapeHtml(text)]: [div.textContent = text; return div.innerHTML].
    Assigning [null] or [undefined] to [textContent] leaves the node
    empty; any other value is converted to a string. *)
Definition escapeHtml (text : JValue) : string :=
  match text with
  | JUndefined | JNull => EmptyString
  | _ => escape (Js.toString text)
  end.

(** [createParameterItem(key, value)] *)
Definition createParameterItem (key value : string) : string :=
  Str.nl +:+
  Str.sp 12 +:+ "<div class=" +:+ Str.q "parameter-item" +:+ ">" +:+ Str.nl +:+
  Str.sp 16 +:+ "<span class=" +:+ Str.q "parameter-name" +:+ ">" +:+
    escapeHtml (JStr key) +:+ ":</span>" +:+ Str.nl +:+
  Str.sp 16 +:+ "<span class=" +:+ Str.q "parameter-value" +:+ ">" +:+
    escapeHtml (JStr value) +:+ "</span>" +:+ Str.nl +:+
  Str.sp 16 +:+ "<button class=" +:+ Str.q "copy-button" +:+ " onclick=" +:+
    Str.q ("boxApp.copyToClipboard('" +:+ escapeHtml (JStr key) +:+ "')") +:+
    ">Copy</button>" +:+ Str.nl +:+
  Str.sp 12 +:+ "</div>" +:+ Str.nl +:+
  Str.sp 8.

(** [showError(message)] *)
Definition showError (msg : string) : Run unit := alert msg.

(** [showCopyFeedback(button)].  The button is the node the click event
    points at, so the change is written back to it. *)
Definition showCopyFeedback (button : Element) : Run unit :=
  let originalText := textContent button in
  let originalBackground := background button in
  let button := set_textContent "Copied!" button in
  let button := set_background "#28a745" button in
  modify (set_event_target (Some button));;
  setTimeout (RestoreButton originalText originalBackground) 1000.


(** [navigator.clipboard.writeText(text)] *)
Definition writeText (text : string) : Run unit :=
  fun w =>
    match clipboard_rejects w text with
    | None => (Normal tt, set_clipboard (clipboard w ++ [text]) w)
    | Some e => (Throw e, w)
    end.

(** [event.target], read inside a promise callback. *)
Definition event_dot_target : Run Element :=
  fun w =>
    match event_target w with
    | Some el => (Normal el, w)
    | None =>
        (Throw (TypeError "Cannot read properties of undefined (reading 'target')"), w)
    end.

(** The tail of [copyToClipboard] and [copyMetadataValue]:
    [writeText(text).then(() => showCopyFeedback(event.target))
                   .catch(err => { console.error(..., err); showError(...) })] *)
Definition write_then_feedback (label : string) (textToCopy : string) : Run unit :=
  try_catch
    (writeText textToCopy;;
     button ← event_dot_target;
     showCopyFeedback button)
    (fun err =>
       console_error [LText label; LError err];;
       showError "Failed to copy to clipboard").

(** [urlParams.get(elementId) || ''] *)
Definition get_or_empty (params : URLSearchParams.t) (key : string) : string :=
  match URLSearchParams.get params key with
  | Some v => v
  | None => EmptyString
  end.

(** [copyToClipboard(elementId)] *)
Definition copyToClipboard (elementId : string) : Run unit :=
  textToCopy ←
    (if String.eqb elementId "current-url" then gets location_href
     else
       urlParams ← gets (fun w => URLSearchParams.new (location_search w));
       mret (get_or_empty urlParams elementId));
  write_then_feedback "Failed to copy text: " textToCopy.

(** [params[key] = value] on an object literal, for a string [value]:
    the property is created or overwritten, except that the key
    [__proto__] reaches the inherited setter, which ignores a string and
    stores nothing. *)
Definition assign (params : gmap string string) (key value : string) : gmap string string :=
  if String.eqb key "__proto__" then params else <[key := value]> params.

(** [getParametersObject()]: a fresh object, one assignment
    [params[key] = value] per entry in order.  The map holds the own
    properties of the object. *)
Definition getParametersObject (w : World) : gmap string string :=
  let urlParams := URLSearchParams.new (location_search w) in
  foldl (fun params kv => assign params (fst kv) (snd kv)) ∅
        (URLSearchParams.entries urlParams).

(** [getParameter(key)]: the value, or [null] (here [None]). *)
Definition getParameter (w : World) (key : string) : option string :=
  let urlParams := URLSearchParams.new (location_search w) in
  URLSearchParams.get urlParams key.

(** [hasParameter(key)] *)
Definition hasParameter (w : World) (key : string) : bool :=
  let urlParams := URLSearchParams.new (location_search w) in
  URLSearchParams.has urlParams key.

End Params.

(* ================================================================== *)
(** ** What the engine supplies *)
(* ================================================================== *)

(** Three services of the engine are taken as they come:
    - [Math_floor_log x k] is [Math.floor(Math.log(x) / Math.log(k))] for a
      positive [x], evaluated in binary64 by the engine's own logarithm;
    - [Date_toLocaleString v] is [new Date(v).toLocaleString()], which
      depends on locale and time zone;
    - [StringToNumber s] is the numeric value of a string ([None] for
      [NaN]), wanted only where a non-number reaches arithmetic. *)
Class Host : Type := {
  Math_floor_log : Z -> Z -> Z;
  Date_toLocaleString : JValue -> string;
  StringToNumber : string -> option Z
}.

(** An engine whose logarithm quotient is the real one (for a base that
    is a power of two). *)
Definition exact_host : Host := {|
  Math_floor_log := fun x k => Z.log2 x / Z.log2 k;
  Date_toLocaleString := Js.toString;
  StringToNumber := fun _ => None
|}.

(* ================================================================== *)
(** ** Rendering helpers shared by the fetching revisions *)
(* ================================================================== *)

Module Render.

Definition digit (d : Z) : ascii := ascii_of_nat (48 + Z.to_nat d).

(** The number of hundredths nearest to [num/den], ties upward: the
    integer [n] that [toFixed(2)] prints as [n/100]. *)
Definition hundredths (num den : Z) : Z := (200 * num + den) / (2 * den).

(** [x.toFixed(2)] for [x = num/den], [0 <= x < 1e21]: the decimal with
    exactly two fraction digits nearest to [x], the larger one on a
    tie. *)
Definition toFixed2 (num den : Z) : string :=
  let n := hundredths num den in
  Str.of_Z (n / 100) +:+ "." +:+
  String (digit ((n mod 100) / 10)) (String (digit (n mod 10)) EmptyString).

(** Cut a decimal at its point. *)
Fixpoint cut_point (s : string) : string * option string :=
  match s with
  | EmptyString => (EmptyString, None)
  | String c rest =>
      if Ascii.eqb c "." then (EmptyString, Some rest)
      else let (i, f) := cut_point rest in (String c i, f)
  end.

(** Drop the zeros at the end. *)
Fixpoint drop_zeros (s : string) : string :=
  match s with
  | EmptyString => EmptyString
  | String c rest =>
      let rest' := drop_zeros rest in
      if Ascii.eqb c "0" && String.eqb rest' EmptyString then EmptyString
      else String c rest'
  end.

(** [parseFloat(s) + ''] for a plain decimal [s] as [toFixed] prints
    it: the number is printed again in its shortest form, that is,
    without the zeros that end the fraction and without a bare
    point. *)
Definition parseFloat_toString (s : string) : string :=
  match cut_point s with
  | (i, None) => i
  | (i, Some f) =>
      let f' := drop_zeros f in
      if String.eqb f' EmptyString then i else i +:+ "." +:+ f'
  end.

(** [sizes[i]] *)
Definition at_index (l : list string) (i : Z) : JValue :=
  if i <? 0 then JUndefined
  else match nth_error l (Z.to_nat i) with
       | Some s => JStr s
       | None => JUndefined
       end.

(** [JSON.stringify] quoting of a string. *)
Definition hex4 (n : nat) : string :=
  let h d := if (d <? 10)%nat then ascii_of_nat (48 + d) else ascii_of_nat (87 + d) in
  String "0" (String "0" (String (h (n / 16)%nat) (String (h (n mod 16)%nat) EmptyString))).

Fixpoint quote_body (s : string) : string :=
  match s with
  | EmptyString => EmptyString
  | String c rest =>
      let n := nat_of_ascii c in
      (if (n =? 34)%nat then Str.bs +:+ Str.dq
       else if (n =? 92)%nat then Str.bs +:+ Str.bs
       else if (n =? 8)%nat then Str.bs +:+ "b"
       else if (n =? 12)%nat then Str.bs +:+ "f"
       else if (n =? 10)%nat then Str.bs +:+ "n"
       else if (n =? 13)%nat then Str.bs +:+ "r"
       else if (n =? 9)%nat then Str.bs +:+ "t"
       else if (n <? 32)%nat then Str.bs +:+ "u" +:+ hex4 n
       else String c EmptyString) +:+ quote_body rest
  end.

Definition quote (s : string) : string := Str.dq +:+ quote_body s +:+ Str.dq.

(** [JSON.stringify(value, null, 2)] below the current indentation;
    [None] stands for [undefined]. *)
Fixpoint stringify (indent : string) (v : JValue) {struct v} : option string :=
  match v with
  | JUndefined => None
  | JNull => Some "null"
  | JBool true => Some "true"
  | JBool false => Some "false"
  | JNum n => Some (Str.of_Z n)
  | JStr s => Some (quote s)
  | JArr items =>
      let inner := indent +:+ "  " in
      let parts :=
        map (fun x => match stringify inner x with
                      | Some s => s
                      | None => "null"
                      end) items in
      Some (match parts with
            | [] => "[]"
            | _ => "[" +:+ Str.nl +:+ inner +:+
                   Str.join ("," +:+ Str.nl +:+ inner) parts +:+
                   Str.nl +:+ indent +:+ "]"
            end)
  | JObj members =>
      let inner := indent +:+ "  " in
      let parts :=
        flat_map (fun kv => match kv with
                            | (k, x) =>
                                match stringify inner x with
                                | Some s => [quote k +:+ ": " +:+ s]
                                | None => []
                                end
                            end) members in
      Some (match parts with
            | [] => "{}"
            | _ => "{" +:+ Str.nl +:+ inner +:+
                   Str.join ("," +:+ Str.nl +:+ inner) parts +:+
                   Str.nl +:+ indent +:+ "}"
            end)
  end.

Definition JSON_stringify (v : JValue) : JValue :=
  match stringify EmptyString v with
  | Some s => JStr s
  | None => JUndefined
  end.

Section WithHost.
Context `{Host}.

(** [ToNumber]; [None] is [NaN]. *)
Definition ToNumber (v : JValue) : option Z :=
  match v with
  | JUndefined => None
  | JNull => Some 0
  | JBool true => Some 1
  | JBool false => Some 0
  | JNum n => Some n
  | JStr s => StringToNumber s
  | JArr _ | JObj _ => StringToNumber (Js.toString v)
  end.

(** [bytes === 0] *)
Definition is_zero (bytes : JValue) : bool :=
  match bytes with
  | JNum n => n =? 0
  | _ => false
  end.

Definition sizes : list string := ["Bytes"; "KB"; "MB"; "GB"; "TB"].

(** [formatFileSize(bytes)].  A number that is not positive has no
    finite logarithm: the quotient is [NaN] and no unit is found.
    Otherwise [bytes / Math.pow(k, i)] is the exact rational
    [bytes / k^i] (a division by a power of two is exact in
    binary64). *)
Definition formatFileSize (bytes : JValue) : string :=
  if is_zero bytes then "0 Bytes"
  else
    let k := 1024 in
    match ToNumber bytes with
    | Some x =>
        if 0 <? x then
          let i := Math_floor_log x k in
          let num := if 0 <=? i then x else x * k ^ (- i) in
          let den := if 0 <=? i then k ^ i else 1 in
          parseFloat_toString (toFixed2 num den) +:+ " " +:+
          Js.toString (at_index sizes i)
        else "NaN undefined"
    | None => "NaN undefined"
    end.

End WithHost.

End Render.

(** How one turn of a loop ends: the method returns, or the loop goes
    on. *)
Inductive Step (A : Type) : Type :=
| Return (a : A)
| Continue.
Arguments Return {A} a.
Arguments Continue {A}.

(** [!value] for what [getParameter] returns: [null] and the empty string
    are falsy. *)
Definition missing (value : option string) : bool :=
  match value with
  | None => true
  | Some s => String.eqb s EmptyString
  end.

(** The string behind a parameter that passed the [!value] test. *)
Definition text_of (value : option string) : string :=
  match value with
  | Some s => s
  | None => EmptyString
  end.

(* ================================================================== *)
(** ** The revision with the client-credentials fallback *)
(* ================================================================== *)

Module Metadata.
Import Params Render.

Definition boxApiBase : string := "https://api.box.com/2.0".

Definition token_endpoint : string := "https://api.box.com/oauth2/token".

(** The labels of the fetch control, byte for byte as in the script. *)
Definition loading_label : string :=
  Str.bytes [226; 128; 154; 195; 168; 226; 137; 165]%nat +:+ " Fetching...".
Definition idle_label : string :=
  Str.bytes [239; 163; 191; 195; 188; 195; 174; 195; 167]%nat +:+ " Fetch File Metadata".

(** [showMetadataError(message)] *)
Definition showMetadataError (msg : string) : Run unit :=
  modify (set_container
            ("<div class=" +:+ Str.q "error" +:+ ">" +:+ escapeHtml (JStr msg) +:+ "</div>")).


(** The grant shapes, in the order they are tried. *)
Definition authMethods (clientId clientSecret : string) : list (list (string * string)) :=
  [ [ ("grant_type", "client_credentials");
      ("client_id", clientId);
      ("client_secret", clientSecret) ];
    [ ("grant_type", "client_credentials");
      ("client_id", clientId);
      ("client_secret", clientSecret);
      ("box_subject_type", "enterprise") ] ].

Definition token_request (shape : list (string * string)) : Request :=
  {| url := token_endpoint;
     method := "POST";
     headers := [("Content-Type", "application/x-www-form-urlencoded")];
     form := Some (URLSearchParams.of_record shape) |}.

(** [`Token request failed: ${status} - ${errorData.error_description || errorData.error}`] *)
Definition token_failure (response : Response) (errorData : JValue) : Run JsError :=
  description ← lift (Js.prop errorData "error_description");
  text ← (if Js.truthy description then mret description
          else lift (Js.prop errorData "error"));
  mret (Error ("Token request failed: " +:+ Str.of_Z (status response) +:+ " - " +:+
               Js.toString text)).

(** The body of the [for] loop of [getAccessToken] at index [i]. *)
Definition attempt (methods : list (list (string * string))) (i : nat) : Run (Step JValue) :=
  let last := Nat.eqb i (length methods - 1) in
  let number := Str.of_Z (Z.of_nat i + 1) in
  try_catch
    (console_log [LText ("Trying authentication method " +:+ number +:+ "...")];;
     response ← fetch (token_request (nth i methods []));
     if ok response then
       tokenData ← json response;
       console_log [LText ("Authentication method " +:+ number +:+ " successful")];;
       mret (Return tokenData)
     else
       errorData ← json response;
       console_log [LText ("Authentication method " +:+ number +:+ " failed:");
                    LValue errorData];;
       (* If this is the last method, throw the error *)
       if last then
         e ← token_failure response errorData;
         throw e
       else mret Continue)
    (fun error =>
       (* If this is the last method, throw the error *)
       if last then throw error else mret Continue).

(** [for (let i = 0; i < authMethods.length; i++)], with [n] turns
    left; falling out of the loop returns [undefined]. *)
Fixpoint attempts (methods : list (list (string * string))) (n i : nat) : Run JValue :=
  match n with
  | O => mret JUndefined
  | S n' =>
      s ← attempt methods i;
      match s with
      | Return v => mret v
      | Continue => attempts methods n' (S i)
      end
  end.

(** [getAccessToken(clientId, clientSecret)] *)
Definition getAccessToken (clientId clientSecret : string) : Run JValue :=
  let methods := authMethods clientId clientSecret in
  attempts methods (length methods) 0.

Definition file_request (fileId : string) (accessToken : JValue) : Request :=
  {| url := boxApiBase +:+ "/files/" +:+ fileId;
     method := "GET";
     headers := [("Authorization", "Bearer " +:+ Js.toString accessToken);
                 ("Content-Type", "application/json")];
     form := None |}.

(** [getFileMetadata(fileId, accessToken)] *)
Definition getFileMetadata (fileId : string) (accessToken : JValue) : Run JValue :=
  response ← fetch (file_request fileId accessToken);
  if negb (ok response) then
    errorData ← json response;
    msg ← lift (Js.prop errorData "message");
    text ← (if Js.truthy msg then mret msg else lift (Js.prop errorData "error"));
    throw (Error ("File metadata request failed: " +:+ Str.of_Z (status response) +:+
                  " - " +:+ Js.toString text))
  else json response.

Definition metadataFields : list (string * string) :=
  [ ("id", "File ID"); ("name", "File Name"); ("type", "Type");
    ("size", "Size (bytes)"); ("created_at", "Created At");
    ("modified_at", "Modified At"); ("description", "Description");
    ("path_collection", "Path Collection"); ("owned_by", "Owned By");
    ("shared_link", "Shared Link"); ("parent", "Parent Folder");
    ("item_status", "Item Status"); ("version_number", "Version Number");
    ("comment_count", "Comment Count"); ("permissions", "Permissions");
    ("tags", "Tags"); ("lock", "Lock Status"); ("extension", "Extension");
    ("is_package", "Is Package"); ("expires_at", "Expires At");
    ("representations", "Representations");
    ("classification", "Classification");
    ("watermark_info", "Watermark Info");
    ("is_externally_owned", "Is Externally Owned");
    ("has_collaborations", "Has Collaborations"); ("metadata", "Metadata");
    ("fields", "Fields"); ("etag", "ETag"); ("sequence_id", "Sequence ID");
    ("sha1", "SHA1"); ("file_version", "File Version") ].

Section WithHost.
Context `{Host}.

(** The value shown for one field: dates, the size and objects are
    formatted, in this order, each test on the original value. *)
Definition displayValue (key : string) (value : JValue) : JValue :=
  let displayValue := value in
  let displayValue :=
    if Str.includes key "_at" && String.eqb (Js.typeof value) "string"
    then JStr (Date_toLocaleString value) else displayValue in
  let displayValue :=
    if String.eqb key "size" && String.eqb (Js.typeof value) "number"
    then JStr (formatFileSize value) else displayValue in
  let displayValue :=
    if String.eqb (Js.typeof value) "object"
    then JSON_stringify value else displayValue in
  displayValue.

Definition metadata_item (label : string) (shown : JValue) : string :=
  Str.nl +:+
  Str.sp 20 +:+ "<div class=" +:+ Str.q "metadata-item" +:+ ">" +:+ Str.nl +:+
  Str.sp 24 +:+ "<span class=" +:+ Str.q "metadata-name" +:+ ">" +:+ label +:+
    ":</span>" +:+ Str.nl +:+
  Str.sp 24 +:+ "<span class=" +:+ Str.q "metadata-value" +:+ ">" +:+
    escapeHtml (JStr (Js.toString shown)) +:+ "</span>" +:+ Str.nl +:+
  Str.sp 24 +:+ "<button class=" +:+ Str.q "copy-button" +:+ " onclick=" +:+
    Str.q ("boxApp.copyMetadataValue('" +:+ escapeHtml (JStr (Js.toString shown)) +:+
           "')") +:+ ">Copy</button>" +:+ Str.nl +:+
  Str.sp 20 +:+ "</div>" +:+ Str.nl +:+
  Str.sp 16.

(** [metadataFields.forEach(field => ...)], appending to
    [metadataHtml]. *)
Fixpoint forEach_field (metadata : JValue) (fields : list (string * string))
         (metadataHtml : string) : Run string :=
  match fields with
  | [] => mret metadataHtml
  | (key, label) :: rest =>
      value ← lift (Js.prop metadata key);
      match value with
      | JUndefined | JNull => forEach_field metadata rest metadataHtml
      | _ =>
          forEach_field metadata rest
            (metadataHtml +:+ metadata_item label (displayValue key value))
      end
  end.

(** [displayFileMetadata(metadata)] *)
Definition displayFileMetadata (metadata : JValue) : Run unit :=
  metadataHtml ← forEach_field metadata metadataFields EmptyString;
  let metadataHtml :=
    if String.eqb metadataHtml EmptyString
    then "<div class=" +:+ Str.q "loading" +:+
         ">No metadata available for this file.</div>"
    else metadataHtml in
  modify (set_container metadataHtml).

(** The [catch] block of [fetchFileMetadata]. *)
Definition helpful (errorMessage : string) : string :=
  if Str.includes errorMessage "box_subject_id" then
    "Authentication error: Please check your Box application configuration. The app may need enterprise access or different authentication settings."
  else if Str.includes errorMessage "401" then
    "Authentication failed: Please verify your client_id and client_secret are correct."
  else if Str.includes errorMessage "403" then
    "Access denied: The application may not have permission to access this file or the Box API."
  else if Str.includes errorMessage "404" then
    "File not found: The specified file_id does not exist or is not accessible."
  else errorMessage.

Definition file_id_required : string :=
  "File ID is required. Please add file_id parameter to the URL.".
Definition credentials_required : string :=
  "Client ID and Client Secret are required. Please add client_id and client_secret parameters to the URL.".

(** [fetchFileMetadata()] *)
Definition fetchFileMetadata : Run unit :=
  fileId ← gets (fun w => getParameter w "file_id");
  clientId ← gets (fun w => getParameter w "client_id");
  clientSecret ← gets (fun w => getParameter w "client_secret");
  if missing fileId then showMetadataError file_id_required
  else if missing clientId || missing clientSecret then
    showMetadataError credentials_required
  else
    (* Show loading state *)
    modify (fun w => set_button (set_disabled true (button w)) w);;
    modify (fun w => set_button (set_textContent loading_label (button w)) w);;
    modify (set_container
              ("<div class=" +:+ Str.q "loading" +:+
               ">Fetching file metadata from Box API...</div>"));;
    try_finally
      (try_catch
         (tokenResponse ← getAccessToken (text_of clientId) (text_of clientSecret);
          access_token ← lift (Js.prop tokenResponse "access_token");
          if negb (Js.truthy access_token) then
            description ← lift (Js.prop tokenResponse "error_description");
            throw (Error ("Failed to get access token: " +:+
                          Js.toString (Js.or description (JStr "Unknown error"))))
          else
            console_log [LText "Successfully obtained access token"];;
            metadata ← getFileMetadata (text_of fileId) access_token;
            displayFileMetadata metadata)
         (fun error =>
            console_error [LText "Error fetching file metadata:"; LError error];;
            let errorMessage := helpful (message error) in
            showMetadataError ("Failed to fetch file metadata: " +:+ errorMessage)))
      (* Reset button state *)
      (modify (fun w => set_button (set_disabled false (button w)) w);;
       modify (fun w => set_button (set_textContent idle_label (button w)) w)).

End WithHost.

End Metadata.

(* ================================================================== *)
(** ** The revision with the authorization-code grant *)
(* ================================================================== *)

Module AuthCode.
Import Params Render.

Definition boxApiBase : string := "https://api.box.com/2.0".

Definition token_endpoint : string := "https://api.box.com/oauth2/token".

Definition loading_label : string := "⏳ Fetching...".
Definition idle_label : string := "📄 Get File Metadata".

(** [copyToClipboard(elementId)], with the synthetic [file-id-] keys. *)
Definition copyToClipboard (elementId : string) : Run unit :=
  textToCopy ←
    (if String.eqb elementId "current-url" then gets location_href
     else if Str.startsWith elementId "file-id-" then
       (* Handle file ID copying *)
       let fileId := Str.replace elementId "file-id-" EmptyString in
       mret fileId
     else
       urlParams ← gets (fun w => URLSearchParams.new (location_search w));
       mret (get_or_empty urlParams elementId));
  write_then_feedback "Failed to copy text: " textToCopy.

(** [showFilesError(message)] *)
Definition showFilesError (msg : string) : Run unit :=
  modify (set_container
            ("<div class=" +:+ Str.q "error" +:+ ">" +:+ escapeHtml (JStr msg) +:+ "</div>")).

Definition token_request (authCode clientId clientSecret : string) : Request :=
  {| url := token_endpoint;
     method := "POST";
     headers := [("Content-Type", "application/x-www-form-urlencoded")];
     form := Some (URLSearchParams.of_record
                     [ ("grant_type", "authorization_code");
                       ("code", authCode);
                       ("client_id", clientId);
                       ("client_secret", clientSecret) ]) |}.

(** [getAccessToken(clientId, clientSecret)] *)
Definition getAccessToken (clientId clientSecret : string) : Run JValue :=
  authCode ← gets (fun w => getParameter w "auth_code");
  if missing authCode then
    throw (Error "Authorization code is required. Please ensure the auth_code parameter is present in the URL.")
  else
    response ← fetch (token_request (text_of authCode) clientId clientSecret);
    if negb (ok response) then
      errorData ← json response;
      description ← lift (Js.prop errorData "error_description");
      text ← (if Js.truthy description then mret description
              else lift (Js.prop errorData "error"));
      throw (Error ("Token request failed: " +:+ Str.of_Z (status response) +:+ " - " +:+
                    Js.toString text))
    else json response.

Definition file_request (fileId : string) (accessToken : JValue) : Request :=
  {| url := boxApiBase +:+ "/files/" +:+ fileId;
     method := "GET";
     headers := [("Authorization", "Bearer " +:+ Js.toString accessToken);
                 ("Content-Type", "application/json")];
     form := None |}.

(** [`${response.status} - ${errorData.message || errorData.error || 'Unknown error'}`] *)
Definition file_failure (response : Response) (errorData : JValue) : Run JsError :=
  msg ← lift (Js.prop errorData "message");
  text ← (if Js.truthy msg then mret msg
          else
            e ← lift (Js.prop errorData "error");
            mret (Js.or e (JStr "Unknown error")));
  mret (Error (Str.of_Z (status response) +:+ " - " +:+ Js.toString text)).

(** [array.join(sep)] *)
Definition join (sep : string) (items : list JValue) : string :=
  Str.join sep
    (map (fun x => match x with
                   | JUndefined | JNull => EmptyString
                   | _ => Js.toString x
                   end) items).

(** [sharedLink !== 'None'] *)
Definition differs_from_None (v : JValue) : bool :=
  match v with
  | JStr s => negb (String.eqb s "None")
  | _ => true
  end.

Section WithHost.
Context `{Host}.

(** [tags.length > 0], for a truthy [tags]. *)
Definition length_positive (tags : JValue) : bool :=
  match tags with
  | JArr items => match items with [] => false | _ => true end
  | JStr s => negb (String.eqb s EmptyString)
  | JObj members =>
      match ToNumber (Js.lookup "length" members) with
      | Some n => 0 <? n
      | None => false
      end
  | _ => false
  end.

(** [file.tags && file.tags.length > 0 ? file.tags.join(', ') : 'None'];
    only an array has a [join] to call. *)
Definition tags_text (tags : JValue) : Run string :=
  if Js.truthy tags && length_positive tags then
    match tags with
    | JArr items => mret (join ", " items)
    | _ => throw (TypeError "file.tags.join is not a function")
    end
  else mret "None".

(** [displayFileMetadata(file)] *)
Definition displayFileMetadata (file : JValue) : Run unit :=
  if negb (Js.truthy file) then
    modify (set_container
              ("<div class=" +:+ Str.q "loading" +:+
               ">No file metadata found or accessible.</div>"))
  else
    id ← lift (Js.prop file "id");
    if negb (Js.truthy id) then
      modify (set_container
                ("<div class=" +:+ Str.q "loading" +:+
                 ">No file metadata found or accessible.</div>"))
    else
      size ← lift (Js.prop file "size");
      let fileSize := if Js.truthy size then formatFileSize size else "Unknown" in
      created_at ← lift (Js.prop file "created_at");
      let createdAt :=
        if Js.truthy created_at then Date_toLocaleString created_at else "Unknown" in
      modified_at ← lift (Js.prop file "modified_at");
      let modifiedAt :=
        if Js.truthy modified_at then Date_toLocaleString modified_at else "Unknown" in
      owned_by ← lift (Js.prop file "owned_by");
      owner ← (if Js.truthy owned_by then lift (Js.prop owned_by "name")
               else mret (JStr "Unknown"));
      type ← lift (Js.prop file "type");
      let fileType := Js.or type (JStr "Unknown") in
      description ← lift (Js.prop file "description");
      let description := Js.or description (JStr "No description") in
      file_version ← lift (Js.prop file "file_version");
      version ← (if Js.truthy file_version
                 then lift (Js.prop file_version "version_number")
                 else mret (JStr "Unknown"));
      sha1 ← lift (Js.prop file "sha1");
      let sha1 := Js.or sha1 (JStr "Unknown") in
      extension ← lift (Js.prop file "extension");
      let extension := Js.or extension (JStr "None") in
      comment_count ← lift (Js.prop file "comment_count");
      let commentCount := Js.or comment_count (JNum 0) in
      has_collaborations ← lift (Js.prop file "has_collaborations");
      let hasCollaborations := if Js.truthy has_collaborations then "Yes" else "No" in
      is_externally_owned ← lift (Js.prop file "is_externally_owned");
      let isExternallyOwned := if Js.truthy is_externally_owned then "Yes" else "No" in
      tags ← lift (Js.prop file "tags");
      tags ← tags_text tags;
      shared_link ← lift (Js.prop file "shared_link");
      sharedLink ← (if Js.truthy shared_link then lift (Js.prop shared_link "url")
                    else mret (JStr "None"));
      name ← lift (Js.prop file "name");
      let metadataHtml :=
        Str.nl +:+
        Str.sp 12 +:+ "<div class=" +:+ Str.q "files-header" +:+ ">" +:+ Str.nl +:+
        Str.sp 16 +:+ "<h3>📄 File Metadata</h3>" +:+ Str.nl +:+
        Str.sp 16 +:+ "<p>Detailed information about the file</p>" +:+ Str.nl +:+
        Str.sp 12 +:+ "</div>" +:+ Str.nl +:+
        Str.sp 12 +:+ "<div class=" +:+ Str.q "file-item" +:+ ">" +:+ Str.nl +:+
        Str.sp 16 +:+ "<div class=" +:+ Str.q "file-info" +:+ ">" +:+ Str.nl +:+
        Str.sp 20 +:+ "<div class=" +:+ Str.q "file-name" +:+ ">📄 " +:+
          escapeHtml name +:+ "</div>" +:+ Str.nl +:+
        Str.sp 20 +:+ "<div class=" +:+ Str.q "file-details" +:+ ">" +:+ Str.nl +:+
        Str.sp 24 +:+ "<span class=" +:+ Str.q "file-id" +:+ ">ID: " +:+
          Js.toString id +:+ "</span>" +:+ Str.nl +:+
        Str.sp 24 +:+ "<span class=" +:+ Str.q "file-size" +:+ ">Size: " +:+
          fileSize +:+ "</span>" +:+ Str.nl +:+
        Str.sp 24 +:+ "<span class=" +:+ Str.q "file-type" +:+ ">Type: " +:+
          Js.toString fileType +:+ "</span>" +:+ Str.nl +:+
        Str.sp 24 +:+ "<span class=" +:+ Str.q "file-extension" +:+ ">Extension: " +:+
          Js.toString extension +:+ "</span>" +:+ Str.nl +:+
        Str.sp 24 +:+ "<span class=" +:+ Str.q "file-version" +:+ ">Version: " +:+
          Js.toString version +:+ "</span>" +:+ Str.nl +:+
        Str.sp 24 +:+ "<span class=" +:+ Str.q "file-owner" +:+ ">Owner: " +:+
          escapeHtml owner +:+ "</span>" +:+ Str.nl +:+
        Str.sp 24 +:+ "<span class=" +:+ Str.q "file-created" +:+ ">Created: " +:+
          createdAt +:+ "</span>" +:+ Str.nl +:+
        Str.sp 24 +:+ "<span class=" +:+ Str.q "file-modified" +:+ ">Modified: " +:+
          modifiedAt +:+ "</span>" +:+ Str.nl +:+
        Str.sp 24 +:+ "<span class=" +:+ Str.q "file-comments" +:+ ">Comments: " +:+
          Js.toString commentCount +:+ "</span>" +:+ Str.nl +:+
        Str.sp 24 +:+ "<span class=" +:+ Str.q "file-collaborations" +:+
          ">Has Collaborations: " +:+ hasCollaborations +:+ "</span>" +:+ Str.nl +:+
        Str.sp 24 +:+ "<span class=" +:+ Str.q "file-external" +:+
          ">Externally Owned: " +:+ isExternallyOwned +:+ "</span>" +:+ Str.nl +:+
        Str.sp 24 +:+ "<span class=" +:+ Str.q "file-sha1" +:+ ">SHA1: " +:+
          Js.toString sha1 +:+ "</span>" +:+ Str.nl +:+
        Str.sp 24 +:+ "<span class=" +:+ Str.q "file-tags" +:+ ">Tags: " +:+
          tags +:+ "</span>" +:+ Str.nl +:+
        Str.sp 24 +:+
          (if differs_from_None sharedLink
           then "<span class=" +:+ Str.q "file-shared-link" +:+ ">Shared Link: " +:+
                Js.toString sharedLink +:+ "</span>"
           else EmptyString) +:+ Str.nl +:+
        Str.sp 20 +:+ "</div>" +:+ Str.nl +:+
        Str.sp 20 +:+ "<div class=" +:+ Str.q "file-description" +:+ ">" +:+ Str.nl +:+
        Str.sp 24 +:+ "<h4>Description:</h4>" +:+ Str.nl +:+
        Str.sp 24 +:+ "<p>" +:+ escapeHtml description +:+ "</p>" +:+ Str.nl +:+
        Str.sp 20 +:+ "</div>" +:+ Str.nl +:+
        Str.sp 16 +:+ "</div>" +:+ Str.nl +:+
        Str.sp 16 +:+ "<div class=" +:+ Str.q "file-actions" +:+ ">" +:+ Str.nl +:+
        Str.sp 20 +:+ "<button class=" +:+ Str.q "copy-button" +:+ " onclick=" +:+
          Str.q ("boxApp.copyToClipboard('file-id-" +:+ Js.toString id +:+ "')") +:+
          " data-file-id=" +:+ Str.q (Js.toString id) +:+ ">" +:+ Str.nl +:+
        Str.sp 24 +:+ "Copy ID" +:+ Str.nl +:+
        Str.sp 20 +:+ "</button>" +:+ Str.nl +:+
        Str.sp 16 +:+ "</div>" +:+ Str.nl +:+
        Str.sp 12 +:+ "</div>" +:+ Str.nl +:+
        Str.sp 8 in
      modify (set_container metadataHtml).

(** The rewriting in the [catch] block of [fetchFileMetadata]. *)
Definition helpful (errorMessage : string) : string :=
  if Str.includes errorMessage "box_subject_id" then
    "Authentication error: Please check your Box application configuration."
  else if Str.includes errorMessage "401" then
    "Authentication failed: Please verify your client_id and client_secret are correct."
  else if Str.includes errorMessage "403" then
    "Access denied: The application may not have permission to access this file."
  else if Str.includes errorMessage "404" then
    "File not found: The file may not exist or the application may not have access to it."
  else if Str.includes errorMessage "400" then
    "Bad request: The API request format may be incorrect. Check console for details."
  else errorMessage.

Definition file_id_required : string :=
  "File ID is required. Please add file_id parameter to the URL.".
Definition credentials_required : string :=
  "Client ID and Client Secret are required. Please add client_id and client_secret parameters to the URL.".

(** [fetchFileMetadata()] *)
Definition fetchFileMetadata : Run unit :=
  clientId ← gets (fun w => getParameter w "client_id");
  clientSecret ← gets (fun w => getParameter w "client_secret");
  fileId ← gets (fun w => getParameter w "file_id");
  if missing clientId || missing clientSecret then
    showFilesError credentials_required
  else if missing fileId then showFilesError file_id_required
  else
    (* Show loading state *)
    modify (fun w => set_button (set_disabled true (button w)) w);;
    modify (fun w => set_button (set_textContent loading_label (button w)) w);;
    modify (set_container
              ("<div class=" +:+ Str.q "loading" +:+
               ">Fetching file metadata from Box API...</div>"));;
    try_finally
      (try_catch
         (tokenResponse ← getAccessToken (text_of clientId) (text_of clientSecret);
          access_token ← lift (Js.prop tokenResponse "access_token");
          if negb (Js.truthy access_token) then
            description ← lift (Js.prop tokenResponse "error_description");
            throw (Error ("Failed to get access token: " +:+
                          Js.toString (Js.or description (JStr "Unknown error"))))
          else
            console_log [LText "Successfully obtained access token"];;
            response ← fetch (file_request (text_of fileId) access_token);
            (if negb (ok response) then
               errorData ← json response;
               e ← file_failure response errorData;
               throw e
             else mret tt);;
            fileData ← json response;
            console_log [LText "Successfully retrieved file metadata:"; LValue fileData];;
            displayFileMetadata fileData)
         (fun error =>
            console_error [LText "Error fetching file metadata:"; LError error];;
            let errorMessage := helpful (message error) in
            showFilesError ("Failed to fetch file metadata: " +:+ errorMessage)))
      (* Reset button state *)
      (modify (fun w => set_button (set_disabled false (button w)) w);;
       modify (fun w => set_button (set_textContent idle_label (button w)) w)).

End WithHost.

End AuthCode.

(* ================================================================== *)
(** ** The parameter panel of the first revision *)
(* ================================================================== *)

Module Display.
Import Params.

(** The three nodes [displayParameters] writes to; [None] when
    [getElementById] finds no such node. *)
Record Panel : Type := {
  parameters_container : option string;   (* innerHTML *)
  current_url : option string;            (* textContent *)
  timestamp : option string               (* textContent *)
}.

Definition no_parameters : string :=
  "<div class=" +:+ Str.q "no-parameters" +:+ ">No query parameters found in the URL.</div>".

(** [for (const [key, value] of urlParams.entries())
       parametersHtml += this.createParameterItem(key, value)] *)
Fixpoint rows (entries : list (string * string)) (parametersHtml : string) : string :=
  match entries with
  | [] => parametersHtml
  | (key, value) :: rest => rows rest (parametersHtml +:+ createParameterItem key value)
  end.

(** [displayParameters()]; [now] is what [new Date().toLocaleString()]
    gives when the method runs. *)
Definition displayParameters (now : string) (panel : Panel) : Run Panel :=
  urlParams ← gets (fun w => URLSearchParams.new (location_search w));
  match parameters_container panel, current_url panel, timestamp panel with
  | Some _, Some _, Some _ =>
      (* Display current URL *)
      href ← gets location_href;
      (* Display timestamp *)
      let stamp := "Last updated: " +:+ now in
      (* Check if there are any parameters *)
      if String.eqb (URLSearchParams.toString urlParams) EmptyString then
        mret {| parameters_container := Some no_parameters;
                current_url := Some href;
                timestamp := Some stamp |}
      else
        (* Display each parameter *)
        let parametersHtml := rows (URLSearchParams.entries urlParams) EmptyString in
        mret {| parameters_container := Some parametersHtml;
                current_url := Some href;
                timestamp := Some stamp |}
  | _, _, _ =>
      console_error [LText "Required DOM elements not found"];;
      mret panel
  end.

(** [for (const [key, value] of urlParams.entries())
       console.log(`${key}: ${value}`)] *)
Fixpoint log_entries (entries : list (string * string)) : Run unit :=
  match entries with
  | [] => mret tt
  | (key, value) :: rest =>
      console_log [LText (key +:+ ": " +:+ value)];;
      log_entries rest
  end.

(** [logParameters()] *)
Definition logParameters : Run unit :=
  console_log [LText "Box Integration App - Query Parameters:"];;
  urlParams ← gets (fun w => URLSearchParams.new (location_search w));
  if String.eqb (URLSearchParams.toString urlParams) EmptyString then
    console_log [LText "No query parameters found"]
  else log_entries (URLSearchParams.entries urlParams).

End Display.

(* ================================================================== *)
(** ** The revision that lists all files first *)
(* ================================================================== *)

Module Listing.
Import Params Render.

Definition loading_label : string := "⏳ Fetching...".
Definition idle_label : string := "🔍 Fetch Files & Metadata".

Definition files_request (accessToken : JValue) : Request :=
  {| url := Metadata.boxApiBase +:+
            "/files?limit=100&fields=id,name,size,created_at,modified_at,owned_by,type";
     method := "GET";
     headers := [("Authorization", "Bearer " +:+ Js.toString accessToken);
                 ("Content-Type", "application/json")];
     form := None |}.

Definition no_files : string :=
  "<div class=" +:+ Str.q "loading" +:+
  ">No files found or accessible to the application.</div>".

(** [files.length === 0], for a truthy [files]. *)
Definition length_is_zero (files : JValue) : bool :=
  match files with
  | JArr items => match items with [] => true | _ => false end
  | JObj members =>
      match Js.lookup "length" members with
      | JNum n => n =? 0
      | _ => false
      end
  | _ => false
  end.

(** The head of the list, with [files.length]. *)
Definition files_header (count : nat) : string :=
  Str.nl +:+
  Str.sp 12 +:+ "<div class=" +:+ Str.q "files-header" +:+ ">" +:+ Str.nl +:+
  Str.sp 16 +:+ "<h3>📁 Files List (" +:+ Str.of_Z (Z.of_nat count) +:+
    " files)</h3>" +:+ Str.nl +:+
  Str.sp 16 +:+ "<p>Click " +:+ Str.q "Get Metadata" +:+
    " to view detailed information for each file</p>" +:+ Str.nl +:+
  Str.sp 12 +:+ "</div>" +:+ Str.nl +:+
  Str.sp 8.

(** [`Failed to fetch files: ${response.status} - ${errorData.message || errorData.error || 'Unknown error'}`] *)
Definition files_failure (response : Response) (errorData : JValue) : Run JsError :=
  msg ← lift (Js.prop errorData "message");
  text ← (if Js.truthy msg then mret msg
          else
            e ← lift (Js.prop errorData "error");
            mret (Js.or e (JStr "Unknown error")));
  mret (Error ("Failed to fetch files: " +:+ Str.of_Z (status response) +:+ " - " +:+
               Js.toString text)).

(** The rewriting in the [catch] block of [fetchFileMetadata]. *)
Definition helpful (errorMessage : string) : string :=
  if Str.includes errorMessage "box_subject_id" then
    "Authentication error: Please check your Box application configuration. The app may need enterprise access or different authentication settings."
  else if Str.includes errorMessage "401" then
    "Authentication failed: Please verify your client_id and client_secret are correct."
  else if Str.includes errorMessage "403" then
    "Access denied: The application may not have permission to access files or the Box API."
  else if Str.includes errorMessage "404" then
    "Files not found: The application may not have access to any files."
  else errorMessage.

Definition credentials_required : string :=
  "Client ID and Client Secret are required. Please add client_id and client_secret parameters to the URL.".

Section WithHost.
Context `{Host}.

(** [new Date(v).toLocaleDateString()], which depends on locale and time
    zone like its sibling in [Host]. *)
Variable Date_toLocaleDateString : JValue -> string.

(** One turn of [files.forEach((file, index) => ...)]: the row of
    [file]. *)
Definition file_item (accessToken : JValue) (file : JValue) : Run string :=
  size ← lift (Js.prop file "size");
  let fileSize := if Js.truthy size then formatFileSize size else "Unknown" in
  created_at ← lift (Js.prop file "created_at");
  let createdAt :=
    if Js.truthy created_at then Date_toLocaleDateString created_at else "Unknown" in
  modified_at ← lift (Js.prop file "modified_at");
  let modifiedAt :=
    if Js.truthy modified_at then Date_toLocaleDateString modified_at else "Unknown" in
  owned_by ← lift (Js.prop file "owned_by");
  owner ← (if Js.truthy owned_by then lift (Js.prop owned_by "name")
           else mret (JStr "Unknown"));
  name ← lift (Js.prop file "name");
  id ← lift (Js.prop file "id");
  type ← lift (Js.prop file "type");
  mret
    (Str.nl +:+
     Str.sp 16 +:+ "<div class=" +:+ Str.q "file-item" +:+ ">" +:+ Str.nl +:+
     Str.sp 20 +:+ "<div class=" +:+ Str.q "file-info" +:+ ">" +:+ Str.nl +:+
     Str.sp 24 +:+ "<div class=" +:+ Str.q "file-name" +:+ ">📄 " +:+
       escapeHtml name +:+ "</div>" +:+ Str.nl +:+
     Str.sp 24 +:+ "<div class=" +:+ Str.q "file-details" +:+ ">" +:+ Str.nl +:+
     Str.sp 28 +:+ "<span class=" +:+ Str.q "file-id" +:+ ">ID: " +:+
       Js.toString id +:+ "</span>" +:+ Str.nl +:+
     Str.sp 28 +:+ "<span class=" +:+ Str.q "file-size" +:+ ">Size: " +:+
       fileSize +:+ "</span>" +:+ Str.nl +:+
     Str.sp 28 +:+ "<span class=" +:+ Str.q "file-type" +:+ ">Type: " +:+
       Js.toString type +:+ "</span>" +:+ Str.nl +:+
     Str.sp 28 +:+ "<span class=" +:+ Str.q "file-owner" +:+ ">Owner: " +:+
       escapeHtml owner +:+ "</span>" +:+ Str.nl +:+
     Str.sp 28 +:+ "<span class=" +:+ Str.q "file-created" +:+ ">Created: " +:+
       createdAt +:+ "</span>" +:+ Str.nl +:+
     Str.sp 28 +:+ "<span class=" +:+ Str.q "file-modified" +:+ ">Modified: " +:+
       modifiedAt +:+ "</span>" +:+ Str.nl +:+
     Str.sp 24 +:+ "</div>" +:+ Str.nl +:+
     Str.sp 20 +:+ "</div>" +:+ Str.nl +:+
     Str.sp 20 +:+ "<div class=" +:+ Str.q "file-actions" +:+ ">" +:+ Str.nl +:+
     Str.sp 24 +:+ "<button class=" +:+ Str.q "metadata-button" +:+ " onclick=" +:+
       Str.q ("boxApp.getFileMetadataForDisplay('" +:+ Js.toString id +:+ "', '" +:+
              Js.toString accessToken +:+ "')") +:+ ">" +:+ Str.nl +:+
     Str.sp 28 +:+ "🔍 Get Metadata" +:+ Str.nl +:+
     Str.sp 24 +:+ "</button>" +:+ Str.nl +:+
     Str.sp 24 +:+ "<button class=" +:+ Str.q "copy-button" +:+ " onclick=" +:+
       Str.q ("boxApp.copyToClipboard('file-id-" +:+ Js.toString id +:+ "')") +:+
       " data-file-id=" +:+ Str.q (Js.toString id) +:+ ">" +:+ Str.nl +:+
     Str.sp 28 +:+ "Copy ID" +:+ Str.nl +:+
     Str.sp 24 +:+ "</button>" +:+ Str.nl +:+
     Str.sp 20 +:+ "</div>" +:+ Str.nl +:+
     Str.sp 16 +:+ "</div>" +:+ Str.nl +:+
     Str.sp 12).

(** [files.forEach(...)], appending to [filesHtml]. *)
Fixpoint forEach_file (accessToken : JValue) (files : list JValue) (filesHtml : string)
  : Run string :=
  match files with
  | [] => mret filesHtml
  | file :: rest =>
      item ← file_item accessToken file;
      forEach_file accessToken rest (filesHtml +:+ item)
  end.

(** [displayFilesList(files, accessToken)]; only an array has a
    [forEach] to call. *)
Definition displayFilesList (files : JValue) (accessToken : JValue) : Run unit :=
  if negb (Js.truthy files) || length_is_zero files then
    modify (set_container no_files)
  else
    match files with
    | JArr items =>
        filesHtml ← forEach_file accessToken items (files_header (length items));
        modify (set_container filesHtml)
    | _ => throw (TypeError "files.forEach is not a function")
    end.

(** [listAllFiles(accessToken)].  On an array, [filesData.entries] is
    the array's own iterator method, a function whose [length] is 0, so
    the list counts as empty. *)
Definition listAllFiles (accessToken : JValue) : Run unit :=
  console_log [LText "Fetching all files..."];;
  response ← fetch (files_request accessToken);
  console_log [LText ("Files API Response Status: " +:+ Str.of_Z (status response))];;
  if negb (ok response) then
    errorData ← json response;
    console_error [LText "Box API Error Response:"; LValue errorData];;
    e ← files_failure response errorData;
    throw e
  else
    filesData ← json response;
    console_log [LText "Successfully retrieved files:"; LValue filesData];;
    match filesData with
    | JArr _ => modify (set_container no_files)
    | _ =>
        files ← lift (Js.prop filesData "entries");
        displayFilesList files accessToken
    end.

(** [getFileMetadataForDisplay(fileId, accessToken)], as the list's
    buttons call it, with two strings. *)
Definition getFileMetadataForDisplay (fileId accessToken : string) : Run unit :=
  (* Show loading state *)
  modify (set_container
            ("<div class=" +:+ Str.q "loading" +:+ ">Fetching metadata for file ID: " +:+
             fileId +:+ "...</div>"));;
  try_catch
    (metadata ← Metadata.getFileMetadata fileId (JStr accessToken);
     Metadata.displayFileMetadata metadata)
    (fun error =>
       console_error [LText "Error fetching file metadata:"; LError error];;
       Metadata.showMetadataError
         ("Failed to fetch metadata for file " +:+ fileId +:+ ": " +:+ message error)).

(** The callback [fetchFileMetadata] hands to [setTimeout]. *)
Definition delayed_metadata (fileId : string) (accessToken : JValue) : Run unit :=
  try_catch
    (metadata ← Metadata.getFileMetadata fileId accessToken;
     Metadata.displayFileMetadata metadata)
    (fun error =>
       console_error [LText "Error fetching specific file metadata:"; LError error]
       (* Don't show error in UI since files list is already displayed *)).

(** [fetchFileMetadata()].  The result lists what was handed to
    [setTimeout]: the delay and the callback. *)
Definition fetchFileMetadata : Run (list (Z * Run unit)) :=
  fileId ← gets (fun w => getParameter w "file_id");
  clientId ← gets (fun w => getParameter w "client_id");
  clientSecret ← gets (fun w => getParameter w "client_secret");
  if missing clientId || missing clientSecret then
    Metadata.showMetadataError credentials_required;;
    mret []
  else
    (* Show loading state *)
    modify (fun w => set_button (set_disabled true (button w)) w);;
    modify (fun w => set_button (set_textContent loading_label (button w)) w);;
    modify (set_container
              ("<div class=" +:+ Str.q "loading" +:+
               ">Fetching files from Box API...</div>"));;
    try_finally
      (try_catch
         (tokenResponse ← Metadata.getAccessToken (text_of clientId) (text_of clientSecret);
          access_token ← lift (Js.prop tokenResponse "access_token");
          if negb (Js.truthy access_token) then
            description ← lift (Js.prop tokenResponse "error_description");
            throw (Error ("Failed to get access token: " +:+
                          Js.toString (Js.or description (JStr "Unknown error"))))
          else
            console_log [LText "Successfully obtained access token"];;
            (* Always list all files first *)
            listAllFiles access_token;;
            (* If file_id is provided, also show metadata for that specific file *)
            if negb (missing fileId) then
              console_log [LText "File ID provided, also fetching metadata for specific file:";
                           LText (text_of fileId)];;
              mret [(1000, delayed_metadata (text_of fileId) access_token)]
            else mret [])
         (fun error =>
            console_error [LText "Error fetching files:"; LError error];;
            let errorMessage := helpful (message error) in
            Metadata.showMetadataError ("Failed to fetch files: " +:+ errorMessage);;
            mret []))
      (* Reset button state *)
      (modify (fun w => set_button (set_disabled false (button w)) w);;
       modify (fun w => set_button (set_textContent idle_label (button w)) w)).

End WithHost.

End Listing.

(* ================================================================== *)
(** ** Concrete pages, for examples *)
(* ================================================================== *)

Definition copy_button : Element :=
  {| disabled := false; textContent := "Copy"; background := EmptyString |}.

(** A freshly loaded page at the given query string, in front of the
    given upstream; the clipboard accepts every write and the click event
    is still at hand when promise callbacks run. *)
Definition page (search : string) (net : list Request -> Request -> Settled)
           (label : string) : World :=
  {| location_search := search;
     location_href := "https://example.com/index.html" +:+ search;
     upstream := net;
     requests := [];
     clipboard_rejects := fun _ => None;
     clipboard := [];
     event_target := Some copy_button;
     timers := [];
     alerts := [];
     console := [];
     button := {| disabled := false; textContent := label; background := EmptyString |};
     container := EmptyString |}.

(** An upstream that is never reached. *)
Definition offline : list Request -> Request -> Settled :=
  fun _ _ => Rejected (TypeError "Failed to fetch").

(** An upstream that answers the n-th request with the n-th entry of a
    script, and fails when the script is over. *)
Definition scripted (script : list Settled) : list Request -> Request -> Settled :=
  fun before _ => nth (length before) script (Rejected (TypeError "Failed to fetch")).

(* ================================================================== *)
(** ** Vocabulary of the statements *)
(* ================================================================== *)

(** What a successful copy leaves behind: the text on the clipboard, the
    clicked button relabelled, and the 1-second timer that restores it. *)
Definition copied (text : string) (target : Element) (w : World) : World :=
  set_timers (timers w ++ [(1000, RestoreButton (textContent target) (background target))])
    (set_event_target
       (Some (set_background "#28a745" (set_textContent "Copied!" target)))
       (set_clipboard (clipboard w ++ [text]) w)).


(** The query parameters the single-fetch revisions require. *)
Definition required : list string := ["file_id"; "client_id"; "client_secret"].

(** The inline error box. *)
Definition error_box (msg : string) : string :=
  "<div class=" +:+ Str.q "error" +:+ ">" +:+ msg +:+ "</div>".

(** The [finally] block of the fetch action. *)
Definition reset_button (label : string) : Run unit :=
  modify (fun w => set_button (set_disabled false (button w)) w);;
  modify (fun w => set_button (set_textContent label (button w)) w).

(** The control is enabled and carries the given label. *)
Definition idle (label : string) (w : World) : Prop :=
  disabled (button w) = false /\ textContent (button w) = label.

(** The two requests of the client-credentials revision. *)
Definition plain_request (clientId clientSecret : string) : Request :=
  Metadata.token_request
    [ ("grant_type", "client_credentials");
      ("client_id", clientId);
      ("client_secret", clientSecret) ].

Definition enterprise_request (clientId clientSecret : string) : Request :=
  Metadata.token_request
    [ ("grant_type", "client_credentials");
      ("client_id", clientId);
      ("client_secret", clientSecret);
      ("box_subject_type", "enterprise") ].

(** The console line for a failed attempt. *)
Definition failed_line (number : string) (errorData : JValue) : LogEntry :=
  {| level := "log";
     args := [LText ("Authentication method " +:+ number +:+ " failed:"); LValue errorData] |}.

(** [n] hundredths written as a decimal rounded to two places with the
    trailing zeros dropped: the magnitude the specification describes. *)
Definition two_decimals_trimmed (n : Z) : string :=
  let whole := Str.of_Z (n / 100) in
  if n mod 100 =? 0 then whole
  else if n mod 10 =? 0 then
    whole +:+ "." +:+ String (Render.digit (n mod 100 / 10)) EmptyString
  else
    whole +:+ "." +:+
    String (Render.digit (n mod 100 / 10)) (String (Render.digit (n mod 10)) EmptyString).


(** A file resource whose name, checksum and tags carry markup. *)
Definition crafted_file : JValue :=
  JObj [ ("id", JStr "42");
         ("name", JStr "<script>alert(1)</script>");
         ("sha1", JStr "<script>alert(2)</script>");
         ("tags", JArr [JStr "<script>alert(3)</script>"]) ].

(** [x] is a prefix of [p] and shorter than [p]. *)
Fixpoint strict_prefix (x p : string) : bool :=
  match x, p with
  | EmptyString, EmptyString => false
  | EmptyString, String _ _ => true
  | String a x', String b p' => Ascii.eqb a b && strict_prefix x' p'
  | String _ _, EmptyString => false
  end.

(** No end of [a] is a beginning of [p]: an occurrence of [p] cannot start
    inside [a] and finish after it. *)
Fixpoint no_partial (a p : string) : bool :=
  match a with
  | EmptyString => true
  | String c a' => negb (strict_prefix (String c a') p) && no_partial a' p
  end.

(** The page of the end-to-end scenario: all three parameters present, a
    token on the first attempt, then the file resource. *)
Definition scenario (label : string) : World :=
  page "?file_id=42&client_id=abc&client_secret=xyz"
       (scripted
          [ Fulfilled {| status := 200;
                         body := Json (JObj [("access_token", JStr "tok")]) |};
            Fulfilled {| status := 200;
                         body := Json (JObj [("id", JStr "42");
                                             ("name", JStr "report.pdf");
                                             ("size", JNum 2048)]) |} ])
       label.

(** A page whose upstream grants a token and then answers the file
    request with the JSON value [null], on which rendering throws. *)
Definition null_resource (label : string) : World :=
  page "?file_id=42&client_id=abc&client_secret=xyz"
       (scripted
          [ Fulfilled {| status := 200;
                         body := Json (JObj [("access_token", JStr "tok")]) |};
            Fulfilled {| status := 200; body := Json JNull |} ])
       label.

(** An attempt at the token endpoint that does not end the loop: the
    request is rejected, or answered with a non-success status, or
    answered with a body that is not JSON. *)
Definition failed (s : Settled) : Prop :=
  match s with
  | Rejected _ => True
  | Fulfilled r => ok r = false \/ exists e, body r = NotJson e
  end.

(** The world but for its console and its list of requests. *)
Definition page_of (w : World) : World := set_console [] (set_requests [] w).


(** The call a row of the files list puts on its metadata button. *)
Definition metadata_call (id accessToken : JValue) : string :=
  "boxApp.getFileMetadataForDisplay('" +:+ Js.toString id +:+ "', '" +:+
  Js.toString accessToken +:+ "')".

(** The value is an object with members. *)
Definition is_object (v : JValue) : Prop := exists members, v = JObj members.

(* ================================================================== *)
(** * Properties *)
(* ================================================================== *)

(** ** Strings *)

Lemma str_app_cons (c : ascii) (a b : string) : String c a +:+ b = String c (a +:+ b).
Proof. reflexivity. Qed.

Lemma str_app_empty_l (b : string) : EmptyString +:+ b = b.
Proof. reflexivity. Qed.

Lemma str_app_empty_r (a : string) : a +:+ EmptyString = a.
Proof. induction a as [|c a IH]; [reflexivity|]. rewrite str_app_cons, IH. reflexivity. Qed.

Lemma str_app_assoc (a b c : string) : (a +:+ b) +:+ c = a +:+ (b +:+ c).
Proof.
  induction a as [|x a IH]; [reflexivity|].
  rewrite !str_app_cons, IH. reflexivity.
Qed.

Lemma mem_app (c : ascii) (a b : string) :
  Str.mem c (a +:+ b) = Str.mem c a || Str.mem c b.
Proof.
  induction a as [|x a IH]; [reflexivity|].
  rewrite str_app_cons. simpl. rewrite IH. apply orb_assoc.
Qed.

(** ** The query string *)

Section UrlEncoding.
Import URLSearchParams.

Lemma decode_encode_step (c : ascii) (rest : string) :
  decode (encode (String c rest)) = String c (decode (encode rest)).
Proof.
  unfold decode.
  destruct c as [[] [] [] [] [] [] [] []]; reflexivity.
Qed.

Lemma decode_encode (s : string) : decode (encode s) = s.
Proof.
  induction s as [|c s IH]; [reflexivity|].
  rewrite decode_encode_step, IH. reflexivity.
Qed.

Lemma encode_step_no (sep : ascii) (c : ascii) (rest : string) :
  sep = "&"%char \/ sep = "="%char ->
  Str.mem sep (encode (String c rest)) = Str.mem sep (encode rest).
Proof.
  intros [-> | ->]; destruct c as [[] [] [] [] [] [] [] []]; reflexivity.
Qed.

Lemma encode_no (sep : ascii) (s : string) :
  sep = "&"%char \/ sep = "="%char -> Str.mem sep (encode s) = false.
Proof.
  intros Hsep. induction s as [|c s IH]; [reflexivity|].
  rewrite encode_step_no by exact Hsep. exact IH.
Qed.

Lemma mem_cons_false (c x : ascii) (a : string) :
  Str.mem c (String x a) = false -> Ascii.eqb x c = false /\ Str.mem c a = false.
Proof.
  change (Str.mem c (String x a)) with (Ascii.eqb c x || Str.mem c a).
  intros Hmem. apply orb_false_elim in Hmem as [Hc Ha].
  rewrite Ascii.eqb_sym. auto.
Qed.

Lemma split_cons (sep c : ascii) (rest : string) :
  split sep (String c rest) =
  if Ascii.eqb c sep then EmptyString :: split sep rest
  else match split sep rest with
       | [] => [String c EmptyString]
       | p :: ps => String c p :: ps
       end.
Proof. reflexivity. Qed.

Lemma cut_cons (c : ascii) (rest : string) :
  cut (String c rest) =
  if Ascii.eqb c "=" then (EmptyString, rest)
  else let (n, v) := cut rest in (String c n, v).
Proof. reflexivity. Qed.

Lemma split_app (sep : ascii) (a b : string) :
  Str.mem sep a = false ->
  split sep (a +:+ String sep b) = a :: split sep b.
Proof.
  induction a as [|c a IH]; intros Hmem.
  - rewrite str_app_empty_l, split_cons, Ascii.eqb_refl. reflexivity.
  - apply mem_cons_false in Hmem as [Hc Ha].
    rewrite str_app_cons, split_cons, Hc, (IH Ha). reflexivity.
Qed.

Lemma split_whole (sep : ascii) (a : string) :
  Str.mem sep a = false -> split sep a = [a].
Proof.
  induction a as [|c a IH]; intros Hmem; [reflexivity|].
  apply mem_cons_false in Hmem as [Hc Ha].
  rewrite split_cons, Hc, (IH Ha). reflexivity.
Qed.

Lemma cut_app (a b : string) :
  Str.mem "=" a = false -> cut (a +:+ String "=" b) = (a, b).
Proof.
  induction a as [|c a IH]; intros Hmem; [reflexivity|].
  apply mem_cons_false in Hmem as [Hc Ha].
  rewrite str_app_cons, cut_cons, Hc, (IH Ha). reflexivity.
Qed.

(** One serialized pair has no [&], is not empty, and cuts back into its
    two halves. *)
Lemma pair_text_no_amp (n v : string) : Str.mem "&" (pair_text n v) = false.
Proof.
  unfold pair_text. rewrite !mem_app, !encode_no by auto. reflexivity.
Qed.

Lemma pair_text_not_empty (n v : string) :
  String.eqb (pair_text n v) EmptyString = false.
Proof.
  unfold pair_text. destruct (encode n); reflexivity.
Qed.

Lemma cut_pair_text (n v : string) : cut (pair_text n v) = (encode n, encode v).
Proof. unfold pair_text. apply cut_app, encode_no. auto. Qed.

Lemma toString_cons (n v : string) (rest : t) :
  rest <> [] ->
  toString ((n, v) :: rest) = pair_text n v +:+ String "&" (toString rest).
Proof.
  intros Hrest. destruct rest as [|p rest]; [congruence|]. reflexivity.
Qed.

(** Parsing what the serializer printed gives the pairs back. *)
Lemma parse_toString (params : t) : parse (toString params) = params.
Proof.
  induction params as [|[n v] rest IH]; [reflexivity|].
  destruct rest as [|p rest].
  - change (toString [(n, v)]) with (pair_text n v).
    unfold parse. rewrite split_whole by apply pair_text_no_amp.
    simpl. rewrite pair_text_not_empty, cut_pair_text, !decode_encode. reflexivity.
  - rewrite toString_cons by discriminate.
    unfold parse. rewrite split_app by apply pair_text_no_amp.
    simpl flat_map at 1.
    rewrite pair_text_not_empty, cut_pair_text, !decode_encode.
    simpl. f_equal. exact IH.
Qed.

(** What the serializer prints never starts with [?]. *)
Lemma new_toString (params : t) : new (toString params) = params.
Proof.
  unfold new.
  destruct (toString params) as [|c s] eqn:E; [rewrite <- E; apply parse_toString|].
  destruct (Ascii.eqb c "?") eqn:Hc.
  - apply Ascii.eqb_eq in Hc. subst c. exfalso.
    destruct params as [|[n v] rest]; [discriminate|].
    assert (Hhead : exists tail, toString ((n, v) :: rest) = encode n +:+ String "=" tail).
    { destruct rest as [|p rest]; cbn [toString]; unfold pair_text.
      - eexists. reflexivity.
      - eexists. rewrite str_app_assoc. reflexivity. }
    destruct Hhead as [tail Htail]. rewrite Htail in E.
    destruct n as [|x n]; [discriminate|].
    destruct x as [[] [] [] [] [] [] [] []]; discriminate.
  - rewrite <- E. apply parse_toString.
Qed.

End UrlEncoding.

Section QueryParameters.
Import URLSearchParams Params.

Lemma get_app (l1 l2 : t) (key : string) :
  get (l1 ++ l2) key =
  match get l1 key with
  | Some v => Some v
  | None => get l2 key
  end.
Proof.
  induction l1 as [|[n v] l1 IH]; [reflexivity|].
  simpl. destruct (String.eqb n key); [reflexivity | exact IH].
Qed.

Lemma get_absent (l : t) (key : string) :
  ~ In key (map fst l) -> get l key = None.
Proof.
  induction l as [|[n v] l IH]; intros Hnot; [reflexivity|].
  simpl. destruct (String.eqb_spec n key) as [-> | Hne].
  - exfalso. apply Hnot. left. reflexivity.
  - apply IH. intros Hin. apply Hnot. right. exact Hin.
Qed.

Lemma get_present (l : t) (key : string) :
  In key (map fst l) ->
  exists l1 value l2,
    l = l1 ++ (key, value) :: l2 /\ ~ In key (map fst l1) /\ get l key = Some value.
Proof.
  induction l as [|[n v] l IH]; intros Hin; [destruct Hin|].
  simpl. destruct (String.eqb_spec n key) as [-> | Hne].
  - exists [], v, l. auto.
  - destruct Hin as [Heq | Hin]; [simpl in Heq; congruence|].
    destruct (IH Hin) as (l1 & value & l2 & -> & Hnot & Hget).
    exists ((n, v) :: l1), value, l2. repeat split; [|exact Hget].
    intros [Heq | Hin1]; [simpl in Heq; congruence | exact (Hnot Hin1)].
Qed.

(** The object built by the assignments [params[key] = value] holds,
    under each key but [__proto__], the value of the last pair with that
    key. *)
Lemma assignments_lookup (l : t) (m : gmap string string) (key : string) :
  key <> "__proto__" ->
  foldl (fun params kv => assign params (fst kv) (snd kv)) m l !! key =
  match get (rev l) key with
  | Some v => Some v
  | None => m !! key
  end.
Proof.
  intros Hkey. revert m. induction l as [|[n v] l IH]; intros m; [reflexivity|].
  simpl. rewrite IH, get_app. simpl.
  destruct (get (rev l) key); [reflexivity|].
  unfold assign.
  destruct (String.eqb_spec n key) as [-> | Hne].
  - apply String.eqb_neq in Hkey. rewrite Hkey. apply lookup_insert_eq.
  - destruct (String.eqb n "__proto__"); [reflexivity|].
    apply lookup_insert_ne. exact Hne.
Qed.

Lemma assignments_proto (l : t) (m : gmap string string) :
  foldl (fun params kv => assign params (fst kv) (snd kv)) m l !! "__proto__" =
  m !! "__proto__".
Proof.
  revert m. induction l as [|[n v] l IH]; intros m; [reflexivity|].
  simpl. rewrite IH. unfold assign.
  destruct (String.eqb_spec n "__proto__") as [-> | Hne]; [reflexivity|].
  apply lookup_insert_ne. exact Hne.
Qed.

Lemma getParametersObject_last (w : World) (key : string) :
  key <> "__proto__" ->
  getParametersObject w !! key = get (rev (new (location_search w))) key.
Proof.
  intros Hkey. unfold getParametersObject, entries.
  rewrite assignments_lookup by exact Hkey.
  destruct (get _ key); reflexivity.
Qed.

Lemma get_rev_present (l : t) (key : string) :
  In key (map fst l) ->
  exists l1 value l2,
    l = l1 ++ (key, value) :: l2 /\ ~ In key (map fst l2) /\
    get (rev l) key = Some value.
Proof.
  intros Hin.
  assert (Hin' : In key (map fst (rev l))).
  { rewrite map_rev. apply in_rev. rewrite rev_involutive. exact Hin. }
  destruct (get_present _ _ Hin') as (r1 & value & r2 & Hrev & Hnot & Hget).
  exists (rev r2), value, (rev r1). repeat split; [| |exact Hget].
  - rewrite <- (rev_involutive l), Hrev, rev_app_distr. simpl.
    rewrite <- app_assoc. reflexivity.
  - rewrite map_rev. intros Hin1. apply in_rev in Hin1. exact (Hnot Hin1).
Qed.

End QueryParameters.

(** C9 (as the script behaves).  Serializing the parsed query and parsing
    it again gives the same pairs, so re-serializing is stable.  Every
    key present in the query is retrievable: [getParameter] returns the
    value of its FIRST pair, while [getParametersObject] keeps the value
    of its LAST pair; for a key that occurs once the two agree on the
    value of that pair.  (The object cannot hold the key [__proto__].) *)
Theorem query_parameters_first_and_last (w : World) :
  let params := URLSearchParams.new (location_search w) in
  (URLSearchParams.new (URLSearchParams.toString params) = params /\
   URLSearchParams.toString (URLSearchParams.new (URLSearchParams.toString params)) =
     URLSearchParams.toString params) /\
  (forall key, In key (map fst params) ->
     exists l1 first l2,
       params = l1 ++ (key, first) :: l2 /\ ~ In key (map fst l1) /\
       Params.getParameter w key = Some first) /\
  (forall key, key <> "__proto__" -> In key (map fst params) ->
     exists l1 last l2,
       params = l1 ++ (key, last) :: l2 /\ ~ In key (map fst l2) /\
       Params.getParametersObject w !! key = Some last) /\
  (forall key value l1 l2,
     key <> "__proto__" ->
     params = l1 ++ (key, value) :: l2 ->
     ~ In key (map fst l1) -> ~ In key (map fst l2) ->
     Params.getParameter w key = Some value /\
     Params.getParametersObject w !! key = Some value) /\
  Params.getParametersObject w !! "__proto__" = None.
Proof.
  intros params. split; [split|split; [|split; [|split]]].
  - apply new_toString.
  - rewrite new_toString. reflexivity.
  - intros key Hin. unfold Params.getParameter. apply get_present. exact Hin.
  - intros key Hkey Hin. rewrite getParametersObject_last by exact Hkey.
    apply get_rev_present. exact Hin.
  - intros key value l1 l2 Hkey Hsplit Hfirst Hlast. split.
    + unfold Params.getParameter. fold params. rewrite Hsplit, get_app.
      rewrite (get_absent l1) by exact Hfirst.
      simpl. rewrite String.eqb_refl. reflexivity.
    + rewrite getParametersObject_last by exact Hkey. fold params.
      rewrite Hsplit, rev_app_distr. simpl.
      rewrite <- app_assoc, get_app, (get_absent (rev l2)).
      * simpl. rewrite String.eqb_refl. reflexivity.
      * rewrite map_rev. intros Hin. apply in_rev in Hin. exact (Hlast Hin).
  - unfold Params.getParametersObject. rewrite assignments_proto. reflexivity.
Qed.

(** The claim C9 fails on a repeated key: in [?a=1&a=2] the last-seen
    value of [a] is [2], which [getParametersObject] keeps, but
    [getParameter] answers [1]. *)
Lemma duplicate_key_lookups_disagree :
  let w := page "?a=1&a=2" offline EmptyString in
  Params.getParameter w "a" = Some "1" /\
  Params.getParametersObject w !! "a" = Some "2" /\
  Params.getParameter w "a" <> Params.getParametersObject w !! "a".
Proof.
  assert (H1 : Params.getParameter (page "?a=1&a=2" offline EmptyString) "a" = Some "1")
    by reflexivity.
  assert (H2 : Params.getParametersObject (page "?a=1&a=2" offline EmptyString) !! "a" = Some "2")
    by (vm_compute; reflexivity).
  cbv zeta. rewrite H1, H2. repeat split. discriminate.
Qed.

(** ** The clipboard *)





(** ** The fetch action *)

Section FetchAction.
Context `{Host}.

Lemma Metadata_fetch_missing (w : World) :
  missing (Params.getParameter w "file_id") ||
  missing (Params.getParameter w "client_id") ||
  missing (Params.getParameter w "client_secret") = true ->
  Metadata.fetchFileMetadata w =
  (Normal tt,
   set_container
     (error_box (if missing (Params.getParameter w "file_id")
                 then Metadata.file_id_required
                 else Metadata.credentials_required)) w).
Proof.
  intros Hmiss. unfold Metadata.fetchFileMetadata, mbind, Run_bind, gets.
  destruct (missing (Params.getParameter w "file_id")); [reflexivity|].
  simpl in Hmiss. rewrite Hmiss. reflexivity.
Qed.

Lemma AuthCode_fetch_missing (w : World) :
  missing (Params.getParameter w "file_id") ||
  missing (Params.getParameter w "client_id") ||
  missing (Params.getParameter w "client_secret") = true ->
  AuthCode.fetchFileMetadata w =
  (Normal tt,
   set_container
     (error_box (if missing (Params.getParameter w "client_id") ||
                    missing (Params.getParameter w "client_secret")
                 then AuthCode.credentials_required
                 else AuthCode.file_id_required)) w).
Proof.
  intros Hmiss. unfold AuthCode.fetchFileMetadata, mbind, Run_bind, gets.
  destruct (missing (Params.getParameter w "client_id")); [reflexivity|].
  destruct (missing (Params.getParameter w "client_secret")); [reflexivity|].
  rewrite !orb_false_r in Hmiss. rewrite Hmiss. reflexivity.
Qed.

(** C5.  When a required parameter is absent from the query (or empty),
    the fetch action of either single-fetch revision ends at once: the
    container shows an error box whose message names a parameter that
    is missing and says how to add it, and the world is otherwise as
    before; in particular no request has been issued.  When only one
    parameter is missing, it is the one named. *)
Theorem missing_parameter_reported (w : World) (p : string) :
  In p required ->
  missing (Params.getParameter w p) = true ->
  forall action,
    In action [Metadata.fetchFileMetadata; AuthCode.fetchFileMetadata] ->
    exists msg named,
      action w = (Normal tt, set_container (error_box msg) w) /\
      requests (snd (action w)) = requests w /\
      In named required /\
      missing (Params.getParameter w named) = true /\
      Str.includes msg named = true /\
      Str.includes msg "Please add" = true /\
      Str.includes msg "to the URL" = true /\
      ((forall p', In p' required ->
                   missing (Params.getParameter w p') = true -> p' = p) ->
       Str.includes msg p = true).
Proof.
  intros Hp Hmiss action Haction.
  assert (Hany : missing (Params.getParameter w "file_id") ||
                 missing (Params.getParameter w "client_id") ||
                 missing (Params.getParameter w "client_secret") = true).
  { destruct Hp as [<- | [<- | [<- | []]]]; rewrite Hmiss;
      rewrite ?orb_true_r; reflexivity. }
  assert (Hgoal : exists msg named,
            action w = (Normal tt, set_container (error_box msg) w) /\
            In named required /\
            missing (Params.getParameter w named) = true /\
            Str.includes msg named = true /\
            Str.includes msg "Please add" = true /\
            Str.includes msg "to the URL" = true).
  { destruct Haction as [<- | [<- | []]].
    - rewrite (Metadata_fetch_missing w Hany).
      destruct (missing (Params.getParameter w "file_id")) eqn:Hfile.
      + exists Metadata.file_id_required, "file_id".
        repeat split; try reflexivity; [left; reflexivity | exact Hfile].
      + simpl in Hany.
        destruct (missing (Params.getParameter w "client_id")) eqn:Hid.
        * exists Metadata.credentials_required, "client_id".
          repeat split; try reflexivity; [right; left; reflexivity | exact Hid].
        * simpl in Hany.
          exists Metadata.credentials_required, "client_secret".
          repeat split; try reflexivity; [right; right; left; reflexivity | exact Hany].
    - rewrite (AuthCode_fetch_missing w Hany).
      destruct (missing (Params.getParameter w "client_id")) eqn:Hid.
      + exists AuthCode.credentials_required, "client_id".
        repeat split; try reflexivity; [right; left; reflexivity | exact Hid].
      + destruct (missing (Params.getParameter w "client_secret")) eqn:Hsecret.
        * exists AuthCode.credentials_required, "client_secret".
          repeat split; try reflexivity; [right; right; left; reflexivity | exact Hsecret].
        * simpl in Hany. rewrite !orb_false_r in Hany.
          exists AuthCode.file_id_required, "file_id".
          repeat split; try reflexivity; [left; reflexivity | exact Hany]. }
  destruct Hgoal as (msg & named & Hrun & Hnamed & Hmissing & Hincl & Hadd & Hurl).
  exists msg, named. rewrite Hrun.
  repeat split; try assumption.
  intros Honly. rewrite <- (Honly named Hnamed Hmissing). exact Hincl.
Qed.

End FetchAction.

Section Cleanup.
Context `{Host}.

(** Whatever the guarded block does, the world that is left is the one
    the cleanup leaves. *)
Lemma try_finally_world {A : Type} (body : Run A) (cleanup : Run unit) (w : World) :
  snd (try_finally body cleanup w) = snd (cleanup (snd (body w))).
Proof.
  unfold try_finally. destruct (body w) as [c w']. simpl.
  destruct (cleanup w') as [[[]|e] w'']; reflexivity.
Qed.

Lemma reset_button_idle (label : string) (w : World) :
  idle label (snd (reset_button label w)).
Proof. split; reflexivity. Qed.

Lemma try_finally_reset_idle {A : Type} (body : Run A) (label : string) (w : World) :
  idle label (snd (try_finally body (reset_button label) w)).
Proof. rewrite try_finally_world. apply reset_button_idle. Qed.

Lemma Metadata_fetch_restores (w : World) :
  missing (Params.getParameter w "file_id") = false ->
  missing (Params.getParameter w "client_id") = false ->
  missing (Params.getParameter w "client_secret") = false ->
  idle Metadata.idle_label (snd (Metadata.fetchFileMetadata w)).
Proof.
  intros Hfile Hid Hsecret.
  unfold Metadata.fetchFileMetadata, mbind, Run_bind, gets.
  rewrite Hfile, Hid, Hsecret. cbn [orb modify].
  apply (try_finally_reset_idle (A := unit)).
Qed.

Lemma AuthCode_fetch_restores (w : World) :
  missing (Params.getParameter w "file_id") = false ->
  missing (Params.getParameter w "client_id") = false ->
  missing (Params.getParameter w "client_secret") = false ->
  idle AuthCode.idle_label (snd (AuthCode.fetchFileMetadata w)).
Proof.
  intros Hfile Hid Hsecret.
  unfold AuthCode.fetchFileMetadata, mbind, Run_bind, gets.
  rewrite Hfile, Hid, Hsecret. cbn [orb modify].
  apply (try_finally_reset_idle (A := unit)).
Qed.

(** C7.  After the fetch action the control is enabled and carries its
    idle label, whatever the upstream answered and however token
    acquisition, resource fetch and rendering completed: once the
    parameters are present the [finally] block has run; when one is
    missing the control was never touched. *)
Theorem fetch_button_restored (w : World) :
  (missing (Params.getParameter w "file_id") = false ->
   missing (Params.getParameter w "client_id") = false ->
   missing (Params.getParameter w "client_secret") = false ->
   idle Metadata.idle_label (snd (Metadata.fetchFileMetadata w)) /\
   idle AuthCode.idle_label (snd (AuthCode.fetchFileMetadata w))) /\
  (missing (Params.getParameter w "file_id") ||
   missing (Params.getParameter w "client_id") ||
   missing (Params.getParameter w "client_secret") = true ->
   button (snd (Metadata.fetchFileMetadata w)) = button w /\
   button (snd (AuthCode.fetchFileMetadata w)) = button w).
Proof.
  split.
  - intros Hfile Hid Hsecret. split.
    + apply Metadata_fetch_restores; assumption.
    + apply AuthCode_fetch_restores; assumption.
  - intros Hmiss.
    rewrite (Metadata_fetch_missing w Hmiss), (AuthCode_fetch_missing w Hmiss).
    split; reflexivity.
Qed.

End Cleanup.

(** ** Token acquisition *)

Section TokenAcquisition.
Import Metadata.

(** The first attempt, when it is answered with a non-success status:
    the loop goes on, one request has been issued, and nothing else of
    the world has changed but the console. *)
Lemma first_attempt_fails (w : World) (clientId clientSecret : string) (r1 : Response) :
  upstream w (requests w) (plain_request clientId clientSecret) = Fulfilled r1 ->
  ok r1 = false ->
  exists w1,
    attempt (authMethods clientId clientSecret) 0 w = (Normal Continue, w1) /\
    requests w1 = requests w ++ [plain_request clientId clientSecret] /\
    upstream w1 = upstream w /\
    (forall errorData, body r1 = Json errorData ->
                       In (failed_line "1" errorData) (console w1)).
Proof.
  intros Hup Hok.
  unfold attempt, try_catch, mbind, Run_bind, fetch, console_log, modify, json.
  cbn [nth authMethods length Nat.sub Nat.eqb upstream requests set_console].
  change (token_request _) with (plain_request clientId clientSecret).
  rewrite Hup, Hok. cbn [negb].
  destruct (body r1) as [errorData | err]; cbn.
  - eexists. split; [reflexivity|]. repeat split.
    intros e [= <-]. apply in_or_app. right. left. reflexivity.
  - eexists. split; [reflexivity|]. repeat split. intros e [=].
Qed.

Lemma second_attempt_succeeds (w : World) (clientId clientSecret : string)
      (r2 : Response) (tokenData : JValue) :
  upstream w (requests w) (enterprise_request clientId clientSecret) = Fulfilled r2 ->
  ok r2 = true ->
  body r2 = Json tokenData ->
  exists w2,
    attempt (authMethods clientId clientSecret) 1 w = (Normal (Return tokenData), w2) /\
    requests w2 = requests w ++ [enterprise_request clientId clientSecret].
Proof.
  intros Hup Hok Hbody.
  unfold attempt, try_catch, mbind, Run_bind, fetch, console_log, modify, json.
  cbn [nth authMethods length Nat.sub Nat.eqb upstream requests set_console].
  change (token_request _) with (enterprise_request clientId clientSecret).
  rewrite Hup, Hok, Hbody. cbn.
  eexists. split; reflexivity.
Qed.


(** X12.  A success on the first attempt ends the loop: one request, and
    its parsed body is the result. *)
Lemma first_success_short_circuits (w : World) (clientId clientSecret : string)
      (r1 : Response) (tokenData : JValue) :
  upstream w (requests w) (plain_request clientId clientSecret) = Fulfilled r1 ->
  ok r1 = true ->
  body r1 = Json tokenData ->
  fst (getAccessToken clientId clientSecret w) = Normal tokenData /\
  requests (snd (getAccessToken clientId clientSecret w)) =
    requests w ++ [plain_request clientId clientSecret].
Proof.
  intros Hup Hok Hbody. unfold plain_request in *.
  unfold getAccessToken. cbn [length authMethods attempts].
  unfold attempt, try_catch, mbind, Run_bind, fetch, console_log, modify, json.
  cbn [nth authMethods length Nat.sub Nat.eqb upstream requests set_console].
  rewrite Hup, Hok, Hbody. cbn. split; reflexivity.
Qed.

End TokenAcquisition.





(** X27.  When the last body is not JSON, it is the rejection of
    [response.json()] that leaves [getAccessToken]. *)
Lemma last_body_not_json (w : World) (clientId clientSecret : string)
      (r1 r2 : Response) (err : JsError) :
  upstream w (requests w) (plain_request clientId clientSecret) = Fulfilled r1 ->
  ok r1 = false ->
  upstream w (requests w ++ [plain_request clientId clientSecret])
           (enterprise_request clientId clientSecret) = Fulfilled r2 ->
  body r2 = NotJson err ->
  fst (Metadata.getAccessToken clientId clientSecret w) = Throw err.
Proof.
  intros Hup1 Hok1 Hup2 Hbody2.
  destruct (first_attempt_fails w clientId clientSecret r1 Hup1 Hok1)
    as (w1 & Hrun1 & Hreq1 & Hnet1 & _).
  rewrite <- Hreq1, <- Hnet1 in Hup2.
  unfold Metadata.getAccessToken.
  cbn [length Metadata.authMethods Metadata.attempts]. unfold mbind, Run_bind.
  rewrite Hrun1.
  unfold Metadata.attempt, try_catch, mbind, Run_bind, fetch, console_log, modify, json.
  cbn [nth Metadata.authMethods length Nat.sub Nat.eqb upstream requests set_console].
  change (Metadata.token_request _) with (enterprise_request clientId clientSecret).
  rewrite Hup2, Hbody2. destruct (ok r2); reflexivity.
Qed.

(** ** The resource fetch *)

(** What [getFileMetadata] throws on a non-success response with a JSON
    object body: [message], else [error], and nothing after that. *)
Lemma getFileMetadata_failure (w : World) (fileId : string) (accessToken : JValue)
      (r : Response) (members : list (string * JValue)) :
  upstream w (requests w) (Metadata.file_request fileId accessToken) = Fulfilled r ->
  ok r = false ->
  body r = Json (JObj members) ->
  fst (Metadata.getFileMetadata fileId accessToken w) =
    Throw (Error ("File metadata request failed: " +:+ Str.of_Z (status r) +:+ " - " +:+
                  Js.toString (Js.or (Js.lookup "message" members)
                                     (Js.lookup "error" members)))).
Proof.
  intros Hup Hok Hbody.
  unfold Metadata.getFileMetadata, mbind, Run_bind, fetch, json.
  rewrite Hup, Hok, Hbody. unfold Js.or.
  cbv beta iota delta [mbind mret Run_bind Run_ret lift Js.prop throw negb].
  destruct (Js.truthy (Js.lookup "message" members)); reflexivity.
Qed.

(** What the inline fetch of the authorization-code revision throws:
    [message], else [error], else the literal [Unknown error]. *)
Lemma file_failure_prefers (w : World) (r : Response) (members : list (string * JValue)) :
  AuthCode.file_failure r (JObj members) w =
    (Normal (Error (Str.of_Z (status r) +:+ " - " +:+
                    Js.toString (Js.or (Js.lookup "message" members)
                                       (Js.or (Js.lookup "error" members)
                                              (JStr "Unknown error"))))), w).
Proof.
  unfold AuthCode.file_failure, Js.or.
  cbv beta iota delta [mbind mret Run_bind Run_ret lift Js.prop].
  destruct (Js.truthy (Js.lookup "message" members)); reflexivity.
Qed.

(** C6 fails in [getFileMetadata]: a 404 whose body has neither [message]
    nor [error] is reported with the text [undefined], not with a
    fallback literal. *)
Theorem getFileMetadata_without_fallback :
  let w := page EmptyString
                (scripted [Fulfilled {| status := 404; body := Json (JObj []) |}])
                EmptyString in
  fst (Metadata.getFileMetadata "42" (JStr "tok") w) =
    Throw (Error "File metadata request failed: 404 - undefined") /\
  fst (AuthCode.file_failure {| status := 404; body := Json (JObj []) |} (JObj []) w) =
    Normal (Error "404 - Unknown error").
Proof. split; reflexivity. Qed.

(** ** The byte-size formatter *)

Section Decimals.

Lemma uint_no_point (d : Decimal.uint) :
  Str.mem "." (NilEmpty.string_of_uint d) = false.
Proof. induction d; simpl; auto. Qed.

Lemma of_Z_no_point (z : Z) : Str.mem "." (Str.of_Z z) = false.
Proof.
  unfold Str.of_Z, NilZero.string_of_int.
  destruct (Z.to_int z) as [d | d]; unfold NilZero.string_of_uint.
  - destruct d; try apply uint_no_point; reflexivity.
  - change (Str.mem "." (String "-" ?s)) with (Str.mem "." s).
    destruct d; try apply uint_no_point; reflexivity.
Qed.

Lemma cut_point_app (a f : string) :
  Str.mem "." a = false ->
  Render.cut_point (a +:+ String "." f) = (a, Some f).
Proof.
  induction a as [|c a IH]; intros Hmem; [reflexivity|].
  change (Str.mem "." (String c a)) with (Ascii.eqb "." c || Str.mem "." a) in Hmem.
  apply orb_false_elim in Hmem as [Hc Ha].
  rewrite str_app_cons.
  change (Render.cut_point (String c ?s)) with
    (if Ascii.eqb c "." then (EmptyString, Some s)
     else let (i, f0) := Render.cut_point s in (String c i, f0)).
  rewrite Ascii.eqb_sym, Hc, (IH Ha). reflexivity.
Qed.

Lemma digits_of (n : Z) :
  0 <= n ->
  exists a b, 0 <= a <= 9 /\ 0 <= b <= 9 /\
              n mod 100 = 10 * a + b /\ n mod 100 / 10 = a /\ n mod 10 = b.
Proof.
  intros Hn. exists (n mod 100 / 10), (n mod 10).
  pose proof (Z.mod_pos_bound n 100 ltac:(lia)).
  pose proof (Z.mod_pos_bound n 10 ltac:(lia)).
  assert (Hmm : (n mod 100) mod 10 = n mod 10).
  { apply Z.mod_mod_divide. exists 10. lia. }
  pose proof (Z.div_mod (n mod 100) 10 ltac:(lia)).
  repeat split; lia.
Qed.

(** Printing with two decimals and reading the number back prints it
    without its trailing zeros. *)
Lemma parseFloat_toFixed (num den : Z) :
  0 <= Render.hundredths num den ->
  Render.parseFloat_toString (Render.toFixed2 num den) =
  two_decimals_trimmed (Render.hundredths num den).
Proof.
  intros Hn. unfold Render.toFixed2, two_decimals_trimmed.
  set (n := Render.hundredths num den) in *.
  unfold Render.parseFloat_toString.
  change ("." +:+ ?s) with (String "." s).
  rewrite cut_point_app by apply of_Z_no_point.
  destruct (digits_of n Hn) as (a & b & Ha & Hb & H100 & Hdiv & Hmod).
  rewrite Hdiv, Hmod, H100. clear Hdiv Hmod H100.
  assert (Hcases : (a = 0 \/ a = 1 \/ a = 2 \/ a = 3 \/ a = 4 \/ a = 5 \/ a = 6 \/
                    a = 7 \/ a = 8 \/ a = 9) /\
                   (b = 0 \/ b = 1 \/ b = 2 \/ b = 3 \/ b = 4 \/ b = 5 \/ b = 6 \/
                    b = 7 \/ b = 8 \/ b = 9)) by lia.
  destruct Hcases as [Hca Hcb].
  repeat (destruct Hca as [-> | Hca]); try subst a;
    repeat (destruct Hcb as [-> | Hcb]); try subst b; reflexivity.
Qed.

End Decimals.

Section ByteSize.
Context `{Host}.
Import Render.

Lemma hundredths_nonneg (b d : Z) : 0 <= b -> 0 < d -> 0 <= hundredths b d.
Proof. intros Hb Hd. unfold hundredths. apply Z.div_pos; lia. Qed.

Lemma hundredths_nearest (b d : Z) :
  0 < d -> - d <= 200 * b - 2 * d * hundredths b d < d.
Proof.
  intros Hd. unfold hundredths.
  pose proof (Z.div_mod (200 * b + d) (2 * d) ltac:(lia)).
  pose proof (Z.mod_pos_bound (200 * b + d) (2 * d) ltac:(lia)).
  lia.
Qed.


(** The formatter on a positive count whose computed index is [i]. *)
Lemma formatFileSize_at (b i : Z) :
  1 <= b -> 0 <= i -> Math_floor_log b 1024 = i ->
  formatFileSize (JNum b) =
  two_decimals_trimmed (hundredths b (1024 ^ i)) +:+ " " +:+
  Js.toString (at_index sizes i).
Proof.
  intros Hb Hi Hlog. unfold formatFileSize, is_zero, ToNumber.
  replace (b =? 0) with false by (symmetry; apply Z.eqb_neq; lia).
  replace (0 <? b) with true by (symmetry; apply Z.ltb_lt; lia).
  rewrite Hlog.
  replace (0 <=? i) with true by (symmetry; apply Z.leb_le; lia).
  rewrite parseFloat_toFixed; [reflexivity|].
  apply hundredths_nonneg; [lia|]. apply Z.pow_pos_nonneg; lia.
Qed.





(** The unit follows the index the engine computes: were the quotient of
    logarithms to round up to 5 for a count just below [1024^5], that
    count too would be printed with [undefined]. *)
Lemma formatFileSize_follows_engine_index (b : Z) :
  1 <= b -> Math_floor_log b 1024 = 5 ->
  formatFileSize (JNum b) =
    two_decimals_trimmed (hundredths b (1024 ^ 5)) +:+ " undefined".
Proof.
  intros Hb Hlog. rewrite (formatFileSize_at b 5) by (try exact Hlog; lia). reflexivity.
Qed.

End ByteSize.



(** ** Escaping *)

(** C3 fails in the metadata card of the authorization-code revision:
    the file name is escaped (once), but the checksum and the tags (like
    the identifier, type, extension, version and shared link) are
    inserted as they came, so a [<script>] in them reaches the page. *)
Theorem displayFileMetadata_inserts_raw_fields :
  let w := snd (@AuthCode.displayFileMetadata exact_host crafted_file
                  (page EmptyString offline EmptyString)) in
  Str.includes (container w) ">SHA1: <script>alert(2)</script></span>" = true /\
  Str.includes (container w) ">Tags: <script>alert(3)</script></span>" = true /\
  Str.includes (container w) "<script>alert(1)</script>" = false /\
  Str.includes (container w) "&lt;script&gt;alert(1)&lt;/script&gt;</div>" = true /\
  Str.includes (container w) "&amp;lt;" = false.
Proof. vm_compute. repeat split. Qed.

Section Occurrences.

Lemma includes_cons (c : ascii) (s p : string) :
  Str.includes (String c s) p = String.prefix p (String c s) || Str.includes s p.
Proof. reflexivity. Qed.

Lemma prefix_cons (a b : ascii) (p s : string) :
  String.prefix (String a p) (String b s) =
  if Ascii.eqb a b then String.prefix p s else false.
Proof.
  simpl. destruct (ascii_dec a b) as [-> | Hne].
  - rewrite Ascii.eqb_refl. reflexivity.
  - apply Ascii.eqb_neq in Hne. rewrite Hne. reflexivity.
Qed.

Lemma prefix_app (x p s : string) :
  strict_prefix x p = false -> String.prefix p (x +:+ s) = String.prefix p x.
Proof.
  revert p. induction x as [|b x IH]; intros p Hstrict.
  - destruct p; [|discriminate]. rewrite str_app_empty_l. destruct s; reflexivity.
  - destruct p as [|a p]; [reflexivity|].
    rewrite str_app_cons, !prefix_cons.
    simpl in Hstrict. rewrite Ascii.eqb_sym in Hstrict.
    destruct (Ascii.eqb a b); [|reflexivity].
    apply IH. exact Hstrict.
Qed.

(** Past a text with no partial match, an occurrence lies in the text
    or in what follows. *)
Lemma includes_lit (a s p : string) :
  no_partial a p = true -> p <> EmptyString ->
  Str.includes (a +:+ s) p = Str.includes a p || Str.includes s p.
Proof.
  intros Hno Hp. induction a as [|c a IH].
  - rewrite str_app_empty_l. destruct p; [congruence | reflexivity].
  - change (no_partial (String c a) p) with
      (negb (strict_prefix (String c a) p) && no_partial a p) in Hno.
    apply andb_prop in Hno as [Hc Ha].
    apply negb_true_iff in Hc.
    rewrite str_app_cons, !includes_cons, (IH Ha).
    rewrite <- str_app_cons, (prefix_app _ _ _ Hc). apply orb_assoc.
Qed.

(** No occurrence starts inside a text without the first character of
    the pattern. *)
Lemma includes_skip (b s : string) (c : ascii) (p : string) :
  Str.mem c b = false ->
  Str.includes (b +:+ s) (String c p) = Str.includes s (String c p).
Proof.
  induction b as [|x b IH]; intros Hmem; [reflexivity|].
  change (Str.mem c (String x b)) with (Ascii.eqb c x || Str.mem c b) in Hmem.
  apply orb_false_elim in Hmem as [Hc Hb].
  rewrite str_app_cons, includes_cons, prefix_cons, Hc, (IH Hb). reflexivity.
Qed.

Lemma includes_none (b : string) (c : ascii) (p : string) :
  Str.mem c b = false -> Str.includes b (String c p) = false.
Proof.
  intros Hmem. rewrite <- (str_app_empty_r b), includes_skip by exact Hmem.
  reflexivity.
Qed.

(** The escaped text has no [<]. *)
Lemma escape_no_lt_bounded (n : nat) (s : string) :
  (String.length s <= n)%nat -> Str.mem "<" (Params.escape s) = false.
Proof.
  revert s. induction n as [|n IH]; intros s Hlen.
  - destruct s; [reflexivity | simpl in Hlen; lia].
  - destruct s as [|c rest]; [reflexivity|].
    simpl in Hlen.
    assert (Hrest : Str.mem "<" (Params.escape rest) = false) by (apply IH; lia).
    change (Params.escape (String c rest)) with
      (if Ascii.eqb c "&" then "&amp;" +:+ Params.escape rest
       else if Ascii.eqb c "<" then "&lt;" +:+ Params.escape rest
       else if Ascii.eqb c ">" then "&gt;" +:+ Params.escape rest
       else if Ascii.eqb c (ascii_of_nat 194) then
         match rest with
         | String d rest' =>
             if Ascii.eqb d (ascii_of_nat 160) then "&nbsp;" +:+ Params.escape rest'
             else String c (Params.escape rest)
         | EmptyString => String c (Params.escape rest)
         end
       else String c (Params.escape rest)).
    destruct (Ascii.eqb c "&"); [rewrite mem_app, Hrest; reflexivity|].
    destruct (Ascii.eqb c "<") eqn:Hlt; [rewrite mem_app, Hrest; reflexivity|].
    destruct (Ascii.eqb c ">"); [rewrite mem_app, Hrest; reflexivity|].
    assert (Hkeep : Str.mem "<" (String c (Params.escape rest)) = false).
    { change (Ascii.eqb "<" c || Str.mem "<" (Params.escape rest) = false).
      rewrite Ascii.eqb_sym, Hlt, Hrest. reflexivity. }
    destruct (Ascii.eqb c (ascii_of_nat 194)); [|exact Hkeep].
    destruct rest as [|d rest']; [exact Hkeep|].
    destruct (Ascii.eqb d (ascii_of_nat 160)); [|exact Hkeep].
    rewrite mem_app. simpl in Hlen. rewrite (IH rest') by lia. reflexivity.
Qed.

Lemma escape_no_lt (s : string) : Str.mem "<" (Params.escape s) = false.
Proof. apply (escape_no_lt_bounded (String.length s)). lia. Qed.

Ltac scan :=
  repeat first
    [ rewrite includes_skip by apply escape_no_lt
    | rewrite includes_lit by (first [reflexivity | discriminate]) ].

(** The parameter row never contains [<script>], whatever the key and
    the value are; each is escaped once. *)
Lemma createParameterItem_no_script (key value : string) :
  Str.includes (Params.createParameterItem key value) "<script>" = false.
Proof.
  unfold Params.createParameterItem, Str.q, Params.escapeHtml. cbn [Js.toString].
  rewrite !str_app_assoc. scan. reflexivity.
Qed.

(** Nor does the error box, whatever the message is. *)
Lemma showMetadataError_no_script (msg : string) (w : World) :
  Str.includes (container (snd (Metadata.showMetadataError msg w))) "<script>" = false /\
  Str.includes (container (snd (AuthCode.showFilesError msg w))) "<script>" = false.
Proof.
  unfold Metadata.showMetadataError, AuthCode.showFilesError, modify, Str.q,
    Params.escapeHtml.
  cbn [snd container set_container Js.toString].
  rewrite !str_app_assoc. scan. split; reflexivity.
Qed.

(** Nor does one row of the client-credentials revision's metadata
    list: the value shown is escaped in both places it is inserted. *)
Lemma metadata_item_no_script `{Host} (label : string) (shown : JValue) :
  Str.mem "<" label = false ->
  Str.includes (Metadata.metadata_item label shown) "<script>" = false.
Proof.
  intros Hlabel.
  unfold Metadata.metadata_item, Str.q, Params.escapeHtml. cbn [Js.toString].
  rewrite !str_app_assoc. scan.
  rewrite includes_skip by exact Hlabel. scan. reflexivity.
Qed.

Lemma prefix_fresh (y p rest : string) (c : ascii) :
  Str.mem c p = false ->
  String.prefix p (y +:+ String c rest) = String.prefix p y.
Proof.
  revert p. induction y as [|b y IH]; intros p Hmem.
  - rewrite str_app_empty_l. destruct p as [|a p]; [reflexivity|].
    change (Str.mem c (String a p)) with (Ascii.eqb c a || Str.mem c p) in Hmem.
    apply orb_false_elim in Hmem as [Hc _].
    rewrite prefix_cons, Ascii.eqb_sym, Hc. reflexivity.
  - destruct p as [|a p]; [reflexivity|].
    change (Str.mem c (String a p)) with (Ascii.eqb c a || Str.mem c p) in Hmem.
    apply orb_false_elim in Hmem as [_ Hp].
    rewrite str_app_cons, !prefix_cons.
    destruct (Ascii.eqb a b); [apply IH; exact Hp | reflexivity].
Qed.

(** No occurrence runs across a character the pattern does not have. *)
Lemma includes_fresh (acc rest p : string) (c : ascii) :
  Str.mem c p = false -> p <> EmptyString ->
  Str.includes (acc +:+ String c rest) p = Str.includes acc p || Str.includes rest p.
Proof.
  intros Hmem Hp. induction acc as [|x acc IH].
  - rewrite str_app_empty_l, includes_cons.
    rewrite <- (str_app_empty_l (String c rest)), (prefix_fresh EmptyString) by exact Hmem.
    destruct p; [congruence | reflexivity].
  - rewrite str_app_cons, !includes_cons, IH.
    rewrite <- str_app_cons, prefix_fresh by exact Hmem. apply orb_assoc.
Qed.

Section MetadataList.
Context `{Host}.

(** Appending rows keeps the list free of [<script>]: a row starts with
    a line feed, which no occurrence can cross. *)
Lemma forEach_field_no_script (metadata : JValue) (fields : list (string * string))
      (metadataHtml html : string) (w w' : World) :
  Forall (fun field => Str.mem "<" (snd field) = false) fields ->
  Str.includes metadataHtml "<script>" = false ->
  Metadata.forEach_field metadata fields metadataHtml w = (Normal html, w') ->
  Str.includes html "<script>" = false.
Proof.
  intros Hlabels. revert metadataHtml.
  induction Hlabels as [|[key label] fields Hlabel _ IH]; intros metadataHtml Hacc Hrun.
  - injection Hrun as <- _. exact Hacc.
  - cbn [Metadata.forEach_field] in Hrun. unfold mbind, Run_bind in Hrun.
    destruct (lift (Js.prop metadata key) w) as [[value | e] w1] eqn:Hprop;
      [|discriminate].
    assert (Hw : w1 = w).
    { unfold lift in Hprop. destruct (Js.prop metadata key); inversion Hprop; reflexivity. }
    subst w1.
    assert (Hrow : Str.includes (metadataHtml +:+
                                 Metadata.metadata_item label (Metadata.displayValue key value))
                                "<script>" = false).
    { pose proof (metadata_item_no_script label (Metadata.displayValue key value) Hlabel)
        as Hitem.
      unfold Metadata.metadata_item in *.
      change (Str.nl +:+ ?rest) with (String (ascii_of_nat 10) rest) in *.
      rewrite includes_cons in Hitem. apply orb_false_elim in Hitem as [_ Hrest].
      rewrite includes_fresh by (reflexivity || discriminate).
      rewrite Hacc, Hrest. reflexivity. }
    destruct value; try (apply (IH _ Hrow Hrun)); apply (IH _ Hacc Hrun).
Qed.

(** X28.  The metadata list of the client-credentials revision never
    shows a raw [<script>], whatever the resource holds. *)
Lemma Metadata_displayFileMetadata_no_script (metadata : JValue) (w : World) :
  Str.includes (container w) "<script>" = false ->
  Str.includes (container (snd (Metadata.displayFileMetadata metadata w))) "<script>" = false.
Proof.
  intros Hbefore. unfold Metadata.displayFileMetadata, mbind, Run_bind.
  destruct (Metadata.forEach_field metadata Metadata.metadataFields EmptyString w)
    as [[html | e] w'] eqn:Hrun.
  - assert (Hhtml : Str.includes html "<script>" = false).
    { apply (forEach_field_no_script metadata Metadata.metadataFields EmptyString html w w');
        [|reflexivity|exact Hrun].
      unfold Metadata.metadataFields. repeat constructor. }
    cbn [modify snd container set_container].
    destruct (String.eqb html EmptyString); [reflexivity | exact Hhtml].
  - cbn [snd].
    assert (Hsame : forall fields acc, snd (Metadata.forEach_field metadata fields acc w) = w).
    { induction fields as [|[key label] fields IHf]; intros acc; [reflexivity|].
      cbn [Metadata.forEach_field]. unfold mbind, Run_bind, lift.
      destruct (Js.prop metadata key) as [err | value]; [reflexivity|].
      cbn [mret Run_ret]. destruct value; apply IHf. }
    pose proof (Hsame Metadata.metadataFields EmptyString) as Hw.
    rewrite Hrun in Hw. cbn [snd] in Hw. subst w'. exact Hbefore.
Qed.

End MetadataList.

End Occurrences.

(** ** Worked examples *)

Example scenario_Metadata :
  let w := snd (@Metadata.fetchFileMetadata exact_host (scenario Metadata.idle_label)) in
  Str.includes (container w) ">2 KB</span>" = true /\
  Str.includes (container w) ">report.pdf</span>" = true /\
  Str.includes (container w) "<script>" = false /\
  map url (requests w) =
    ["https://api.box.com/oauth2/token"; "https://api.box.com/2.0/files/42"] /\
  button w = button (scenario Metadata.idle_label).
Proof. vm_compute. repeat split. Qed.

Example scenario_AuthCode :
  let start :=
    page "?file_id=42&client_id=abc&client_secret=xyz&auth_code=c0de"
         (upstream (scenario AuthCode.idle_label)) AuthCode.idle_label in
  let w := snd (@AuthCode.fetchFileMetadata exact_host start) in
  Str.includes (container w) ">Size: 2 KB</span>" = true /\
  Str.includes (container w) "report.pdf</div>" = true /\
  Str.includes (container w) "<script>" = false /\
  map form (requests w) =
    [ Some [ ("grant_type", "authorization_code"); ("code", "c0de");
             ("client_id", "abc"); ("client_secret", "xyz") ];
      None ] /\
  button w = button start.
Proof. vm_compute. repeat split. Qed.

Example null_resource_Metadata :
  let w := snd (@Metadata.fetchFileMetadata exact_host (null_resource Metadata.idle_label)) in
  container w =
    error_box "Failed to fetch file metadata: Cannot read properties of null (reading 'id')" /\
  button w = button (null_resource Metadata.idle_label).
Proof. vm_compute. repeat split. Qed.

Lemma query_parameters_first_and_last_witness :
  let w := page "?a=1&b=2&a=3" offline EmptyString in
  Params.getParameter w "b" = Some "2" /\
  Params.getParametersObject w !! "b" = Some "2".
Proof.
  apply (proj1 (proj2 (proj2 (proj2
           (query_parameters_first_and_last (page "?a=1&b=2&a=3" offline EmptyString)))))
           "b" "2" [("a", "1")] [("a", "3")]).
  - discriminate.
  - reflexivity.
  - simpl. intros [Heq | []]. discriminate Heq.
  - simpl. intros [Heq | []]. discriminate Heq.
Defined.

Lemma missing_parameter_reported_witness :
  let w := page "?file_id=42&client_secret=xyz" offline EmptyString in
  exists msg named,
    @Metadata.fetchFileMetadata exact_host w =
      (Normal tt, set_container (error_box msg) w) /\
    requests (snd (@Metadata.fetchFileMetadata exact_host w)) = requests w /\
    In named required /\
    missing (Params.getParameter w named) = true /\
    Str.includes msg named = true /\
    Str.includes msg "Please add" = true /\
    Str.includes msg "to the URL" = true /\
    ((forall p', In p' required ->
                 missing (Params.getParameter w p') = true -> p' = "client_id") ->
     Str.includes msg "client_id" = true).
Proof.
  apply (@missing_parameter_reported exact_host
           (page "?file_id=42&client_secret=xyz" offline EmptyString) "client_id").
  - right. left. reflexivity.
  - reflexivity.
  - left. reflexivity.
Defined.

Lemma fetch_button_restored_witness :
  idle Metadata.idle_label
       (snd (@Metadata.fetchFileMetadata exact_host (null_resource "stale"))) /\
  idle AuthCode.idle_label
       (snd (@AuthCode.fetchFileMetadata exact_host (null_resource "stale"))).
Proof.
  exact (proj1 (@fetch_button_restored exact_host (null_resource "stale"))
               eq_refl eq_refl eq_refl).
Defined.

(* ================================================================== *)
(** * Further properties of the script *)
(* ================================================================== *)

(** ** Looking parameters up *)

Section Lookups.
Import URLSearchParams Params.

Lemma has_In (l : t) (key : string) : has l key = true <-> In key (map fst l).
Proof.
  unfold has. rewrite existsb_exists. split.
  - intros [[n v] [Hin Heq]]. apply String.eqb_eq in Heq. simpl in Heq. subst n.
    apply in_map_iff. exists (key, v). auto.
  - intros Hin. apply in_map_iff in Hin as [[n v] [Heq Hin]]. simpl in Heq. subst n.
    exists (key, v). split; [exact Hin | apply String.eqb_refl].
Qed.

Lemma get_Some_In (l : t) (key value : string) :
  get l key = Some value -> In key (map fst l).
Proof.
  induction l as [|[n v] l IH]; [discriminate|].
  simpl. destruct (String.eqb_spec n key) as [-> | Hne]; [left; reflexivity|].
  intros Hget. right. exact (IH Hget).
Qed.

End Lookups.

(** X1.  The three lookups agree on which keys exist: [hasParameter]
    answers true exactly when [getParameter] returns a value, and (for a
    key other than [__proto__]) exactly when the object of
    [getParametersObject] has the key; a key that is not in the query
    gives [null] and no property. *)
Theorem parameter_lookups_agree (w : World) (key : string) :
  key <> "__proto__" ->
  (Params.hasParameter w key = true <-> exists v, Params.getParameter w key = Some v) /\
  (Params.hasParameter w key = true <->
   exists v, Params.getParametersObject w !! key = Some v) /\
  (Params.hasParameter w key = false ->
   Params.getParameter w key = None /\ Params.getParametersObject w !! key = None).
Proof.
  intros Hkey. unfold Params.hasParameter, Params.getParameter.
  rewrite getParametersObject_last by exact Hkey.
  set (params := URLSearchParams.new (location_search w)).
  assert (Hget : URLSearchParams.has params key = true <->
                 exists v, URLSearchParams.get params key = Some v).
  { rewrite has_In. split.
    - intros Hin. destruct (get_present _ _ Hin) as (_ & v & _ & _ & _ & Hv). eauto.
    - intros [v Hv]. exact (get_Some_In _ _ _ Hv). }
  assert (Hobj : URLSearchParams.has params key = true <->
                 exists v, URLSearchParams.get (rev params) key = Some v).
  { rewrite has_In. split.
    - intros Hin. destruct (get_rev_present _ _ Hin) as (_ & v & _ & _ & _ & Hv). eauto.
    - intros [v Hv]. apply get_Some_In in Hv. rewrite map_rev in Hv.
      apply in_rev in Hv. exact Hv. }
  split; [exact Hget|]. split; [exact Hobj|].
  intros Hhas. split.
  - destruct (URLSearchParams.get params key) eqn:E; [|reflexivity].
    assert (URLSearchParams.has params key = true) by (apply Hget; eauto). congruence.
  - destruct (URLSearchParams.get (rev params) key) eqn:E; [|reflexivity].
    assert (URLSearchParams.has params key = true) by (apply Hobj; eauto). congruence.
Qed.

Lemma parameter_lookups_agree_witness :
  let w := page "?a=1&b=&a=3" offline EmptyString in
  (Params.hasParameter w "b" = true <-> exists v, Params.getParameter w "b" = Some v) /\
  (Params.hasParameter w "b" = true <->
   exists v, Params.getParametersObject w !! "b" = Some v) /\
  (Params.hasParameter w "b" = false ->
   Params.getParameter w "b" = None /\ Params.getParametersObject w !! "b" = None).
Proof.
  apply (parameter_lookups_agree (page "?a=1&b=&a=3" offline EmptyString) "b").
  discriminate.
Defined.

(** ** Escaping, continued *)

Section EscapeMore.

Lemma escape_cons (c : ascii) (rest : string) :
  Params.escape (String c rest) =
  if Ascii.eqb c "&" then "&amp;" +:+ Params.escape rest
  else if Ascii.eqb c "<" then "&lt;" +:+ Params.escape rest
  else if Ascii.eqb c ">" then "&gt;" +:+ Params.escape rest
  else if Ascii.eqb c (ascii_of_nat 194) then
    match rest with
    | String d rest' =>
        if Ascii.eqb d (ascii_of_nat 160) then "&nbsp;" +:+ Params.escape rest'
        else String c (Params.escape rest)
    | EmptyString => String c (Params.escape rest)
    end
  else String c (Params.escape rest).
Proof. reflexivity. Qed.

Lemma mem_cons (c x : ascii) (s : string) :
  Str.mem c (String x s) = Ascii.eqb c x || Str.mem c s.
Proof. reflexivity. Qed.

(** A character that is none of [&], [<], [>], the byte 194 and the
    letters of the entity names occurs in the escaped text exactly when it
    occurs in the text. *)
Lemma escape_mem_bounded (c : ascii) (n : nat) (s : string) :
  Str.mem c "&<>amp;ltgnbs" = false -> c <> ascii_of_nat 194 -> c <> ascii_of_nat 160 ->
  (String.length s <= n)%nat ->
  Str.mem c (Params.escape s) = Str.mem c s.
Proof.
  intros Hc H194 H160. revert s. induction n as [|n IH]; intros s Hlen.
  - destruct s; [reflexivity | simpl in Hlen; lia].
  - destruct s as [|x rest]; [reflexivity|].
    simpl in Hlen. rewrite escape_cons, mem_cons.
    assert (Hrest : Str.mem c (Params.escape rest) = Str.mem c rest) by (apply IH; lia).
    assert (Hent : forall e, Str.mem c e = false ->
                             Str.mem c (e +:+ Params.escape rest) = Str.mem c rest).
    { intros e He. rewrite mem_app, He, Hrest. reflexivity. }
    assert (Hneq : forall y, Str.mem c (String y EmptyString) = false -> Ascii.eqb c y = false).
    { intros y Hy. rewrite mem_cons in Hy. apply orb_false_elim in Hy. tauto. }
    destruct (Ascii.eqb x "&") eqn:Hamp.
    { apply Ascii.eqb_eq in Hamp. subst x.
      rewrite Hent by (revert Hc; clear; destruct c as [[] [] [] [] [] [] [] []]; intro; try discriminate; reflexivity).
      replace (Ascii.eqb c "&") with false
        by (revert Hc; clear; destruct c as [[] [] [] [] [] [] [] []]; intro; try discriminate; reflexivity).
      reflexivity. }
    destruct (Ascii.eqb x "<") eqn:Hlt.
    { apply Ascii.eqb_eq in Hlt. subst x.
      rewrite Hent by (revert Hc; clear; destruct c as [[] [] [] [] [] [] [] []]; intro; try discriminate; reflexivity).
      replace (Ascii.eqb c "<") with false
        by (revert Hc; clear; destruct c as [[] [] [] [] [] [] [] []]; intro; try discriminate; reflexivity).
      reflexivity. }
    destruct (Ascii.eqb x ">") eqn:Hgt.
    { apply Ascii.eqb_eq in Hgt. subst x.
      rewrite Hent by (revert Hc; clear; destruct c as [[] [] [] [] [] [] [] []]; intro; try discriminate; reflexivity).
      replace (Ascii.eqb c ">") with false
        by (revert Hc; clear; destruct c as [[] [] [] [] [] [] [] []]; intro; try discriminate; reflexivity).
      reflexivity. }
    assert (Hkeep : Str.mem c (String x (Params.escape rest)) = Ascii.eqb c x || Str.mem c rest).
    { rewrite mem_cons, Hrest. reflexivity. }
    destruct (Ascii.eqb x (ascii_of_nat 194)) eqn:Hx; [|exact Hkeep].
    destruct rest as [|d rest']; [exact Hkeep|].
    destruct (Ascii.eqb d (ascii_of_nat 160)) eqn:Hd; [|exact Hkeep].
    apply Ascii.eqb_eq in Hx, Hd. subst x d.
    rewrite mem_app, (mem_cons c (ascii_of_nat 160) rest').
    simpl in Hlen. rewrite (IH rest') by lia.
    replace (Str.mem c "&nbsp;") with false
      by (revert Hc; clear; destruct c as [[] [] [] [] [] [] [] []]; intro; try discriminate; reflexivity).
    apply Ascii.eqb_neq in H194, H160. rewrite H194, H160. reflexivity.
Qed.

Lemma escape_no_gt_bounded (n : nat) (s : string) :
  (String.length s <= n)%nat -> Str.mem ">" (Params.escape s) = false.
Proof.
  revert s. induction n as [|n IH]; intros s Hlen.
  - destruct s; [reflexivity | simpl in Hlen; lia].
  - destruct s as [|c rest]; [reflexivity|].
    simpl in Hlen.
    assert (Hrest : Str.mem ">" (Params.escape rest) = false) by (apply IH; lia).
    rewrite escape_cons.
    destruct (Ascii.eqb c "&"); [rewrite mem_app, Hrest; reflexivity|].
    destruct (Ascii.eqb c "<"); [rewrite mem_app, Hrest; reflexivity|].
    destruct (Ascii.eqb c ">") eqn:Hgt; [rewrite mem_app, Hrest; reflexivity|].
    assert (Hkeep : Str.mem ">" (String c (Params.escape rest)) = false).
    { rewrite mem_cons, Ascii.eqb_sym, Hgt, Hrest. reflexivity. }
    destruct (Ascii.eqb c (ascii_of_nat 194)); [|exact Hkeep].
    destruct rest as [|d rest']; [exact Hkeep|].
    destruct (Ascii.eqb d (ascii_of_nat 160)); [|exact Hkeep].
    rewrite mem_app. simpl in Hlen. rewrite (IH rest') by lia. reflexivity.
Qed.

Lemma escape_plain_bounded (n : nat) (s : string) :
  (String.length s <= n)%nat ->
  Str.mem "&" s = false -> Str.mem "<" s = false -> Str.mem ">" s = false ->
  Str.mem (ascii_of_nat 194) s = false ->
  Params.escape s = s.
Proof.
  revert s. induction n as [|n IH]; intros s Hlen Hamp Hlt Hgt Hnb.
  - destruct s; [reflexivity | simpl in Hlen; lia].
  - destruct s as [|c rest]; [reflexivity|].
    simpl in Hlen. rewrite mem_cons in Hamp, Hlt, Hgt, Hnb.
    apply orb_false_elim in Hamp as [Hamp Hamp'].
    apply orb_false_elim in Hlt as [Hlt Hlt'].
    apply orb_false_elim in Hgt as [Hgt Hgt'].
    apply orb_false_elim in Hnb as [Hnb Hnb'].
    rewrite escape_cons.
    rewrite (Ascii.eqb_sym c "&"), Hamp, (Ascii.eqb_sym c "<"), Hlt,
      (Ascii.eqb_sym c ">"), Hgt, (Ascii.eqb_sym c (ascii_of_nat 194)), Hnb.
    rewrite IH by (assumption || lia). reflexivity.
Qed.

End EscapeMore.

(** X2.  Whatever value is escaped, the result has neither [<] nor [>]:
    escaped text can open or close no tag. *)
Theorem escapeHtml_no_angle_brackets (text : JValue) :
  Str.mem "<" (Params.escapeHtml text) = false /\
  Str.mem ">" (Params.escapeHtml text) = false.
Proof.
  unfold Params.escapeHtml.
  destruct text; try (split; reflexivity);
    (split; [apply escape_no_lt | apply (escape_no_gt_bounded _ _ (Nat.le_refl _))]).
Qed.

(** X3.  Escaping leaves both kinds of quote in place: a text has a
    single (double) quote after escaping exactly when it had one before,
    so the escaped key inside the quoted [onclick] argument of a row is
    not protected against a quote in the key. *)
Theorem escape_keeps_quotes (s : string) :
  Str.mem "'" (Params.escape s) = Str.mem "'" s /\
  Str.mem (ascii_of_nat 34) (Params.escape s) = Str.mem (ascii_of_nat 34) s.
Proof.
  split; apply (escape_mem_bounded _ (String.length s));
    try reflexivity; try discriminate; apply Nat.le_refl.
Qed.

(** X4.  A text without [&], [<], [>] and without the lead byte of a
    no-break space is inserted as it is. *)
Theorem escape_plain_text_unchanged (s : string) :
  Str.mem "&" s = false -> Str.mem "<" s = false -> Str.mem ">" s = false ->
  Str.mem (ascii_of_nat 194) s = false ->
  Params.escapeHtml (JStr s) = s.
Proof.
  intros. apply (escape_plain_bounded (String.length s)); auto.
Qed.

Lemma escape_plain_text_unchanged_witness :
  Params.escapeHtml (JStr "report (final).pdf") = "report (final).pdf".
Proof.
  exact (escape_plain_text_unchanged "report (final).pdf"
           eq_refl eq_refl eq_refl eq_refl).
Defined.

(** ** The parameter panel *)

Section Panel.
Import Display.

Lemma toString_empty (params : URLSearchParams.t) :
  String.eqb (URLSearchParams.toString params) EmptyString = true <-> params = [].
Proof.
  split.
  - destruct params as [|[n v] rest]; [reflexivity|]. intros Heq. exfalso.
    assert (Hhead : exists tail,
               URLSearchParams.toString ((n, v) :: rest) =
               URLSearchParams.encode n +:+ String "=" tail).
    { destruct rest as [|p rest]; cbn [URLSearchParams.toString];
        unfold URLSearchParams.pair_text.
      - eexists. reflexivity.
      - eexists. rewrite str_app_assoc. reflexivity. }
    destruct Hhead as [tail Htail]. rewrite Htail in Heq.
    destruct (URLSearchParams.encode n); discriminate.
  - intros ->. reflexivity.
Qed.

Lemma rows_app (entries : list (string * string)) (acc : string) :
  rows entries acc = acc +:+ rows entries EmptyString.
Proof.
  revert acc. induction entries as [|[key value] rest IH]; intros acc.
  - simpl. rewrite str_app_empty_r. reflexivity.
  - simpl. rewrite (IH (acc +:+ _)), (IH (EmptyString +:+ _)).
    rewrite str_app_empty_l, str_app_assoc. reflexivity.
Qed.

Lemma row_starts_with_line_feed (key value : string) :
  exists rest, Params.createParameterItem key value = String (ascii_of_nat 10) rest.
Proof. unfold Params.createParameterItem. eexists. reflexivity. Qed.

Lemma rows_no_script (entries : list (string * string)) (acc : string) :
  Str.includes acc "<script>" = false ->
  Str.includes (rows entries acc) "<script>" = false.
Proof.
  revert acc. induction entries as [|[key value] rest IH]; intros acc Hacc; [exact Hacc|].
  simpl. apply IH.
  pose proof (createParameterItem_no_script key value) as Hrow.
  destruct (row_starts_with_line_feed key value) as [tail Htail].
  rewrite Htail in *. rewrite includes_cons in Hrow.
  apply orb_false_elim in Hrow as [_ Htl].
  rewrite includes_fresh by (reflexivity || discriminate).
  rewrite Hacc, Htl. reflexivity.
Qed.

End Panel.

(** X5.  With its three nodes in place, [displayParameters] shows the
    page address and the time stamp and replaces the container
    wholesale, whatever it held: by the notice exactly when the query has
    no pairs, by the rows otherwise; the new content never holds a
    [<script>], and nothing else of the page changes. *)
Theorem displayParameters_renders (now old_rows old_url old_stamp : string) (w : World) :
  let panel := {| Display.parameters_container := Some old_rows;
                  Display.current_url := Some old_url;
                  Display.timestamp := Some old_stamp |} in
  exists html,
    Display.displayParameters now panel w =
      (Normal {| Display.parameters_container := Some html;
                 Display.current_url := Some (location_href w);
                 Display.timestamp := Some ("Last updated: " +:+ now) |}, w) /\
    Str.includes html "<script>" = false /\
    (html = Display.no_parameters <-> URLSearchParams.new (location_search w) = []) /\
    (URLSearchParams.new (location_search w) <> [] ->
     html = Display.rows (URLSearchParams.new (location_search w)) EmptyString).
Proof.
  intros panel. unfold Display.displayParameters, mbind, Run_bind, gets, panel.
  cbn [Display.parameters_container Display.current_url Display.timestamp].
  destruct (String.eqb (URLSearchParams.toString (URLSearchParams.new (location_search w)))
                       EmptyString) eqn:Hempty.
  - apply toString_empty in Hempty.
    exists Display.no_parameters. rewrite Hempty.
    repeat split; try reflexivity. congruence.
  - assert (Hne : URLSearchParams.new (location_search w) <> []).
    { intros Hnil. apply toString_empty in Hnil. congruence. }
    exists (Display.rows (URLSearchParams.new (location_search w)) EmptyString).
    split; [reflexivity|]. split; [apply rows_no_script; reflexivity|].
    split; [|reflexivity].
    split; [|intros Hnil; contradiction].
    intros Heq. exfalso. unfold URLSearchParams.entries in Heq.
    destruct (URLSearchParams.new (location_search w)) as [|[key value] rest];
      [congruence|].
    simpl in Heq. rewrite rows_app, str_app_empty_l in Heq.
    destruct (row_starts_with_line_feed key value) as [tail Htail].
    rewrite Htail in Heq. discriminate Heq.
Qed.

(** X6.  When one of the three nodes is missing, [displayParameters]
    writes nothing to the others: the panel is as before, and the only
    change is the error line on the console. *)
Theorem displayParameters_missing_node (now : string) (panel : Display.Panel) (w : World) :
  Display.parameters_container panel = None \/ Display.current_url panel = None \/
  Display.timestamp panel = None ->
  Display.displayParameters now panel w =
    (Normal panel,
     set_console (console w ++ [{| level := "error";
                                   args := [LText "Required DOM elements not found"] |}]) w).
Proof.
  intros Hmissing. unfold Display.displayParameters, mbind, Run_bind, gets.
  destruct panel as [[c|] [u|] [t|]]; cbn in *;
    try reflexivity; destruct Hmissing as [H | [H | H]]; discriminate.
Qed.

Lemma displayParameters_missing_node_witness :
  let panel := {| Display.parameters_container := Some "rows";
                  Display.current_url := Some "address";
                  Display.timestamp := None |} in
  let w := page "?a=1" offline EmptyString in
  Display.displayParameters "today" panel w =
    (Normal panel,
     set_console (console w ++ [{| level := "error";
                                   args := [LText "Required DOM elements not found"] |}]) w).
Proof.
  apply (displayParameters_missing_node "today"
           {| Display.parameters_container := Some "rows";
              Display.current_url := Some "address";
              Display.timestamp := None |}
           (page "?a=1" offline EmptyString)).
  right. right. reflexivity.
Defined.

Section Logging.
Import Display.

Lemma log_entries_console (entries : list (string * string)) (w : World) :
  log_entries entries w =
    (Normal tt,
     set_console
       (console w ++
        map (fun kv => {| level := "log"; args := [LText (fst kv +:+ ": " +:+ snd kv)] |})
            entries) w).
Proof.
  revert w. induction entries as [|[key value] rest IH]; intros w.
  - simpl. rewrite app_nil_r. destruct w; reflexivity.
  - cbn [log_entries]. unfold mbind, Run_bind, console_log, modify. rewrite IH.
    cbn. rewrite <- app_assoc. reflexivity.
Qed.

End Logging.

(** X7.  [logParameters] writes every pair of the query to the console
    as [key: value], values in clear (credentials included), and changes
    nothing but the console. *)
Theorem logParameters_logs_every_pair (w : World) (key value : string) :
  In (key, value) (URLSearchParams.new (location_search w)) ->
  In {| level := "log"; args := [LText (key +:+ ": " +:+ value)] |}
     (console (snd (Display.logParameters w))) /\
  set_console (console w) (snd (Display.logParameters w)) = w.
Proof.
  intros Hin. unfold Display.logParameters, mbind, Run_bind, gets, console_log, modify.
  cbn [location_search set_console].
  destruct (String.eqb (URLSearchParams.toString (URLSearchParams.new (location_search w)))
                       EmptyString) eqn:Hempty.
  - apply toString_empty in Hempty. rewrite Hempty in Hin. destruct Hin.
  - rewrite log_entries_console. cbn. split.
    + apply in_or_app. right. unfold URLSearchParams.entries.
      apply in_map_iff. exists (key, value). split; [reflexivity | exact Hin].
    + destruct w; reflexivity.
Qed.

Lemma logParameters_logs_every_pair_witness :
  let w := page "?client_id=abc&client_secret=xyz" offline EmptyString in
  In {| level := "log"; args := [LText "client_secret: xyz"] |}
     (console (snd (Display.logParameters w))) /\
  set_console (console w) (snd (Display.logParameters w)) = w.
Proof.
  apply (logParameters_logs_every_pair
           (page "?client_id=abc&client_secret=xyz" offline EmptyString)
           "client_secret" "xyz").
  right. left. reflexivity.
Defined.

(** ** The clipboard, continued *)

Section Clipboard.

(** The promise chain for any label and text. *)
Lemma write_then_feedback_any (label text : string) (w : World) :
  Params.write_then_feedback label text w =
  match clipboard_rejects w text, event_target w with
  | None, Some target => (Normal tt, copied text target w)
  | None, None =>
      (Normal tt,
       set_alerts (alerts w ++ ["Failed to copy to clipboard"])
         (set_console
            (console w ++
             [{| level := "error";
                 args := [LText label;
                          LError (TypeError
                                    "Cannot read properties of undefined (reading 'target')")] |}])
            (set_clipboard (clipboard w ++ [text]) w)))
  | Some err, _ =>
      (Normal tt,
       set_alerts (alerts w ++ ["Failed to copy to clipboard"])
         (set_console
            (console w ++ [{| level := "error"; args := [LText label; LError err] |}]) w))
  end.
Proof.
  unfold Params.write_then_feedback, try_catch, mbind, Run_bind, Params.writeText,
    Params.event_dot_target.
  destruct (clipboard_rejects w text) as [err|]; [reflexivity|].
  simpl. destruct (event_target w) as [target|]; reflexivity.
Qed.

Lemma prefix_self_app (p s : string) : String.prefix p (p +:+ s) = true.
Proof.
  induction p as [|c p IH].
  - rewrite str_app_empty_l. destruct s; reflexivity.
  - rewrite str_app_cons, prefix_cons, Ascii.eqb_refl. exact IH.
Qed.

Lemma drop_length_app (p s : string) : Str.drop (String.length p) (p +:+ s) = s.
Proof. induction p as [|c p IH]; [reflexivity|]. rewrite str_app_cons. exact IH. Qed.

End Clipboard.

(** X8.  The synthetic key of a file row copies the file identifier: for
    every identifier, [copyToClipboard('file-id-' + id)] puts exactly
    [id] on the clipboard and shows the confirmation, whatever the query
    holds and even when [id] itself contains [file-id-]. *)
Theorem copy_file_id_key (w : World) (id : string) (target : Element) :
  clipboard_rejects w id = None ->
  event_target w = Some target ->
  AuthCode.copyToClipboard ("file-id-" +:+ id) w = (Normal tt, copied id target w).
Proof.
  intros Haccept Htarget. unfold AuthCode.copyToClipboard, Str.startsWith, Str.replace.
  change (String.eqb ("file-id-" +:+ id) "current-url") with false.
  rewrite prefix_self_app.
  destruct ("file-id-" +:+ id) as [|c s] eqn:Hkey; [discriminate|].
  rewrite <- Hkey.
  replace (String.prefix "file-id-" ("file-id-" +:+ id)) with true
    by (symmetry; apply prefix_self_app).
  rewrite (drop_length_app "file-id-" id), str_app_empty_l.
  unfold mbind, Run_bind, mret, Run_ret.
  rewrite write_then_feedback_any, Haccept, Htarget. reflexivity.
Qed.

Lemma copy_file_id_key_witness :
  AuthCode.copyToClipboard "file-id-file-id-7" (page "?a=1" offline EmptyString) =
    (Normal tt, copied "file-id-7" copy_button (page "?a=1" offline EmptyString)).
Proof.
  exact (copy_file_id_key (page "?a=1" offline EmptyString) "file-id-7" copy_button
           eq_refl eq_refl).
Defined.






(** ** Token acquisition, continued *)

Section TokenMore.
Import Metadata.

Lemma page_of_eq (w w' : World) :
  location_search w' = location_search w -> location_href w' = location_href w ->
  upstream w' = upstream w -> clipboard_rejects w' = clipboard_rejects w ->
  clipboard w' = clipboard w -> event_target w' = event_target w ->
  timers w' = timers w -> alerts w' = alerts w -> button w' = button w ->
  container w' = container w ->
  page_of w' = page_of w.
Proof.
  destruct w, w'. cbn. intros. subst. reflexivity.
Qed.


Lemma first_attempt_continues (w : World) (clientId clientSecret : string) :
  failed (upstream w (requests w) (plain_request clientId clientSecret)) ->
  exists w1,
    attempt (authMethods clientId clientSecret) 0 w = (Normal Continue, w1) /\
    requests w1 = requests w ++ [plain_request clientId clientSecret] /\
    upstream w1 = upstream w.
Proof.
  intros Hfailed.
  unfold attempt, try_catch, mbind, Run_bind, fetch, console_log, modify, json.
  cbn [nth authMethods length Nat.sub Nat.eqb upstream requests set_console].
  change (token_request _) with (plain_request clientId clientSecret).
  destruct (upstream w (requests w) (plain_request clientId clientSecret)) as [r | e].
  - destruct Hfailed as [Hok | [e He]].
    + rewrite Hok. destruct (body r); cbn; eexists; repeat split.
    + rewrite He. destruct (ok r); cbn; eexists; repeat split.
  - cbn. eexists. repeat split.
Qed.

End TokenMore.

(** X13.  Whatever goes wrong with the first attempt (the request is
    rejected, the status is not a success, or the body is not JSON),
    [getAccessToken] goes on to the enterprise request and the outcome is
    the one of that second attempt: its parsed body on success, its
    rejection when the request itself fails. *)
Theorem last_attempt_decides (w : World) (clientId clientSecret : string) :
  failed (upstream w (requests w) (plain_request clientId clientSecret)) ->
  let second := upstream w (requests w ++ [plain_request clientId clientSecret])
                         (enterprise_request clientId clientSecret) in
  (forall err, second = Rejected err ->
               fst (Metadata.getAccessToken clientId clientSecret w) = Throw err) /\
  (forall r2 tokenData,
     second = Fulfilled r2 -> ok r2 = true -> body r2 = Json tokenData ->
     fst (Metadata.getAccessToken clientId clientSecret w) = Normal tokenData).
Proof.
  intros Hfailed second.
  destruct (first_attempt_continues w clientId clientSecret Hfailed)
    as (w1 & Hrun1 & Hreq1 & Hnet1).
  unfold second. rewrite <- Hreq1, <- Hnet1.
  unfold Metadata.getAccessToken.
  cbn [length Metadata.authMethods Metadata.attempts]. unfold mbind, Run_bind.
  rewrite Hrun1. split.
  - intros err Hsecond.
    unfold Metadata.attempt, try_catch, mbind, Run_bind, fetch, console_log, modify.
    cbn [nth Metadata.authMethods length Nat.sub Nat.eqb upstream requests set_console].
    change (Metadata.token_request _) with (enterprise_request clientId clientSecret).
    rewrite Hsecond. reflexivity.
  - intros r2 tokenData Hsecond Hok Hbody.
    destruct (second_attempt_succeeds w1 clientId clientSecret r2 tokenData
                Hsecond Hok Hbody) as (w2 & Hrun2 & _).
    rewrite Hrun2. reflexivity.
Qed.

Lemma last_attempt_decides_witness :
  let w := page EmptyString
                (scripted [Rejected (TypeError "Failed to fetch");
                           Fulfilled {| status := 200;
                                        body := Json (JObj [("access_token", JStr "tok")]) |}])
                EmptyString in
  fst (Metadata.getAccessToken "abc" "xyz" w) = Normal (JObj [("access_token", JStr "tok")]).
Proof.
  exact (proj2 (last_attempt_decides
                  (page EmptyString
                        (scripted [Rejected (TypeError "Failed to fetch");
                                   Fulfilled {| status := 200;
                                                body := Json (JObj [("access_token",
                                                                     JStr "tok")]) |}])
                        EmptyString)
                  "abc" "xyz" I)
               _ _ eq_refl eq_refl eq_refl).
Defined.


(** X15.  Without an [auth_code] parameter the authorization-code
    [getAccessToken] throws at once and contacts nothing; with one, it
    sends exactly one request, which carries the code as it stands in the
    query. *)
Theorem authorization_code_required (w : World) (clientId clientSecret : string) :
  (missing (Params.getParameter w "auth_code") = true ->
   AuthCode.getAccessToken clientId clientSecret w =
     (Throw (Error "Authorization code is required. Please ensure the auth_code parameter is present in the URL."),
      w)) /\
  (forall authCode,
     Params.getParameter w "auth_code" = Some authCode -> authCode <> EmptyString ->
     requests (snd (AuthCode.getAccessToken clientId clientSecret w)) =
       requests w ++ [AuthCode.token_request authCode clientId clientSecret]).
Proof.
  split.
  - intros Hmissing. unfold AuthCode.getAccessToken, mbind, Run_bind, gets.
    rewrite Hmissing. reflexivity.
  - intros authCode Hcode Hne. unfold AuthCode.getAccessToken, mbind, Run_bind, gets.
    rewrite Hcode. cbn [missing text_of].
    apply String.eqb_neq in Hne. rewrite Hne.
    unfold fetch, json.
    destruct (upstream w (requests w) _) as [r | e]; [|reflexivity].
    destruct (ok r), (body r) as [v | e]; cbn [negb mret Run_ret throw snd requests];
      try reflexivity.
    unfold lift. destruct (Js.prop v "error_description") as [e1 | d];
      cbn [mret Run_ret throw snd mbind Run_bind]; [reflexivity|].
    destruct (Js.truthy d); cbn [mret Run_ret throw snd mbind Run_bind]; [reflexivity|].
    destruct (Js.prop v "error"); reflexivity.
Qed.

Lemma authorization_code_required_witness :
  let w := page "?client_id=abc&client_secret=xyz" offline EmptyString in
  AuthCode.getAccessToken "abc" "xyz" w =
    (Throw (Error "Authorization code is required. Please ensure the auth_code parameter is present in the URL."),
     w).
Proof.
  exact (proj1 (authorization_code_required
                  (page "?client_id=abc&client_secret=xyz" offline EmptyString)
                  "abc" "xyz") eq_refl).
Defined.

Lemma first_success_short_circuits_witness :
  let w := scenario EmptyString in
  fst (Metadata.getAccessToken "abc" "xyz" w) = Normal (JObj [("access_token", JStr "tok")]) /\
  requests (snd (Metadata.getAccessToken "abc" "xyz" w)) =
    requests w ++ [plain_request "abc" "xyz"].
Proof.
  exact (first_success_short_circuits (scenario EmptyString) "abc" "xyz" _ _
           eq_refl eq_refl eq_refl).
Defined.

Lemma last_body_not_json_witness :
  let w := page EmptyString
                (scripted
                   [Fulfilled {| status := 502;
                                 body := NotJson (mkError "SyntaxError" "Unexpected token <") |};
                    Fulfilled {| status := 502;
                                 body := NotJson (mkError "SyntaxError" "Unexpected token <") |}])
                EmptyString in
  fst (Metadata.getAccessToken "abc" "xyz" w) =
    Throw (mkError "SyntaxError" "Unexpected token <").
Proof.
  exact (last_body_not_json
           (page EmptyString
                 (scripted
                    [Fulfilled {| status := 502;
                                  body := NotJson (mkError "SyntaxError" "Unexpected token <") |};
                     Fulfilled {| status := 502;
                                  body := NotJson (mkError "SyntaxError" "Unexpected token <") |}])
                 EmptyString)
           "abc" "xyz" _ _ _ eq_refl eq_refl eq_refl eq_refl).
Defined.

(** ** The fetch action, end to end *)

Section FetchPaths.
Context `{Host}.

Lemma page_of_fields (a b : World) :
  page_of a = page_of b ->
  upstream a = upstream b /\ button a = button b /\ container a = container b /\
  alerts a = alerts b /\ timers a = timers b /\ clipboard a = clipboard b /\
  location_search a = location_search b.
Proof.
  intros Heq.
  pose proof (f_equal upstream Heq). pose proof (f_equal button Heq).
  pose proof (f_equal container Heq). pose proof (f_equal alerts Heq).
  pose proof (f_equal timers Heq). pose proof (f_equal clipboard Heq).
  pose proof (f_equal location_search Heq).
  cbn in *. repeat split; assumption.
Qed.

(** The rows are built without touching the page. *)
Lemma forEach_field_pure (metadata : JValue) (fields : list (string * string))
      (acc : string) (w w0 : World) :
  Metadata.forEach_field metadata fields acc w =
    (fst (Metadata.forEach_field metadata fields acc w0), w).
Proof.
  revert acc. induction fields as [|[key label] fields IH]; intros acc; [reflexivity|].
  cbn [Metadata.forEach_field]. unfold mbind, Run_bind, lift.
  destruct (Js.prop metadata key) as [e | value]; [reflexivity|].
  cbn [mret Run_ret]. destruct value; apply IH.
Qed.

(** On an object every field can be read, so the rows are always
    built. *)
Lemma forEach_field_object (members : list (string * JValue))
      (fields : list (string * string)) (acc : string) (w : World) :
  exists html, Metadata.forEach_field (JObj members) fields acc w = (Normal html, w).
Proof.
  revert acc. induction fields as [|[key label] fields IH]; intros acc.
  - exists acc. reflexivity.
  - cbn [Metadata.forEach_field]. unfold mbind, Run_bind, lift. cbn [Js.prop mret Run_ret].
    destruct (Js.lookup key members); apply IH.
Qed.

Lemma displayFileMetadata_object (members : list (string * JValue)) :
  exists html,
    Str.includes html "<script>" = false /\
    forall w, Metadata.displayFileMetadata (JObj members) w =
              (Normal tt, set_container html w).
Proof.
  destruct (forEach_field_object members Metadata.metadataFields EmptyString
              (page EmptyString offline EmptyString)) as [html Hhtml].
  exists (if String.eqb html EmptyString
          then "<div class=" +:+ Str.q "loading" +:+
               ">No metadata available for this file.</div>"
          else html).
  split.
  - destruct (String.eqb html EmptyString); [reflexivity|].
    apply (forEach_field_no_script (JObj members) Metadata.metadataFields EmptyString html
             _ _ ltac:(unfold Metadata.metadataFields; repeat constructor) eq_refl Hhtml).
  - intros w. unfold Metadata.displayFileMetadata, mbind, Run_bind.
    rewrite (forEach_field_pure _ _ _ w (page EmptyString offline EmptyString)), Hhtml.
    reflexivity.
Qed.

Lemma getFileMetadata_success (w : World) (fileId : string) (accessToken : JValue)
      (r : Response) (v : JValue) :
  upstream w (requests w) (Metadata.file_request fileId accessToken) = Fulfilled r ->
  ok r = true ->
  body r = Json v ->
  Metadata.getFileMetadata fileId accessToken w =
    (Normal v, set_requests (requests w ++ [Metadata.file_request fileId accessToken]) w).
Proof.
  intros Hup Hok Hbody.
  unfold Metadata.getFileMetadata, mbind, Run_bind, fetch, json.
  rewrite Hup, Hok, Hbody. reflexivity.
Qed.

(** [getFileMetadata] sends its one request and touches nothing else. *)
Lemma getFileMetadata_requests (w : World) (fileId : string) (accessToken : JValue) :
  requests (snd (Metadata.getFileMetadata fileId accessToken w)) =
    requests w ++ [Metadata.file_request fileId accessToken] /\
  page_of (snd (Metadata.getFileMetadata fileId accessToken w)) = page_of w.
Proof.
  unfold Metadata.getFileMetadata, mbind, Run_bind, fetch, json, lift, throw, mret, Run_ret.
  repeat match goal with
         | |- context [match ?x with _ => _ end] =>
             lazymatch x with
             | context [match _ with _ => _ end] => fail
             | _ => destruct x; cbv beta iota
             end
         end;
    cbn [fst snd requests set_requests set_console]; split; reflexivity.
Qed.

Lemma first_success_world (w : World) (clientId clientSecret : string)
      (r1 : Response) (tokenData : JValue) :
  upstream w (requests w) (plain_request clientId clientSecret) = Fulfilled r1 ->
  ok r1 = true ->
  body r1 = Json tokenData ->
  exists w1,
    Metadata.getAccessToken clientId clientSecret w = (Normal tokenData, w1) /\
    requests w1 = requests w ++ [plain_request clientId clientSecret] /\
    page_of w1 = page_of w.
Proof.
  intros Hup Hok Hbody. unfold plain_request in *.
  unfold Metadata.getAccessToken. cbn [length Metadata.authMethods Metadata.attempts].
  unfold Metadata.attempt, try_catch, mbind, Run_bind, fetch, console_log, modify, json.
  cbn [nth Metadata.authMethods length Nat.sub Nat.eqb upstream requests set_console].
  rewrite Hup, Hok, Hbody. cbn. eexists. repeat split.
Qed.

End FetchPaths.

(** The fetch action of the client-credentials revision, entered with
    all three parameters present: the loading state is shown and the
    token is asked for. *)
Ltac enter_fetch Hfile Hfile' Hid Hid' Hsecret Hsecret' :=
  unfold Metadata.fetchFileMetadata;
  cbv beta iota delta [mbind Run_bind gets];
  rewrite Hfile, Hid, Hsecret; cbn [missing text_of];
  rewrite (proj2 (String.eqb_neq _ _) Hfile'), (proj2 (String.eqb_neq _ _) Hid'),
    (proj2 (String.eqb_neq _ _) Hsecret');
  cbv beta iota delta [orb modify try_finally try_catch].

(** X16.  With the three parameters present, a token on the first
    attempt and the file resource answered with a JSON object, the fetch
    action sends exactly two requests, the second one bearing the token
    just received, shows the list rendered from that object (which never
    holds a raw [<script>]), raises no alert and leaves the control
    idle. *)
Theorem fetch_renders_resource `{Host} (w : World) (fileId clientId clientSecret : string)
        (r1 r2 : Response) (tokenData members : list (string * JValue)) :
  Params.getParameter w "file_id" = Some fileId -> fileId <> EmptyString ->
  Params.getParameter w "client_id" = Some clientId -> clientId <> EmptyString ->
  Params.getParameter w "client_secret" = Some clientSecret -> clientSecret <> EmptyString ->
  upstream w (requests w) (plain_request clientId clientSecret) = Fulfilled r1 ->
  ok r1 = true ->
  body r1 = Json (JObj tokenData) ->
  Js.truthy (Js.lookup "access_token" tokenData) = true ->
  upstream w (requests w ++ [plain_request clientId clientSecret])
           (Metadata.file_request fileId (Js.lookup "access_token" tokenData)) = Fulfilled r2 ->
  ok r2 = true ->
  body r2 = Json (JObj members) ->
  let w' := snd (Metadata.fetchFileMetadata w) in
  fst (Metadata.fetchFileMetadata w) = Normal tt /\
  requests w' = requests w ++
                [plain_request clientId clientSecret;
                 Metadata.file_request fileId (Js.lookup "access_token" tokenData)] /\
  container w' = container (snd (Metadata.displayFileMetadata (JObj members) w)) /\
  Str.includes (container w') "<script>" = false /\
  alerts w' = alerts w /\
  idle Metadata.idle_label w'.
Proof.
  intros Hfile Hfile' Hid Hid' Hsecret Hsecret' Hup1 Hok1 Hbody1 Htoken Hup2 Hok2 Hbody2 w'.
  subst w'. enter_fetch Hfile Hfile' Hid Hid' Hsecret Hsecret'.
  match goal with
  | |- context [Metadata.getAccessToken clientId clientSecret ?W] => set (w0 := W)
  end.
  destruct (first_success_world w0 clientId clientSecret r1 (JObj tokenData) Hup1 Hok1 Hbody1)
    as (w1 & Hrun & Hreq1 & Hpage).
  apply page_of_fields in Hpage as (Hnet & Hbutton & Hcontainer & Halerts & _).
  rewrite Hrun. cbn [lift Js.prop mret Run_ret]. cbv beta iota. rewrite Htoken.
  cbn [negb]. unfold console_log, modify. cbv beta iota.
  rewrite (getFileMetadata_success _ fileId _ r2 (JObj members))
    by (try assumption; cbn [upstream requests set_console]; rewrite Hnet, Hreq1; exact Hup2).
  destruct (displayFileMetadata_object members) as (html & Hsafe & Hshow).
  rewrite !Hshow. cbn.
  repeat split; try assumption.
  - rewrite Hreq1, <- app_assoc. reflexivity.
Qed.

Lemma fetch_renders_resource_witness :
  let w := scenario EmptyString in
  let w' := snd (@Metadata.fetchFileMetadata exact_host w) in
  requests w' = requests w ++
                [plain_request "abc" "xyz"; Metadata.file_request "42" (JStr "tok")] /\
  Str.includes (container w') "<script>" = false /\
  idle Metadata.idle_label w'.
Proof.
  pose proof (@fetch_renders_resource exact_host (scenario EmptyString) "42" "abc" "xyz"
                {| status := 200; body := Json (JObj [("access_token", JStr "tok")]) |}
                {| status := 200;
                   body := Json (JObj [("id", JStr "42"); ("name", JStr "report.pdf");
                                       ("size", JNum 2048)]) |}
                [("access_token", JStr "tok")]
                [("id", JStr "42"); ("name", JStr "report.pdf"); ("size", JNum 2048)]
                eq_refl ltac:(discriminate) eq_refl ltac:(discriminate)
                eq_refl ltac:(discriminate) eq_refl eq_refl eq_refl eq_refl
                eq_refl eq_refl eq_refl)
    as (_ & Hrequests & _ & Hsafe & _ & Hidle).
  repeat split; assumption.
Defined.

(** X17.  When the token endpoint answers with a success status and an
    object that holds no usable [access_token], the file resource is
    never asked for: the only request is the first token request, the
    container shows the error built from [error_description] (or the
    literal [Unknown error]), and the control is idle again. *)
Theorem fetch_without_access_token `{Host} (w : World)
        (fileId clientId clientSecret : string)
        (r1 : Response) (tokenData : list (string * JValue)) :
  Params.getParameter w "file_id" = Some fileId -> fileId <> EmptyString ->
  Params.getParameter w "client_id" = Some clientId -> clientId <> EmptyString ->
  Params.getParameter w "client_secret" = Some clientSecret -> clientSecret <> EmptyString ->
  upstream w (requests w) (plain_request clientId clientSecret) = Fulfilled r1 ->
  ok r1 = true ->
  body r1 = Json (JObj tokenData) ->
  Js.truthy (Js.lookup "access_token" tokenData) = false ->
  let w' := snd (Metadata.fetchFileMetadata w) in
  fst (Metadata.fetchFileMetadata w) = Normal tt /\
  requests w' = requests w ++ [plain_request clientId clientSecret] /\
  container w' =
    error_box
      (Params.escapeHtml
         (JStr ("Failed to fetch file metadata: " +:+
                Metadata.helpful
                  ("Failed to get access token: " +:+
                   Js.toString (Js.or (Js.lookup "error_description" tokenData)
                                      (JStr "Unknown error")))))) /\
  idle Metadata.idle_label w'.
Proof.
  intros Hfile Hfile' Hid Hid' Hsecret Hsecret' Hup1 Hok1 Hbody1 Htoken w'.
  subst w'. enter_fetch Hfile Hfile' Hid Hid' Hsecret Hsecret'.
  match goal with
  | |- context [Metadata.getAccessToken clientId clientSecret ?W] => set (w0 := W)
  end.
  destruct (first_success_world w0 clientId clientSecret r1 (JObj tokenData) Hup1 Hok1 Hbody1)
    as (w1 & Hrun & Hreq1 & Hpage).
  rewrite Hrun. cbn [lift Js.prop mret Run_ret]. cbv beta iota. rewrite Htoken.
  cbn [negb]. cbv beta iota.
  unfold throw, console_error, Metadata.showMetadataError, modify. cbv beta iota.
  cbn [fst snd requests container button set_container set_button set_console message
       Error].
  repeat split; assumption.
Qed.

Lemma fetch_without_access_token_witness :
  let w := page "?file_id=42&client_id=abc&client_secret=xyz"
                (scripted [Fulfilled {| status := 200;
                                        body := Json (JObj [("error", JStr "unauthorized_client")]) |}])
                EmptyString in
  let w' := snd (@Metadata.fetchFileMetadata exact_host w) in
  requests w' = requests w ++ [plain_request "abc" "xyz"] /\
  container w' =
    error_box "Failed to fetch file metadata: Failed to get access token: Unknown error".
Proof.
  pose proof (@fetch_without_access_token exact_host
                (page "?file_id=42&client_id=abc&client_secret=xyz"
                      (scripted [Fulfilled {| status := 200;
                                              body := Json (JObj [("error",
                                                                   JStr "unauthorized_client")]) |}])
                      EmptyString)
                "42" "abc" "xyz"
                {| status := 200; body := Json (JObj [("error", JStr "unauthorized_client")]) |}
                [("error", JStr "unauthorized_client")]
                eq_refl ltac:(discriminate) eq_refl ltac:(discriminate)
                eq_refl ltac:(discriminate) eq_refl eq_refl eq_refl eq_refl)
    as (_ & Hrequests & Hcontainer & _).
  split; [exact Hrequests | exact Hcontainer].
Defined.

(** X18.  A token is granted and the file resource answers 404 with a
    JSON object.  Unless the text taken from that object itself holds
    [box_subject_id], [401] or [403], which are looked for first, the
    container shows the fixed file-not-found message, the control is idle
    again and no third request is sent. *)
Theorem fetch_file_not_found `{Host} (w : World) (fileId clientId clientSecret : string)
        (r1 r2 : Response) (tokenData members : list (string * JValue)) :
  Params.getParameter w "file_id" = Some fileId -> fileId <> EmptyString ->
  Params.getParameter w "client_id" = Some clientId -> clientId <> EmptyString ->
  Params.getParameter w "client_secret" = Some clientSecret -> clientSecret <> EmptyString ->
  upstream w (requests w) (plain_request clientId clientSecret) = Fulfilled r1 ->
  ok r1 = true ->
  body r1 = Json (JObj tokenData) ->
  Js.truthy (Js.lookup "access_token" tokenData) = true ->
  upstream w (requests w ++ [plain_request clientId clientSecret])
           (Metadata.file_request fileId (Js.lookup "access_token" tokenData)) = Fulfilled r2 ->
  status r2 = 404 ->
  body r2 = Json (JObj members) ->
  let text := Js.toString (Js.or (Js.lookup "message" members) (Js.lookup "error" members)) in
  Str.includes text "box_subject_id" = false ->
  Str.includes text "401" = false ->
  Str.includes text "403" = false ->
  let w' := snd (Metadata.fetchFileMetadata w) in
  fst (Metadata.fetchFileMetadata w) = Normal tt /\
  requests w' = requests w ++
                [plain_request clientId clientSecret;
                 Metadata.file_request fileId (Js.lookup "access_token" tokenData)] /\
  container w' =
    error_box "Failed to fetch file metadata: File not found: The specified file_id does not exist or is not accessible." /\
  idle Metadata.idle_label w'.
Proof.
  intros Hfile Hfile' Hid Hid' Hsecret Hsecret' Hup1 Hok1 Hbody1 Htoken Hup2 Hstatus Hbody2
         text Hsubject H401 H403 w'.
  subst w'. enter_fetch Hfile Hfile' Hid Hid' Hsecret Hsecret'.
  match goal with
  | |- context [Metadata.getAccessToken clientId clientSecret ?W] => set (w0 := W)
  end.
  destruct (first_success_world w0 clientId clientSecret r1 (JObj tokenData) Hup1 Hok1 Hbody1)
    as (w1 & Hrun & Hreq1 & Hpage).
  apply page_of_fields in Hpage as (Hnet & Hbutton & Hcontainer & Halerts & _).
  rewrite Hrun. cbn [lift Js.prop mret Run_ret]. cbv beta iota. rewrite Htoken.
  cbn [negb]. unfold console_log, modify. cbv beta iota.
  assert (Hok2 : ok r2 = false) by (unfold ok; rewrite Hstatus; reflexivity).
  match goal with
  | |- context [Metadata.getFileMetadata fileId ?t ?W] =>
      pose proof (getFileMetadata_failure W fileId t r2 members) as Hthrown;
      pose proof (getFileMetadata_requests W fileId t) as Hsent;
      destruct (Metadata.getFileMetadata fileId t W) as [c2 w2]
  end.
  cbn [fst snd upstream requests set_console] in Hthrown, Hsent.
  rewrite Hnet, Hreq1 in Hthrown. specialize (Hthrown Hup2 Hok2 Hbody2).
  destruct Hsent as (Hreq2 & Hpage2).
  apply page_of_fields in Hpage2 as (_ & Hbutton2 & _).
  subst c2. rewrite Hstatus.
  unfold console_error, Metadata.showMetadataError, modify. cbv beta iota.
  cbn [fst snd requests container button set_container set_button set_console message
       Error].
  assert (Hhelpful :
            Metadata.helpful
              ("File metadata request failed: " +:+ Str.of_Z 404 +:+ " - " +:+ text) =
            "File not found: The specified file_id does not exist or is not accessible.").
  { change ("File metadata request failed: " +:+ Str.of_Z 404 +:+ " - " +:+ text)
      with ("File metadata request failed: 404 - " +:+ text).
    unfold Metadata.helpful.
    rewrite !includes_lit by (reflexivity || discriminate).
    rewrite Hsubject, H401, H403. reflexivity. }
  fold text. rewrite Hhelpful.
  repeat split.
  - rewrite Hreq2. cbn [requests set_console]. rewrite Hreq1, <- app_assoc. reflexivity.
Qed.

Lemma fetch_file_not_found_witness :
  let w := page "?file_id=42&client_id=abc&client_secret=xyz"
                (scripted [Fulfilled {| status := 200;
                                        body := Json (JObj [("access_token", JStr "tok")]) |};
                           Fulfilled {| status := 404;
                                        body := Json (JObj [("message", JStr "Not Found")]) |}])
                EmptyString in
  container (snd (@Metadata.fetchFileMetadata exact_host w)) =
    error_box "Failed to fetch file metadata: File not found: The specified file_id does not exist or is not accessible.".
Proof.
  pose proof (@fetch_file_not_found exact_host
                (page "?file_id=42&client_id=abc&client_secret=xyz"
                      (scripted [Fulfilled {| status := 200;
                                              body := Json (JObj [("access_token",
                                                                   JStr "tok")]) |};
                                 Fulfilled {| status := 404;
                                              body := Json (JObj [("message",
                                                                   JStr "Not Found")]) |}])
                      EmptyString)
                "42" "abc" "xyz"
                {| status := 200; body := Json (JObj [("access_token", JStr "tok")]) |}
                {| status := 404; body := Json (JObj [("message", JStr "Not Found")]) |}
                [("access_token", JStr "tok")] [("message", JStr "Not Found")]
                eq_refl ltac:(discriminate) eq_refl ltac:(discriminate)
                eq_refl ltac:(discriminate) eq_refl eq_refl eq_refl eq_refl
                eq_refl eq_refl eq_refl eq_refl eq_refl eq_refl)
    as (_ & _ & Hcontainer & _).
  exact Hcontainer.
Defined.

(** ** The list of files *)

Section FilesList.
Context `{Host}.
Variable Date_toLocaleDateString : JValue -> string.

Lemma includes_prefix (s p : string) : String.prefix p s = true -> Str.includes s p = true.
Proof. intros Hp. destruct s; cbn [Str.includes]; rewrite Hp; reflexivity. Qed.

Lemma includes_app_r (a b p : string) :
  Str.includes b p = true -> Str.includes (a +:+ b) p = true.
Proof.
  intros Hb. induction a as [|c a IH]; [rewrite str_app_empty_l; exact Hb|].
  rewrite str_app_cons, includes_cons, IH. apply orb_true_r.
Qed.

Lemma prefix_app_l (p a b : string) :
  String.prefix p a = true -> String.prefix p (a +:+ b) = true.
Proof.
  revert a. induction p as [|c p IH]; intros a Hp.
  - destruct (a +:+ b); reflexivity.
  - destruct a as [|d a]; [discriminate|].
    rewrite str_app_cons. rewrite prefix_cons in *.
    destruct (Ascii.eqb c d); [apply IH; exact Hp | discriminate].
Qed.

Lemma includes_app_l (a b p : string) :
  Str.includes a p = true -> Str.includes (a +:+ b) p = true.
Proof.
  induction a as [|c a IH]; intros Ha.
  - apply includes_prefix. apply prefix_app_l.
    cbn [Str.includes] in Ha. rewrite orb_false_r in Ha. exact Ha.
  - rewrite includes_cons in Ha. rewrite str_app_cons, includes_cons.
    apply orb_true_iff in Ha as [Hp | Hrest].
    + rewrite <- str_app_cons, (prefix_app_l _ _ _ Hp). reflexivity.
    + rewrite (IH Hrest). apply orb_true_r.
Qed.

(** A quoted attribute holds its text. *)
Lemma includes_quoted (p rest : string) : Str.includes (Str.q p +:+ rest) p = true.
Proof.
  apply includes_app_l. unfold Str.q. apply includes_app_r.
  apply includes_prefix, prefix_self_app.
Qed.

(** The row of an object is always built, and its metadata button calls
    with the identifier and the token as they are. *)
Lemma file_item_object (accessToken : JValue) (members : list (string * JValue))
      (w : World) :
  exists row,
    Listing.file_item Date_toLocaleDateString accessToken (JObj members) w =
      (Normal row, w) /\
    Str.includes row (metadata_call (Js.lookup "id" members) accessToken) = true.
Proof.
  unfold Listing.file_item, mbind, Run_bind, lift. cbn [Js.prop mret Run_ret].
  destruct (Js.lookup "owned_by" members) as [| |[]|n|s|items|ms];
    cbn [Js.truthy Js.prop negb];
    try destruct (n =? 0); try destruct (String.eqb s EmptyString);
    cbn [negb]; cbv beta iota;
    (eexists; split; [reflexivity|]; unfold metadata_call;
     repeat lazymatch goal with
            | |- Str.includes (Str.q ("boxApp.getFileMetadataForDisplay('" +:+ _) +:+ _) _ = _ =>
                apply includes_quoted
            | |- Str.includes (_ +:+ _) _ = _ => apply includes_app_r
            end).
Qed.

Lemma forEach_file_objects (accessToken : JValue) (items : list JValue) (filesHtml : string)
      (w : World) :
  Forall is_object items ->
  exists html,
    Listing.forEach_file Date_toLocaleDateString accessToken items filesHtml w =
      (Normal html, w) /\
    (forall p, Str.includes filesHtml p = true -> Str.includes html p = true) /\
    (forall members,
       In (JObj members) items ->
       Str.includes html (metadata_call (Js.lookup "id" members) accessToken) = true).
Proof.
  intros Hobjects. revert filesHtml.
  induction Hobjects as [|file items [members ->] _ IH]; intros filesHtml.
  - exists filesHtml. split; [reflexivity|]. split; [auto | intros members []].
  - cbn [Listing.forEach_file]. unfold mbind, Run_bind.
    destruct (file_item_object accessToken members w) as (row & Hrow & Hcall).
    rewrite Hrow.
    destruct (IH (filesHtml +:+ row)) as (html & Hrun & Hkeeps & Hrows).
    exists html. split; [exact Hrun|]. split.
    + intros p Hp. apply Hkeeps, includes_app_l, Hp.
    + intros members' [Heq | Hin].
      * injection Heq as <-. apply Hkeeps, includes_app_r, Hcall.
      * apply Hrows, Hin.
Qed.

End FilesList.

(** X19.  For a list of file objects that is not empty,
    [displayFilesList] replaces the container by markup in which every
    row's metadata button carries the file's identifier and the access
    token verbatim: neither is escaped, and the token is part of the
    page. *)
Theorem files_list_embeds_token `{Host} (Date_toLocaleDateString : JValue -> string)
        (items : list JValue) (accessToken : JValue) (w : World) :
  items <> [] ->
  Forall is_object items ->
  exists html,
    Listing.displayFilesList Date_toLocaleDateString (JArr items) accessToken w =
      (Normal tt, set_container html w) /\
    forall members,
      In (JObj members) items ->
      Str.includes html (metadata_call (Js.lookup "id" members) accessToken) = true.
Proof.
  intros Hsome Hobjects.
  unfold Listing.displayFilesList. cbn [Js.truthy negb orb Listing.length_is_zero].
  destruct items as [|file items]; [congruence|].
  unfold mbind, Run_bind.
  destruct (forEach_file_objects Date_toLocaleDateString accessToken (file :: items)
              (Listing.files_header (length (file :: items))) w Hobjects)
    as (html & Hrun & _ & Hrows).
  rewrite Hrun. exists html. split; [reflexivity | exact Hrows].
Qed.

Lemma files_list_embeds_token_witness :
  exists html,
    @Listing.displayFilesList exact_host Js.toString
      (JArr [JObj [("id", JStr "7"); ("name", JStr "a.txt")]]) (JStr "tok")
      (page EmptyString offline EmptyString) =
      (Normal tt, set_container html (page EmptyString offline EmptyString)) /\
    Str.includes html "boxApp.getFileMetadataForDisplay('7', 'tok')" = true.
Proof.
  destruct (@files_list_embeds_token exact_host Js.toString
              [JObj [("id", JStr "7"); ("name", JStr "a.txt")]] (JStr "tok")
              (page EmptyString offline EmptyString)
              ltac:(discriminate)
              ltac:(repeat constructor; eexists; reflexivity))
    as (html & Hrun & Hrows).
  exists html. split; [exact Hrun|].
  exact (Hrows [("id", JStr "7"); ("name", JStr "a.txt")] (or_introl eq_refl)).
Defined.

(** ** The revision that lists all files *)

Section ListingRuns.
Context `{Host}.

(** A failed exchange makes [getFileMetadata] throw, once its request is
    sent. *)
Lemma getFileMetadata_throws (w : World) (fileId : string) (accessToken : JValue) :
  failed (upstream w (requests w) (Metadata.file_request fileId accessToken)) ->
  exists e,
    Metadata.getFileMetadata fileId accessToken w =
      (Throw e, set_requests (requests w ++ [Metadata.file_request fileId accessToken]) w).
Proof.
  intros Hfailed.
  unfold Metadata.getFileMetadata, mbind, Run_bind, fetch, json, lift, throw.
  destruct (upstream w (requests w) (Metadata.file_request fileId accessToken)) as [r | e].
  - destruct Hfailed as [Hok | [e He]].
    + rewrite Hok. cbn [negb]. destruct (body r) as [v | e]; [|eexists; reflexivity].
      cbn [mret Run_ret]. destruct (Js.prop v "message") as [e | msg]; [eexists; reflexivity|].
      cbn [mret Run_ret]. destruct (Js.truthy msg); cbn [mret Run_ret];
        [eexists; reflexivity|].
      destruct (Js.prop v "error"); eexists; reflexivity.
    + rewrite He. destruct (ok r); eexists; reflexivity.
  - eexists. reflexivity.
Qed.

End ListingRuns.

(** X20.  The callback scheduled by the list-all revision never throws
    and never touches the alerts or the control.  When its exchange
    fails (rejection, non-success status, or a body that is not JSON),
    the container is left as it was: the failure goes to the console
    only. *)
Theorem delayed_metadata_fails_silently `{Host} (fileId : string) (accessToken : JValue)
        (w : World) :
  let w' := snd (Listing.delayed_metadata fileId accessToken w) in
  fst (Listing.delayed_metadata fileId accessToken w) = Normal tt /\
  (failed (upstream w (requests w) (Metadata.file_request fileId accessToken)) ->
   container w' = container w /\
   alerts w' = alerts w /\
   button w' = button w /\
   requests w' = requests w ++ [Metadata.file_request fileId accessToken] /\
   exists e,
     console w' = console w ++
                  [{| level := "error";
                      args := [LText "Error fetching specific file metadata:"; LError e] |}]).
Proof.
  intros w'. subst w'. split.
  - unfold Listing.delayed_metadata, try_catch, mbind, Run_bind.
    destruct (Metadata.getFileMetadata fileId accessToken w) as [[metadata | e] w1];
      [|reflexivity].
    destruct (Metadata.displayFileMetadata metadata w1) as [[[] | e] w2]; reflexivity.
  - intros Hfailed.
    destruct (getFileMetadata_throws w fileId accessToken Hfailed) as [e Hrun].
    unfold Listing.delayed_metadata, try_catch, mbind, Run_bind.
    rewrite Hrun. cbn. repeat split. exists e. reflexivity.
Qed.

Lemma delayed_metadata_fails_silently_witness :
  let w := page EmptyString offline "kept" in
  container (snd (@Listing.delayed_metadata exact_host "42" (JStr "tok") w)) = container w.
Proof.
  exact (proj1 (proj2 (@delayed_metadata_fails_silently exact_host "42" (JStr "tok")
                         (page EmptyString offline "kept")) I)).
Defined.

(** X21.  The metadata button of a row never throws.  When its exchange
    fails, the container shows an error box naming the file and the
    error's message, both escaped, so that no raw [<script>] can come
    from either. *)
Theorem getFileMetadataForDisplay_reports_failure `{Host} (fileId accessToken : string)
        (w : World) :
  let w' := snd (Listing.getFileMetadataForDisplay fileId accessToken w) in
  fst (Listing.getFileMetadataForDisplay fileId accessToken w) = Normal tt /\
  (failed (upstream w (requests w) (Metadata.file_request fileId (JStr accessToken))) ->
   (exists e,
      container w' =
        error_box (Params.escapeHtml
                     (JStr ("Failed to fetch metadata for file " +:+ fileId +:+ ": " +:+
                            message e)))) /\
   Str.includes (container w') "<script>" = false /\
   requests w' = requests w ++ [Metadata.file_request fileId (JStr accessToken)]).
Proof.
  intros w'. subst w'. split.
  - unfold Listing.getFileMetadataForDisplay, try_catch, mbind, Run_bind, modify.
    match goal with
    | |- context [Metadata.getFileMetadata fileId ?t ?W] =>
        destruct (Metadata.getFileMetadata fileId t W) as [[metadata | e] w1]
    end; [|reflexivity].
    destruct (Metadata.displayFileMetadata metadata w1) as [[[] | e] w2]; reflexivity.
  - intros Hfailed.
    unfold Listing.getFileMetadataForDisplay, try_catch, mbind, Run_bind, modify.
    match goal with
    | |- context [Metadata.getFileMetadata fileId ?t ?W] =>
        destruct (getFileMetadata_throws W fileId t Hfailed) as [e Hrun]
    end.
    rewrite Hrun. unfold console_error, modify.
    split; [exists e; reflexivity|]. split; [|reflexivity].
    apply showMetadataError_no_script.
Qed.

Lemma getFileMetadataForDisplay_reports_failure_witness :
  let w := page EmptyString offline EmptyString in
  Str.includes
    (container (snd (@Listing.getFileMetadataForDisplay exact_host "<script>" "tok" w)))
    "<script>" = false.
Proof.
  exact (proj1 (proj2 (proj2 (@getFileMetadataForDisplay_reports_failure exact_host
                                "<script>" "tok" (page EmptyString offline EmptyString)) I))).
Defined.

(** X22.  What [listAllFiles] throws on a non-success response with a
    JSON object body: the status, then [message], else [error], else the
    literal [Unknown error]; the container is not touched and the one
    request is the listing request bearing the token. *)
Theorem listAllFiles_failure `{Host} (Date_toLocaleDateString : JValue -> string)
        (accessToken : JValue) (w : World) (r : Response)
        (members : list (string * JValue)) :
  upstream w (requests w) (Listing.files_request accessToken) = Fulfilled r ->
  ok r = false ->
  body r = Json (JObj members) ->
  let w' := snd (Listing.listAllFiles Date_toLocaleDateString accessToken w) in
  fst (Listing.listAllFiles Date_toLocaleDateString accessToken w) =
    Throw (Error ("Failed to fetch files: " +:+ Str.of_Z (status r) +:+ " - " +:+
                  Js.toString (Js.or (Js.lookup "message" members)
                                     (Js.or (Js.lookup "error" members)
                                            (JStr "Unknown error"))))) /\
  container w' = container w /\
  requests w' = requests w ++ [Listing.files_request accessToken].
Proof.
  intros Hup Hok Hbody w'. subst w'.
  unfold Listing.listAllFiles, Listing.files_failure, mbind, Run_bind, fetch, json,
    console_log, console_error, modify, lift, throw.
  cbn [upstream requests set_console]. rewrite Hup. cbn [upstream requests set_requests].
  rewrite Hok, Hbody. cbn [negb mret Run_ret Js.prop]. unfold Js.or.
  destruct (Js.truthy (Js.lookup "message" members)); cbn; repeat split.
Qed.

Lemma listAllFiles_failure_witness :
  let w := page EmptyString
                (scripted [Fulfilled {| status := 500; body := Json (JObj []) |}])
                EmptyString in
  fst (@Listing.listAllFiles exact_host Js.toString (JStr "tok") w) =
    Throw (Error "Failed to fetch files: 500 - Unknown error").
Proof.
  exact (proj1 (@listAllFiles_failure exact_host Js.toString (JStr "tok")
                  (page EmptyString
                        (scripted [Fulfilled {| status := 500; body := Json (JObj []) |}])
                        EmptyString)
                  {| status := 500; body := Json (JObj []) |} []
                  eq_refl eq_refl eq_refl)).
Defined.

(** X23.  The fetch action of the list-all revision never throws.  It
    asks for a file identifier only to schedule the extra fetch: what it
    hands to [setTimeout] is nothing, or the one delayed fetch of the
    [file_id] of the query, due after a second.  Without credentials
    nothing is sent and the control is left alone; with them the control
    is idle at the end, whatever happened. *)
Theorem listing_fetch_schedules `{Host} (Date_toLocaleDateString : JValue -> string)
        (w : World) :
  let w' := snd (Listing.fetchFileMetadata Date_toLocaleDateString w) in
  (exists tasks,
     fst (Listing.fetchFileMetadata Date_toLocaleDateString w) = Normal tasks /\
     (tasks = [] \/
      exists fileId accessToken,
        Params.getParameter w "file_id" = Some fileId /\ fileId <> EmptyString /\
        tasks = [(1000, Listing.delayed_metadata fileId accessToken)])) /\
  (missing (Params.getParameter w "client_id") ||
   missing (Params.getParameter w "client_secret") = true ->
   requests w' = requests w /\ button w' = button w /\
   container w' = error_box Listing.credentials_required) /\
  (missing (Params.getParameter w "client_id") ||
   missing (Params.getParameter w "client_secret") = false ->
   idle Listing.idle_label w').
Proof.
  intros w'. subst w'. unfold Listing.fetchFileMetadata, mbind, Run_bind, gets.
  destruct (missing (Params.getParameter w "client_id") ||
            missing (Params.getParameter w "client_secret")).
  - split; [exists []; split; [reflexivity | left; reflexivity]|].
    split; [intros _; repeat split | discriminate].
  - cbn [modify]. split; [|split; [discriminate|]].
    + unfold try_finally, try_catch, console_error, console_log,
        Metadata.showMetadataError, mbind, Run_bind, lift, throw, mret, Run_ret.
      unfold modify.
      match goal with
      | |- context [Metadata.getAccessToken ?a ?b ?W] =>
          destruct (Metadata.getAccessToken a b W) as [[tokenResponse | e] w1]
      end; [|exists []; split; [reflexivity | left; reflexivity]].
      destruct (Js.prop tokenResponse "access_token") as [e | access_token];
        [exists []; split; [reflexivity | left; reflexivity]|].
      destruct (Js.truthy access_token); cbn [negb]; cbv beta iota.
      * match goal with
        | |- context [Listing.listAllFiles ?d ?t ?W] =>
            destruct (Listing.listAllFiles d t W) as [[[] | e] w2]
        end; [|exists []; split; [reflexivity | left; reflexivity]].
        destruct (Params.getParameter w "file_id") as [fileId|] eqn:Hfile;
          cbn [missing text_of negb];
          [|exists []; split; [reflexivity | left; reflexivity]].
        destruct (String.eqb fileId EmptyString) eqn:Hempty; cbn [negb];
          [exists []; split; [reflexivity | left; reflexivity]|].
        eexists. split; [reflexivity|]. right. exists fileId, access_token.
        apply String.eqb_neq in Hempty. repeat split. exact Hempty.
      * destruct (Js.prop tokenResponse "error_description");
          exists []; split; try reflexivity; left; reflexivity.
    + intros _. apply (try_finally_reset_idle (A := list (Z * Run unit))).
Qed.

Lemma listing_fetch_schedules_witness :
  idle Listing.idle_label
       (snd (@Listing.fetchFileMetadata exact_host Js.toString (scenario "stale"))).
Proof.
  exact (proj2 (proj2 (@listing_fetch_schedules exact_host Js.toString (scenario "stale")))
               eq_refl).
Defined.

Lemma Metadata_displayFileMetadata_no_script_witness :
  Str.includes
    (container (snd (@Metadata.displayFileMetadata exact_host crafted_file
                       (page EmptyString offline EmptyString))))
    "<script>" = false.
Proof.
  exact (@Metadata_displayFileMetadata_no_script exact_host crafted_file
           (page EmptyString offline EmptyString) eq_refl).
Defined.

(** ** The authorization-code revision, end to end *)

(** X26.  With the credentials and the file identifier present but no
    [auth_code] in the query, the fetch action of the authorization-code
    revision contacts nothing: no request is sent, the container shows
    the requirement as an error, and the control is idle again. *)
Theorem fetch_without_authorization_code `{Host} (w : World)
        (fileId clientId clientSecret : string) :
  Params.getParameter w "file_id" = Some fileId -> fileId <> EmptyString ->
  Params.getParameter w "client_id" = Some clientId -> clientId <> EmptyString ->
  Params.getParameter w "client_secret" = Some clientSecret -> clientSecret <> EmptyString ->
  missing (Params.getParameter w "auth_code") = true ->
  let w' := snd (AuthCode.fetchFileMetadata w) in
  fst (AuthCode.fetchFileMetadata w) = Normal tt /\
  requests w' = requests w /\
  container w' =
    error_box "Failed to fetch file metadata: Authorization code is required. Please ensure the auth_code parameter is present in the URL." /\
  alerts w' = alerts w /\
  idle AuthCode.idle_label w'.
Proof.
  intros Hfile Hfile' Hid Hid' Hsecret Hsecret' Hcode w'. subst w'.
  unfold AuthCode.fetchFileMetadata, AuthCode.getAccessToken.
  cbv beta iota delta [mbind Run_bind gets].
  rewrite Hfile, Hid, Hsecret. cbn [missing text_of].
  rewrite (proj2 (String.eqb_neq _ _) Hfile'), (proj2 (String.eqb_neq _ _) Hid'),
    (proj2 (String.eqb_neq _ _) Hsecret').
  cbv beta iota delta [orb modify try_finally try_catch].
  unfold Params.getParameter in *. cbn [location_search set_container set_button].
  rewrite Hcode.
  repeat split.
Qed.

Lemma fetch_without_authorization_code_witness :
  let w := page "?file_id=42&client_id=abc&client_secret=xyz" offline EmptyString in
  requests (snd (@AuthCode.fetchFileMetadata exact_host w)) = requests w.
Proof.
  exact (proj1 (proj2 (@fetch_without_authorization_code exact_host
                         (page "?file_id=42&client_id=abc&client_secret=xyz" offline
                               EmptyString)
                         "42" "abc" "xyz"
                         eq_refl ltac:(discriminate) eq_refl ltac:(discriminate)
                         eq_refl ltac:(discriminate) eq_refl))).
Defined.

(** ** The byte-size formatter, continued *)

Section ByteSizeMore.
Context `{Host}.
Import Render.

Lemma hundredths_multiple (m d : Z) : 0 < d -> hundredths (m * d) d = 100 * m.
Proof.
  intros Hd. unfold hundredths. symmetry.
  apply (Z.div_unique_pos _ _ _ d); lia.
Qed.

Lemma two_decimals_trimmed_whole (m : Z) :
  two_decimals_trimmed (100 * m) = Str.of_Z m.
Proof.
  unfold two_decimals_trimmed.
  rewrite (Z.mul_comm 100 m), Z_mod_mult, Z.div_mul by lia. reflexivity.
Qed.

Lemma unit_of_tier (i : Z) :
  0 <= i <= 4 ->
  exists unit, nth_error sizes (Z.to_nat i) = Some unit /\
               Js.toString (at_index sizes i) = unit.
Proof.
  intros Hi. unfold at_index.
  replace (i <? 0) with false by (symmetry; apply Z.ltb_ge; lia).
  assert (Hcases : i = 0 \/ i = 1 \/ i = 2 \/ i = 3 \/ i = 4) by lia.
  destruct Hcases as [-> | [-> | [-> | [-> | ->]]]]; eexists; split; reflexivity.
Qed.

End ByteSizeMore.

(** X24.  A whole number of units is printed without a fraction: for
    [1 <= m < 1024] and a unit of the table, [m * 1024^i] bytes are
    shown as [m] and the unit, when the engine computes the index of
    that count as [i]. *)
Theorem formatFileSize_whole_units `{Host} (m i : Z) :
  1 <= m < 1024 ->
  0 <= i <= 4 ->
  Math_floor_log (m * 1024 ^ i) 1024 = i ->
  exists unit,
    nth_error Render.sizes (Z.to_nat i) = Some unit /\
    Render.formatFileSize (JNum (m * 1024 ^ i)) = Str.of_Z m +:+ " " +:+ unit.
Proof.
  intros Hm Hi Hlog.
  assert (Hd : 0 < 1024 ^ i) by (apply Z.pow_pos_nonneg; lia).
  destruct (unit_of_tier i Hi) as (unit & Hnth & Hshow).
  exists unit. split; [exact Hnth|].
  rewrite (formatFileSize_at (m * 1024 ^ i) i) by (try exact Hlog; nia).
  rewrite hundredths_multiple by exact Hd.
  rewrite two_decimals_trimmed_whole, Hshow. reflexivity.
Qed.

Lemma formatFileSize_whole_units_witness :
  exists unit,
    nth_error Render.sizes (Z.to_nat 2) = Some unit /\
    @Render.formatFileSize exact_host (JNum (5 * 1024 ^ 2)) = Str.of_Z 5 +:+ " " +:+ unit.
Proof.
  exact (@formatFileSize_whole_units exact_host 5 2 ltac:(lia) ltac:(lia) eq_refl).
Defined.

(** X25.  Just below the next unit the magnitude is rounded up to 1024
    and the unit stays: a count within [1024^i / 200] of [1024^(i+1)]
    is shown as [1024] and unit [i], not as [1] and the next unit. *)
Theorem formatFileSize_rounds_up_to_1024 `{Host} (b i : Z) :
  1 <= i <= 4 ->
  b < 1024 ^ (i + 1) ->
  200 * (1024 ^ (i + 1) - b) <= 1024 ^ i ->
  Math_floor_log b 1024 = i ->
  exists unit,
    nth_error Render.sizes (Z.to_nat i) = Some unit /\
    Render.formatFileSize (JNum b) = "1024 " +:+ unit.
Proof.
  intros Hi Hbelow Hnear Hlog.
  assert (Hd : 0 < 1024 ^ i) by (apply Z.pow_pos_nonneg; lia).
  assert (Hnext : 1024 ^ (i + 1) = 1024 * 1024 ^ i) by (rewrite Z.pow_add_r by lia; lia).
  rewrite Hnext in *.
  destruct (unit_of_tier i ltac:(lia)) as (unit & Hnth & Hshow).
  exists unit. split; [exact Hnth|].
  rewrite (formatFileSize_at b i) by (try exact Hlog; lia).
  pose proof (hundredths_nearest b (1024 ^ i) Hd) as Hround.
  assert (Hvalue : Render.hundredths b (1024 ^ i) = 102400) by nia.
  rewrite Hvalue, Hshow. reflexivity.
Qed.

Lemma formatFileSize_rounds_up_to_1024_witness :
  exists unit,
    nth_error Render.sizes (Z.to_nat 1) = Some unit /\
    @Render.formatFileSize exact_host (JNum 1048575) = "1024 " +:+ unit.
Proof.
  exact (@formatFileSize_rounds_up_to_1024 exact_host 1048575 1
           ltac:(lia) ltac:(reflexivity) ltac:(vm_compute; discriminate) eq_refl).
Defined.
